(** * YouTubePulse: the analysis pipeline, embedded and verified

    Source files embedded here:
    - [server.js]: the handler of [POST /api/analyze],
      [calculateEnhancedMetrics], [getVideoBreakdown];
    - [services/youtubeService.js]: the [YouTubeService] class;
    - [services/aiService.js]: the [AIService] class.

    Conventions of the embedding.
    - A JavaScript number is a [number]: [NaN], a signed infinity, or an exact
      rational.  [parseInt] rounds what it reads to the nearest binary64
      number, as the engine does, so that every counter is a binary64
      integer or an infinity.  The arithmetic on numbers is exact: it is the
      engine's arithmetic as long as the values are integers below 2^53, and
      the statements on sums and averages carry the bound that keeps them
      there.  Signed zeros are not modelled.
    - A JavaScript string is a [string] of 8-bit characters; case conversion
      and white space are those of ASCII.
    - A function that can throw returns a [result]; a rejected promise is a
      returned [Throw].  Console output is not modelled.
    - The HTTP data provider, the text-generation server, [JSON.parse] and
      the date parser of [new Date(s)] are not code of the repository: they
      are the fields of the record [Provider] and the arguments [generate],
      [JSON_parse], [ToNumber] and [Date_parse]. *)

From Stdlib Require Import ZArith QArith Qabs Qround List String Ascii Bool Lia.
From Stdlib Require Import Sorted Permutation DecimalString DecimalN.
Import ListNotations.

Local Close Scope Q_scope.
Local Open Scope list_scope.
Local Open Scope string_scope.
#[local] Set Warnings "-register-all".

(** ** The JavaScript runtime *)

Module JS.

(** *** Numbers *)

Inductive number : Type :=
| NaN : number
| Inf (negative : bool) : number
| Fin (q : Q) : number.

Definition fin (q : Q) : number := Fin (Qred q).
Definition of_Z (z : Z) : number := Fin (inject_Z z).
Definition of_nat (n : nat) : number := of_Z (Z.of_nat n).

Definition zero : number := of_Z 0.

(** The first power of two that binary64 cannot hold. *)
Definition huge : Z := (2 ^ 1024)%Z.

(** The binary64 number nearest to an integer, ties to the even significand:
    the number that a numeral of that value converts to.  Integers below 2^53
    are exact, and an integer that rounds to [huge] is an infinity. *)
Definition binary64 (z : Z) : number :=
  let a := Z.abs z in
  if (a <? 2 ^ 53)%Z then of_Z z
  else
    let ulp := (2 ^ (Z.log2 a - 52))%Z in
    let m := (a / ulp)%Z in
    let r := (a mod ulp)%Z in
    let m := if (2 * r <? ulp)%Z then m
             else if (ulp <? 2 * r)%Z then (m + 1)%Z
             else if Z.even m then m else (m + 1)%Z in
    if (huge <=? m * ulp)%Z then Inf (z <? 0)%Z
    else of_Z (Z.sgn z * (m * ulp)).

Definition Qneg (q : Q) : bool := (Qnum q <? 0)%Z.
Definition Qzero (q : Q) : bool := (Qnum q =? 0)%Z.

(** [x + y] *)
Definition nadd (x y : number) : number :=
  match x, y with
  | NaN, _ | _, NaN => NaN
  | Inf a, Inf b => if Bool.eqb a b then Inf a else NaN
  | Inf a, Fin _ | Fin _, Inf a => Inf a
  | Fin p, Fin q => fin (p + q)%Q
  end.

Definition nopp (x : number) : number :=
  match x with
  | NaN => NaN
  | Inf a => Inf (negb a)
  | Fin q => fin (- q)%Q
  end.

(** [x - y] *)
Definition nsub (x y : number) : number := nadd x (nopp y).

(** [x * y] *)
Definition nmul (x y : number) : number :=
  match x, y with
  | NaN, _ | _, NaN => NaN
  | Inf a, Inf b => Inf (xorb a b)
  | Inf a, Fin q | Fin q, Inf a =>
      if Qzero q then NaN else Inf (xorb a (Qneg q))
  | Fin p, Fin q => fin (p * q)%Q
  end.

(** [x / y]; a zero divisor is the positive zero. *)
Definition ndiv (x y : number) : number :=
  match x, y with
  | NaN, _ | _, NaN => NaN
  | Inf _, Inf _ => NaN
  | Inf a, Fin q => Inf (xorb a (Qneg q))
  | Fin _, Inf _ => zero
  | Fin p, Fin q =>
      if Qzero q then (if Qzero p then NaN else Inf (Qneg p))
      else fin (p / q)%Q
  end.

(** [x < y]: false as soon as one side is [NaN]. *)
Definition nlt (x y : number) : bool :=
  match x, y with
  | NaN, _ | _, NaN => false
  | Inf a, Inf b => a && negb b
  | Inf a, Fin _ => a
  | Fin _, Inf b => negb b
  | Fin p, Fin q => match (p ?= q)%Q with Lt => true | _ => false end
  end.

(** [x > y] *)
Definition ngt (x y : number) : bool := nlt y x.

(** [Math.floor(x)] and [Math.round(x)] (halves round up). *)
Definition Math_floor (x : number) : number :=
  match x with
  | Fin q => of_Z (Qfloor q)
  | _ => x
  end.

Definition Math_round (x : number) : number :=
  match x with
  | Fin q => of_Z (Qfloor (q + (1 # 2))%Q)
  | _ => x
  end.

(** *** Characters and strings *)

Definition is_space (c : ascii) : bool :=
  let n := nat_of_ascii c in
  (n =? 32)%nat || ((9 <=? n)%nat && (n <=? 13)%nat).

Definition digit_of (c : ascii) : option Z :=
  let n := Z.of_nat (nat_of_ascii c) in
  if ((48 <=? n) && (n <=? 57))%Z then Some (n - 48)%Z else None.

Definition hex_digit_of (c : ascii) : option Z :=
  let n := Z.of_nat (nat_of_ascii c) in
  if ((48 <=? n) && (n <=? 57))%Z then Some (n - 48)%Z
  else if ((97 <=? n) && (n <=? 102))%Z then Some (n - 87)%Z
  else if ((65 <=? n) && (n <=? 70))%Z then Some (n - 55)%Z
  else None.

Definition lower (c : ascii) : ascii :=
  let n := nat_of_ascii c in
  if ((65 <=? n) && (n <=? 90))%nat then ascii_of_nat (n + 32) else c.

(** [s.toLowerCase()] *)
Fixpoint toLowerCase (s : string) : string :=
  match s with
  | EmptyString => EmptyString
  | String c s' => String (lower c) (toLowerCase s')
  end.

(** [s.includes(p)] *)
Fixpoint includes (s p : string) : bool :=
  prefix p s ||
  match s with
  | EmptyString => false
  | String _ s' => includes s' p
  end.

(** [l.join(sep)] *)
Fixpoint join (sep : string) (l : list string) : string :=
  match l with
  | [] => ""
  | [s] => s
  | s :: l' => s ++ sep ++ join sep l'
  end.

(** [s.replace(c, '')] for a one-character pattern: the first occurrence only. *)
Fixpoint replace_first (c : ascii) (s : string) : string :=
  match s with
  | EmptyString => EmptyString
  | String d s' => if Ascii.eqb c d then s' else String d (replace_first c s')
  end.

Fixpoint skip_spaces (s : string) : string :=
  match s with
  | String c s' => if is_space c then skip_spaces s' else s
  | EmptyString => s
  end.

(** The longest prefix of digits (as [digit] reads them), folded in [radix];
    [None] when the prefix is empty.  The rest of the string comes with it. *)
Fixpoint digits_from (digit : ascii -> option Z) (radix : Z) (acc : option Z)
    (s : string) : option Z * string :=
  match s with
  | EmptyString => (acc, s)
  | String c s' =>
      match digit c with
      | Some d =>
          digits_from digit radix
            (Some (match acc with Some a => a * radix + d | None => d end)%Z) s'
      | None => (acc, s)
      end
  end.

(** The sign of a numeric literal: [(negative, rest)]. *)
Definition read_sign (s : string) : bool * string :=
  match s with
  | String "-" s' => (true, s')
  | String "+" s' => (false, s')
  | _ => (false, s)
  end.

(** [parseInt(s)] on a string, no radix given: the value of the digits read,
    as a binary64 number. *)
Definition parseInt (s : string) : number :=
  let (neg, s1) := read_sign (skip_spaces s) in
  let parsed :=
    match s1 with
    | String "0" (String x s2) =>
        if (Ascii.eqb x "x" || Ascii.eqb x "X")%bool
        then fst (digits_from hex_digit_of 16 None s2)
        else fst (digits_from digit_of 10 None s1)
    | _ => fst (digits_from digit_of 10 None s1)
    end in
  match parsed with
  | Some z => binary64 (if neg then (- z)%Z else z)
  | None => NaN
  end.

(** Decimal digits of a natural number. *)
Definition decimal (n : N) : string := NilZero.string_of_uint (N.to_uint n).

Fixpoint zeros (n : nat) : string :=
  match n with
  | O => ""
  | S n' => String "0" (zeros n')
  end.

(** [x.toFixed(d)]: the nearest multiple of [10^-d], the larger one on a tie,
    with exactly [d] decimals.  (Magnitudes from 1e21 on, which JavaScript
    prints with an exponent, are printed positionally.)  The number printed
    is the exact value of [x]: where the engine has rounded [x] off a tie,
    its last digit can differ, so the statements read [toFixed] only where
    [x] is exact. *)
Definition toFixed (d : nat) (x : number) : string :=
  match x with
  | NaN => "NaN"
  | Inf false => "Infinity"
  | Inf true => "-Infinity"
  | Fin q =>
      let n := Z.to_N (Qfloor (Qabs q * inject_Z (10 ^ Z.of_nat d) + (1 # 2))%Q) in
      let ds := decimal n in
      let ds := zeros (S d - String.length ds) ++ ds in
      let k := (String.length ds - d)%nat in
      let int_part := substring 0 k ds in
      let frac_part := substring k d ds in
      (if Qneg q then "-" else "") ++ int_part ++
      (match d with O => "" | _ => "." ++ frac_part end)
  end.

(** [parseFloat(s)]: the longest prefix that is a decimal literal, with its
    exact value. *)
Definition parseFloat (s : string) : number :=
  let (neg, s1) := read_sign (skip_spaces s) in
  if prefix "Infinity" s1 then Inf neg else
  let (ip, s2) := digits_from digit_of 10 None s1 in
  let (fp, s3) :=
    match s2 with
    | String "." s2' =>
        let (f, r) := digits_from digit_of 10 None s2' in
        match f with
        | Some fz =>
            (Some (fz # Pos.of_nat (10 ^ (String.length s2' - String.length r)))%Q, r)
        | None => (None, match ip with Some _ => s2' | None => s2 end)
        end
    | _ => (None, s2)
    end in
  match ip, fp with
  | None, None => NaN
  | _, _ =>
      let m := (inject_Z (match ip with Some z => z | None => 0%Z end)
                + match fp with Some f => f | None => 0%Q end)%Q in
      let e :=
        match s3 with
        | String c s4 =>
            if (Ascii.eqb c "e" || Ascii.eqb c "E")%bool then
              let (eneg, s5) := read_sign s4 in
              match fst (digits_from digit_of 10 None s5) with
              | Some ez => if eneg then (- ez)%Z else ez
              | None => 0%Z
              end
            else 0%Z
        | EmptyString => 0%Z
        end in
      let v := (m * Qpower 10 e)%Q in
      fin (if neg then (- v)%Q else v)
  end.

(** *** Optional fields

    A field of a JSON answer that is a string when present: [None] is
    [undefined]. *)

Definition field : Type := option string.

(** [ToString(c)], as [parseInt(c)] applies it to its argument. *)
Definition ToString (c : field) : string :=
  match c with
  | Some s => s
  | None => "undefined"
  end.

(** [ToString(c || 0)]: the empty string is falsy as [undefined] is, and the
    number [0] prints as the string of one zero. *)
Definition or_zero (c : field) : string :=
  match c with
  | Some EmptyString | None => "0"
  | Some s => s
  end.

(** An array index out of a number, as [slice] reads its arguments
    (non-negative arguments only). *)
Definition to_index (x : number) : nat :=
  match x with
  | Fin q => Z.to_nat (Qfloor q)
  | _ => 0
  end.

(** [a[i]] read as a number: [undefined] converts to [NaN]. *)
Definition number_at (a : list number) (i : nat) : number :=
  match nth_error a i with
  | Some x => x
  | None => NaN
  end.

(** *** Exceptions *)

Inductive exn : Type :=
| Error (message : string)
| TypeError (message : string)
| SyntaxError (message : string).

Definition exn_name (e : exn) : string :=
  match e with
  | Error _ => "Error"
  | TypeError _ => "TypeError"
  | SyntaxError _ => "SyntaxError"
  end.

Definition exn_message (e : exn) : string :=
  match e with
  | Error m | TypeError m | SyntaxError m => m
  end.

Inductive result (A : Type) : Type :=
| Ok (a : A)
| Throw (e : exn).
Arguments Ok {A} a.
Arguments Throw {A} e.

Definition bind {A B : Type} (r : result A) (k : A -> result B) : result B :=
  match r with
  | Ok a => k a
  | Throw e => Throw e
  end.

Declare Scope result_scope.
Delimit Scope result_scope with result.
Notation "x <- r ;; k" := (bind r (fun x => k))
  (at level 61, r at next level, right associativity) : result_scope.

(** [try { body } catch (error) { throw new Error(prefix + error.message) }] *)
Definition rethrow {A : Type} (pre : string) (body : result A) : result A :=
  match body with
  | Ok a => Ok a
  | Throw e => Throw (Error (pre ++ exn_message e))
  end.

(** [await Promise.all(l.map(f))]: the results in order, or a rejection.
    When several promises reject, the one reported is the first of the
    list (JavaScript reports the first in time). *)
Fixpoint Promise_all {A B : Type} (f : A -> result B) (l : list A)
    : result (list B) :=
  match l with
  | [] => Ok []
  | a :: l' =>
      match f a with
      | Throw e => Throw e
      | Ok b => (bs <- Promise_all f l' ;; Ok (b :: bs))%result
      end
  end.

(** *** Sorting *)

(** [l.sort(cmp)]: the stable sort of ECMAScript 2019.  A comparator result
    that is [NaN] counts as zero.  With a consistent comparator every stable
    sort returns this list; the model inserts from the right. *)
Section Sort.
Context {A : Type} (cmp : A -> A -> number).

Definition after (a b : A) : bool := ngt (cmp a b) zero.

Fixpoint insert (a : A) (l : list A) : list A :=
  match l with
  | [] => [a]
  | b :: l' => if after a b then b :: insert a l' else a :: b :: l'
  end.

Definition sort (l : list A) : list A := fold_right insert [] l.
End Sort.

End JS.

(** ** services/youtubeService.js *)

Module Comment.
Record t : Type := mk {
  text : string;
  likeCount : Z;
  author : string;
  publishedAt : string
}.
End Comment.

Module Stats.
Record t : Type := mk {
  viewCount : JS.field;
  likeCount : JS.field;
  commentCount : JS.field;
  duration : string
}.
End Stats.

Module Snippet.
Record t : Type := mk {
  videoId : string;
  title : string;
  description : string;
  publishedAt : string;
  thumbnails : string
}.
End Snippet.

Module Video.
Record t : Type := mk {
  videoId : string;
  title : string;
  description : string;
  publishedAt : string;
  thumbnails : string;
  transcript : option string;     (* [None] is [null] *)
  comments : list Comment.t;
  stats : Stats.t
}.
End Video.

Module ChannelStats.
Record t : Type := mk {
  subscriberCount : JS.field;
  totalViews : JS.field;
  totalVideos : JS.field;
  channelName : string;
  channelDescription : string;
  publishedAt : string
}.
End ChannelStats.

Module Dataset.
Record t : Type := mk {
  channelId : string;
  channelHandle : string;
  channelStats : ChannelStats.t;
  videos : list Video.t;
  totalVideosAnalyzed : JS.number;
  totalComments : JS.number
}.
End Dataset.

Module YouTubeService.
Import JS.
Local Open Scope result_scope.

(** The data provider behind [axios.get] and [YoutubeTranscript]: each
    request either fails with an error or answers with the [items] of the
    response, already read into the fields the service uses. *)
Record Provider : Type := {
  search_channels : string -> result (list string);
  search_videos : string -> result (list Snippet.t);
  fetchTranscript : string -> result (list string);
  commentThreads : string -> nat -> result (list Comment.t);
  videos_statistics : string -> result (list Stats.t);
  channels_statistics : string -> result (list ChannelStats.t)
}.

Section Service.
Variable this : Provider.

Definition getChannelId (channelHandle : string) : result string :=
  rethrow "Error finding channel: "
    (let handle := replace_first "@" channelHandle in
     items <- search_channels this handle ;;
     match items with
     | [] => Throw (Error "Channel not found")
     | id :: _ => Ok id
     end).

Definition getLatestVideos (channelId : string) : result (list Snippet.t) :=
  rethrow "Error fetching videos: " (search_videos this channelId).

Definition getTranscript (videoId : string) : option string :=
  match fetchTranscript this videoId with
  | Ok transcript => Some (join " " transcript)
  | Throw _ => None
  end.

Definition getTopComments (videoId : string) (maxResults : nat)
    : list Comment.t :=
  match commentThreads this videoId maxResults with
  | Ok items => items
  | Throw _ => []
  end.

Definition getVideoStats (videoId : string) : result Stats.t :=
  rethrow "Error fetching video stats: "
    (items <- videos_statistics this videoId ;;
     match items with
     | video :: _ => Ok video
     | [] =>
         Throw (TypeError
           "Cannot read properties of undefined (reading 'statistics')")
     end).

Definition getChannelStats (channelId : string) : result ChannelStats.t :=
  rethrow "Error fetching channel stats: "
    (items <- channels_statistics this channelId ;;
     match items with
     | channel :: _ => Ok channel
     | [] =>
         Throw (TypeError
           "Cannot read properties of undefined (reading 'statistics')")
     end).

(** The body of [videos.map(async (video) => ...)]: the three fetches of
    one video, joined. *)
Definition gatherVideo (video : Snippet.t) : result Video.t :=
  let transcript := getTranscript (Snippet.videoId video) in
  let comments := getTopComments (Snippet.videoId video) 50 in
  stats <- getVideoStats (Snippet.videoId video) ;;
  Ok (Video.mk (Snippet.videoId video) (Snippet.title video)
        (Snippet.description video) (Snippet.publishedAt video)
        (Snippet.thumbnails video) transcript comments stats).

Definition gatherChannelIntelligence (channelHandle : string)
    : result Dataset.t :=
  rethrow "Intelligence gathering failed: "
    (channelId <- getChannelId channelHandle ;;
     channelStats <- getChannelStats channelId ;;
     videos <- getLatestVideos channelId ;;
     videoData <- Promise_all gatherVideo videos ;;
     Ok (Dataset.mk channelId channelHandle channelStats videoData
           (of_nat (List.length videoData))
           (fold_left
              (fun sum v => nadd sum (of_nat (List.length (Video.comments v))))
              videoData zero))).
End Service.

End YouTubeService.

(** ** services/aiService.js *)

Module AIService.
Import JS.

(** Parsed JSON. *)
Inductive json : Type :=
| JNull
| JBool (b : bool)
| JNum (x : number)
| JStr (s : string)
| JArr (l : list json)
| JObj (fields : list (string * json)).

(** [o[key]] on a parsed object: [None] is [undefined]. *)
Fixpoint get (key : string) (fields : list (string * json)) : option json :=
  match fields with
  | [] => None
  | (k, v) :: rest => if String.eqb k key then Some v else get key rest
  end.

(** [o[key] = v] on a parsed object that has the key. *)
Fixpoint set (key : string) (v : json) (fields : list (string * json))
    : list (string * json) :=
  match fields with
  | [] => []
  | (k, w) :: rest =>
      if String.eqb k key then (k, v) :: rest else (k, w) :: set key v rest
  end.

(** Double quotes of a string literal are written as back quotes in this
    file; [dq] restores them. *)
Fixpoint dq (s : string) : string :=
  match s with
  | EmptyString => EmptyString
  | String c s' =>
      String (if Ascii.eqb c "`" then ascii_of_nat 34 else c) (dq s')
  end.

Definition nl : string := String (ascii_of_nat 10) EmptyString.

(** [s.match(/\{[\s\S]*?\}/)]: from the first opening brace to the first
    closing brace after it. *)
Fixpoint until_close (s : string) : option string :=
  match s with
  | EmptyString => None
  | String c s' =>
      if Ascii.eqb c "}" then Some (String c EmptyString)
      else option_map (String c) (until_close s')
  end.

Fixpoint match_object (s : string) : option string :=
  match s with
  | EmptyString => None
  | String c s' =>
      if Ascii.eqb c "{" then option_map (String c) (until_close s')
      else match_object s'
  end.

(** A computation that may call the text-generation server: it extends the
    list of the prompts sent so far. *)
Definition M (A : Type) : Type := list string -> A * list string.

Definition ret {A : Type} (a : A) : M A := fun calls => (a, calls).

Definition mbind {A B : Type} (m : M A) (k : A -> M B) : M B :=
  fun calls => let (a, calls') := m calls in k a calls'.

Declare Scope model_scope.
Notation "x <- m ;; k" := (mbind m (fun x => k))
  (at level 61, m at next level, right associativity) : model_scope.
Local Open Scope model_scope.

Definition object (fields : list (string * string)) : json :=
  JObj (map (fun kv => (fst kv, JStr (snd kv))) fields).

Definition complaint (text frequency : string) : json :=
  object [("text", text); ("frequency", frequency)].

Definition insufficient_data : json :=
  JObj [("complaints",
         JArr [complaint "Limited engagement data" "medium";
               complaint "Low comment activity" "low";
               complaint "Check community settings" "low"]);
        ("mostRequestedFeature", JStr "More data needed")].

Definition positive_fallback : json :=
  JObj [("complaints",
         JArr [complaint "Positive audience response" "high";
               complaint "Strong engagement" "medium";
               complaint "Active community" "low"]);
        ("mostRequestedFeature", JStr "Similar content")].

Definition spectacle : json :=
  JObj [("primaryHook", JStr "Entertainment & Spectacle");
        ("secondaryHooks", JArr [JStr "FOMO"; JStr "Curiosity"]);
        ("strategy", JStr "Viral content with high production value")].

Definition generic_hooks : json :=
  JObj [("primaryHook", JStr "Viewer Entertainment");
        ("secondaryHooks", JArr [JStr "Engagement"]);
        ("strategy", JStr "Audience retention focus")].

(** [s.match(/\[[\s\S]*?\]/)]: from the first opening bracket to the
    first closing bracket after it. *)
Fixpoint until_bracket (s : string) : option string :=
  match s with
  | EmptyString => None
  | String c s' =>
      if Ascii.eqb c "]" then Some (String c EmptyString)
      else option_map (String c) (until_bracket s')
  end.

Fixpoint match_array (s : string) : option string :=
  match s with
  | EmptyString => None
  | String c s' =>
      if Ascii.eqb c "[" then option_map (String c) (until_bracket s')
      else match_array s'
  end.

(** [s.split(/\s+/)]: the pieces between the runs of white space.  A run at
    either end of the string leaves an empty piece there, and the empty
    string splits into one empty piece.  [words_from s after_space] is the
    piece being read and the pieces after it. *)
Fixpoint words_from (s : string) (after_space : bool) : string * list string :=
  match s with
  | EmptyString => (EmptyString, [])
  | String c s' =>
      if is_space c then
        if after_space then words_from s' true
        else (EmptyString, let (w, ws) := words_from s' true in w :: ws)
      else let (w, ws) := words_from s' false in (String c w, ws)
  end.

Definition split_spaces (s : string) : list string :=
  let (w, ws) := words_from s false in w :: ws.

(** [set.add(word)] on a [Set] of strings, kept in insertion order. *)
Definition Set_add (keywords : list string) (word : string) : list string :=
  if existsb (String.eqb word) keywords then keywords
  else (keywords ++ [word])%list.

(** The values that [wordCount] holds.  A word is counted by a number, but
    the word "constructor" reads [Object.prototype.constructor] the first
    time: adding [1] to that function gives its source text followed by a
    one, and every later occurrence appends one more. *)
Inductive count : Type :=
| Times (n : nat)
| Native (ones : nat).

(** [Number(c)], as the comparisons and the subtraction convert a count. *)
Definition count_number (c : count) : number :=
  match c with
  | Times n => of_nat n
  | Native _ => NaN
  end.

(** The own properties of [wordCount], in the order of their creation. *)
Fixpoint own (word : string) (wordCount : list (string * count))
    : option count :=
  match wordCount with
  | [] => None
  | (k, c) :: rest => if String.eqb k word then Some c else own word rest
  end.

Fixpoint put (word : string) (c : count) (wordCount : list (string * count))
    : list (string * count) :=
  match wordCount with
  | [] => [(word, c)]
  | (k, d) :: rest =>
      if String.eqb k word then (k, c) :: rest else (k, d) :: put word c rest
  end.

(** [wordCount[word] = (wordCount[word] || 0) + 1].  Assigning a string to
    ["__proto__"] goes to the setter of the prototype, which ignores it. *)
Definition bump (wordCount : list (string * count)) (word : string)
    : list (string * count) :=
  if String.eqb word "__proto__" then wordCount
  else
    match own word wordCount with
    | Some (Times n) => put word (Times (n + 1)) wordCount
    | Some (Native ones) => put word (Native (ones + 1)) wordCount
    | None =>
        if String.eqb word "constructor" then put word (Native 1) wordCount
        else put word (Times 1) wordCount
    end.

(** The key is an array index: the decimal form of an integer below
    [2^32 - 1], without a leading zero. *)
Definition index_of (word : string) : option Z :=
  match digits_from digit_of 10 None word with
  | (Some z, EmptyString) =>
      match word with
      | String "0" (String _ _) => None
      | _ => if (z <=? 4294967294)%Z then Some z else None
      end
  | _ => None
  end.

Definition is_index (entry : string * count) : bool :=
  match index_of (fst entry) with
  | Some _ => true
  | None => false
  end.

Definition index_number (entry : string * count) : number :=
  match index_of (fst entry) with
  | Some z => of_Z z
  | None => NaN
  end.

(** [Object.entries(wordCount)]: the keys that are array indices come first,
    in ascending order, then the other keys in the order of their creation. *)
Definition Object_entries (wordCount : list (string * count))
    : list (string * count) :=
  (sort (fun a b => nsub (index_number a) (index_number b))
        (filter is_index wordCount)
   ++ filter (fun e => negb (is_index e)) wordCount)%list.

Definition importance (c : count) : string :=
  if ngt (count_number c) (of_Z 5) then "high"
  else if ngt (count_number c) (of_Z 2) then "medium"
  else "low".

Definition stopwords : list string := ["video"; "watch"; "subscribe"].

Definition counted_word (word : string) : bool :=
  (4 <? String.length word)%nat && negb (existsb (String.eqb word) stopwords).

Definition keyword_entry (keyword imp : string) : json :=
  object [("keyword", keyword); ("importance", imp)].

Definition extractKeywords (videoData : list Video.t) : list json :=
  let text :=
    join " " (map (fun v => Video.title v ++ " " ++ Video.description v)
                  videoData) in
  let words := split_spaces (toLowerCase text) in
  let wordCount :=
    fold_left (fun wordCount word =>
                 if counted_word word then bump wordCount word else wordCount)
              words [] in
  let topWords :=
    map (fun e => keyword_entry (fst e) (importance (snd e)))
        (firstn 12
           (sort (fun a b => nsub (count_number (snd b)) (count_number (snd a)))
                 (Object_entries wordCount))) in
  if (0 <? List.length topWords)%nat then topWords
  else [keyword_entry "content" "medium"].

Definition feature_entry (k : string) : json :=
  object [("feature", k); ("category", "Detected"); ("confidence", "medium")].

Definition extractFeaturesFromTitles (videoData : list Video.t) : list json :=
  let keywords :=
    fold_left
      (fun keywords v =>
         fold_left
           (fun keywords word =>
              if (5 <? String.length word)%nat then Set_add keywords word
              else keywords)
           (split_spaces (Video.title v)) keywords)
      videoData [] in
  map feature_entry (firstn 5 keywords).

Module Report.
Record t : Type := mk {
  channelHandle : string;
  analyzedAt : string;
  features : json;
  sentiment : json;
  hooks : json;
  keywords : json;
  videosAnalyzed : number;        (* [metadata.videosAnalyzed] *)
  commentsAnalyzed : number       (* [metadata.commentsAnalyzed] *)
}.
End Report.

Section Service.
(** [axios.post(this.ollamaURL, ...)] read at [response.data.response]. *)
Variable generate : string -> result string.
(** [JSON.parse] and the conversion [ToNumber] of a parsed value. *)
Variable JSON_parse : string -> result json.
Variable ToNumber : json -> number.

Definition callOllama (prompt : string) : M (result string) :=
  fun calls =>
    (rethrow "Ollama error: " (generate prompt), calls ++ [prompt])%list.

(** [while (a.length < 3) a.push(filler)] on an array. *)
Definition pad (a : list json) : list json :=
  (a ++ repeat (complaint "Positive sentiment" "low") (3 - List.length a))%list.

(** [while (data.complaints.length < 3) data.complaints.push(...)] and
    [return data], on whatever [JSON.parse] returned. *)
Definition pad_complaints (data : json) : result json :=
  let not_an_object :=
    TypeError "Cannot read properties of undefined (reading 'length')" in
  let not_a_function := TypeError "data.complaints.push is not a function" in
  match data with
  | JNull =>
      Throw (TypeError "Cannot read properties of null (reading 'complaints')")
  | JObj fields =>
      match get "complaints" fields with
      | None => Throw not_an_object
      | Some JNull =>
          Throw (TypeError "Cannot read properties of null (reading 'length')")
      | Some (JArr a) => Ok (JObj (set "complaints" (JArr (pad a)) fields))
      | Some (JStr s) =>
          if (String.length s <? 3)%nat then Throw not_a_function else Ok data
      | Some (JObj o) =>
          match get "length" o with
          | Some len =>
              if nlt (ToNumber len) (of_Z 3) then Throw not_a_function
              else Ok data
          | None => Ok data
          end
      | Some (JBool _) | Some (JNum _) => Ok data
      end
  | JStr _ | JBool _ | JNum _ | JArr _ => Throw not_an_object
  end.

Definition sentiment_prompt (commentTexts : string) : string :=
  dq "Find common themes in comments. Return JSON: {`complaints`:[{`text`:`theme`,`frequency`:`high`}],`mostRequestedFeature`:`feature`}"
  ++ nl ++ nl ++ commentTexts.

Definition analyzeSentiment (comments : option (list Comment.t)) : M json :=
  match comments with
  | None => ret insufficient_data
  | Some comments =>
      if (List.length comments <? 5)%nat then ret insufficient_data
      else
        let commentTexts :=
          substring 0 2000 (join nl (map Comment.text comments)) in
        response <- callOllama (sentiment_prompt commentTexts) ;;
        let attempt :=
          (response <- response ;;
           match match_object response with
           | Some jsonMatch =>
               data <- JSON_parse jsonMatch ;;
               data <- pad_complaints data ;;
               Ok (Some data)
           | None => Ok None
           end)%result in
        match attempt with
        | Ok (Some data) => ret data
        | Ok None | Throw _ => ret positive_fallback
        end
  end.

Definition hooks_prompt (summaries : string) : string :=
  dq "What's the main emotional hook? Return JSON: {`primaryHook`:`hook`,`secondaryHooks`:[`h1`],`strategy`:`desc`}"
  ++ nl ++ nl ++ "Titles:" ++ nl ++ summaries.

Definition analyzeHooks (videoData : list Video.t) : M json :=
  let titles := map (fun v => toLowerCase (Video.title v)) videoData in
  if existsb (fun t => includes t "challenge" || includes t "$") titles
  then ret spectacle
  else
    let summaries :=
      substring 0 1500 (join nl (map Video.title videoData)) in
    response <- callOllama (hooks_prompt summaries) ;;
    let attempt :=
      (response <- response ;;
       match match_object response with
       | Some jsonMatch => data <- JSON_parse jsonMatch ;; Ok (Some data)
       | None => Ok None
       end)%result in
    match attempt with
    | Ok (Some data) => ret data
    | Ok None | Throw _ => ret generic_hooks
    end.
Definition features_prompt (combinedTranscripts : string) : string :=
  dq "Find 5 key topics from these transcripts. Return JSON: [{`feature`:`name`,`category`:`New`,`confidence`:`high`}]"
  ++ nl ++ nl ++ substring 0 2000 combinedTranscripts.

Definition analyzeFeatures (transcripts : list (option string))
    (videoData : list Video.t) : M json :=
  let combinedTranscripts :=
    join (nl ++ nl)
      (flat_map (fun t => match t with
                          | None | Some EmptyString => []
                          | Some s => [s]
                          end) transcripts) in
  match combinedTranscripts with
  | EmptyString => ret (JArr (extractFeaturesFromTitles videoData))
  | _ =>
      response <- callOllama (features_prompt combinedTranscripts) ;;
      let attempt :=
        (response <- response ;;
         match match_array response with
         | Some jsonMatch => data <- JSON_parse jsonMatch ;; Ok (Some data)
         | None => Ok None
         end)%result in
      match attempt with
      | Ok (Some data) => ret data
      | Ok None | Throw _ => ret (JArr (extractFeaturesFromTitles videoData))
      end
  end.

(** The time of the call, [new Date().toISOString()]. *)
Variable now : string.

(** The analyzers absorb their failures and the fields read here are always
    present, so the [catch] of the source has nothing to catch. *)
Definition generateIntelligence (youtubeData : Dataset.t) : M Report.t :=
  let transcripts := map Video.transcript (Dataset.videos youtubeData) in
  let allComments := flat_map Video.comments (Dataset.videos youtubeData) in
  features <- analyzeFeatures transcripts (Dataset.videos youtubeData) ;;
  sentiment <- analyzeSentiment (Some allComments) ;;
  hooks <- analyzeHooks (Dataset.videos youtubeData) ;;
  let keywords := JArr (extractKeywords (Dataset.videos youtubeData)) in
  ret (Report.mk (Dataset.channelHandle youtubeData) now
         features sentiment hooks keywords
         (Dataset.totalVideosAnalyzed youtubeData)
         (Dataset.totalComments youtubeData)).
End Service.

End AIService.

(** ** server.js *)

Module Best.
(** The [bestPerformingVideo] of the metrics. *)
Record t : Type := mk {
  title : string;
  views : JS.field;
  likes : JS.field
}.
End Best.

Module Metrics.
Record t : Type := mk {
  videosAnalyzed : JS.number;
  commentsProcessed : JS.number;
  totalViews : JS.number;
  avgViews : JS.number;
  viewsTrend : JS.number;
  totalLikes : JS.number;
  avgLikes : JS.number;
  engagementRate : JS.number;
  totalComments : JS.number;
  avgComments : JS.number;
  commentRate : JS.number;
  bestPerformingVideo : Best.t;
  uploadFrequency : JS.number;
  transcriptAvailability : JS.number;
  subscriberCount : JS.field;
  totalChannelViews : JS.field;
  totalChannelVideos : JS.field
}.
End Metrics.

(** The value of [v.transcript && v.transcript.length > 0]. *)
Inductive transcript_flag : Type :=
| FlagNull                 (* the transcript is [null] *)
| FlagEmpty                (* the transcript is the empty string *)
| FlagBool (b : bool).

Module Entry.
(** One row of the video breakdown. *)
Record t : Type := mk {
  title : string;
  publishedAt : string;
  views : JS.number;
  likes : JS.number;
  comments : JS.number;
  engagementRate : string;
  hasTranscript : transcript_flag;
  commentCount : JS.number
}.
End Entry.

Module Server.
Import JS.

(** [parseInt(v.stats.viewCount || 0)] and its two siblings. *)
Definition views (v : Video.t) : number :=
  parseInt (or_zero (Stats.viewCount (Video.stats v))).
Definition likes (v : Video.t) : number :=
  parseInt (or_zero (Stats.likeCount (Video.stats v))).
Definition comments (v : Video.t) : number :=
  parseInt (or_zero (Stats.commentCount (Video.stats v))).

(** [videos.reduce((sum, v) => sum + f(v), 0)] *)
Definition sum_of (f : Video.t -> number) (videos : list Video.t) : number :=
  fold_left (fun sum v => nadd sum (f v)) videos zero.

Definition transcript_and_length (v : Video.t) : transcript_flag :=
  match Video.transcript v with
  | None => FlagNull
  | Some EmptyString => FlagEmpty
  | Some s => FlagBool (0 <? String.length s)%nat
  end.

Definition truthy (f : transcript_flag) : bool :=
  match f with
  | FlagBool b => b
  | _ => false
  end.

(** The callback of the reduction that looks for the best video. *)
Definition keepBest (best current : Video.t) : Video.t :=
  let currentViews := views current in
  let bestViews := views best in
  if ngt currentViews bestViews then current else best.

(** [videos.reduce((best, current) => ..., videos[0])]; [None] is the
    [undefined] that [videos[0]] is on an empty array. *)
Definition bestVideo (videos : list Video.t) : option Video.t :=
  match videos with
  | [] => None
  | first :: _ => Some (fold_left keepBest videos first)
  end.

Section Metrics.
(** The time value of [new Date(s)], [NaN] for an invalid date. *)
Variable Date_parse : string -> number.

Definition calculateEnhancedMetrics (youtubeData : Dataset.t)
    : result Metrics.t :=
  let videos := Dataset.videos youtubeData in
  let length := of_nat (List.length videos) in

  let totalViews := sum_of views videos in
  let totalLikes := sum_of likes videos in
  let totalComments := sum_of comments videos in

  let avgViews := Math_round (ndiv totalViews length) in
  let avgLikes := Math_round (ndiv totalLikes length) in
  let avgComments := Math_round (ndiv totalComments length) in

  let engagementRate :=
    if ngt totalViews zero
    then toFixed 2 (nmul (ndiv totalLikes totalViews) (of_Z 100))
    else "0.00" in
  let commentRate :=
    if ngt totalViews zero
    then toFixed 2 (nmul (ndiv totalComments totalViews) (of_Z 100))
    else "0.00" in

  let bestVideo := bestVideo videos in

  let dates :=
    sort (fun a b => nsub b a)
      (map (fun v => Date_parse (Video.publishedAt v)) videos) in
  (* On an empty array [dates[0]] and [dates[-1]] are both [undefined]; the
     truncated subtraction reads [dates[0]] twice there, to the same effect. *)
  let daysBetweenFirstAndLast :=
    ndiv (nsub (number_at dates 0) (number_at dates (List.length dates - 1)))
         (of_Z (1000 * 60 * 60 * 24)) in
  let uploadFrequency :=
    if ngt daysBetweenFirstAndLast zero
    then toFixed 1 (nmul (ndiv length daysBetweenFirstAndLast) (of_Z 7))
    else "0" in

  let midpoint := to_index (Math_floor (ndiv length (of_Z 2))) in
  let recentVideos := firstn midpoint videos in
  let olderVideos := skipn midpoint videos in

  let recentAvgViews :=
    ndiv (sum_of views recentVideos) (of_nat (List.length recentVideos)) in
  let olderAvgViews :=
    ndiv (sum_of views olderVideos) (of_nat (List.length olderVideos)) in

  let viewsTrend :=
    if ngt olderAvgViews zero
    then toFixed 1
           (nmul (ndiv (nsub recentAvgViews olderAvgViews) olderAvgViews)
                 (of_Z 100))
    else "0" in

  let videosWithTranscripts :=
    of_nat (List.length
              (filter (fun v => truthy (transcript_and_length v)) videos)) in
  let transcriptAvailability :=
    toFixed 0 (nmul (ndiv videosWithTranscripts length) (of_Z 100)) in

  match bestVideo with
  | None =>
      Throw (TypeError "Cannot read properties of undefined (reading 'title')")
  | Some bestVideo =>
      Ok (Metrics.mk
            length
            (Dataset.totalComments youtubeData)
            totalViews
            avgViews
            (parseFloat viewsTrend)
            totalLikes
            avgLikes
            (parseFloat engagementRate)
            totalComments
            avgComments
            (parseFloat commentRate)
            (Best.mk (Video.title bestVideo)
                     (Stats.viewCount (Video.stats bestVideo))
                     (Stats.likeCount (Video.stats bestVideo)))
            (parseFloat uploadFrequency)
            (parseInt transcriptAvailability)
            (ChannelStats.subscriberCount (Dataset.channelStats youtubeData))
            (ChannelStats.totalViews (Dataset.channelStats youtubeData))
            (ChannelStats.totalVideos (Dataset.channelStats youtubeData)))
  end.
End Metrics.

Definition breakdownEntry (v : Video.t) : Entry.t :=
  Entry.mk
    (Video.title v)
    (Video.publishedAt v)
    (parseInt (or_zero (Stats.viewCount (Video.stats v))))
    (parseInt (or_zero (Stats.likeCount (Video.stats v))))
    (parseInt (or_zero (Stats.commentCount (Video.stats v))))
    (if ngt (parseInt (ToString (Stats.viewCount (Video.stats v)))) zero
     then toFixed 2
            (nmul (ndiv (parseInt (ToString (Stats.likeCount (Video.stats v))))
                        (parseInt (ToString (Stats.viewCount (Video.stats v)))))
                  (of_Z 100))
     else "0.00")
    (transcript_and_length v)
    (of_nat (List.length (Video.comments v))).

(** The comparator [(a, b) => b.views - a.views]. *)
Definition byViews (a b : Entry.t) : number :=
  nsub (Entry.views b) (Entry.views a).

Definition getVideoBreakdown (videos : list Video.t) : list Entry.t :=
  sort byViews (map breakdownEntry videos).

(** The answer of [POST /api/analyze]. *)
Inductive payload : Type :=
| Rejected (error : string)                    (* [{ error }] *)
| Failed (error : string)                      (* [{ success: false, error }] *)
| Analyzed (report : AIService.Report.t) (metrics : Metrics.t)
    (channelInfo : ChannelStats.t) (videoBreakdown : list Entry.t).

Record response : Type := {
  status : nat;
  body : payload
}.

Section Handler.
Variable youtubeService : YouTubeService.Provider.
Variable generate : string -> result string.
Variable JSON_parse : string -> result AIService.json.
Variable ToNumber : AIService.json -> number.
Variable Date_parse : string -> number.
Variable now : string.

(** The handler of [POST /api/analyze], from the [channelHandle] of the
    request body ([None] when the body has none). *)
Definition analyze (channelHandle : option string) : AIService.M response :=
  match channelHandle with
  | None | Some EmptyString =>
      AIService.ret
        {| status := 400; body := Rejected "Channel handle is required" |}
  | Some channelHandle =>
      match YouTubeService.gatherChannelIntelligence youtubeService
              channelHandle with
      | Throw error =>
          AIService.ret {| status := 500; body := Failed (exn_message error) |}
      | Ok youtubeData =>
          AIService.mbind
            (AIService.generateIntelligence generate JSON_parse ToNumber now
               youtubeData)
            (fun intelligence =>
               match calculateEnhancedMetrics Date_parse youtubeData with
               | Throw error =>
                   AIService.ret
                     {| status := 500; body := Failed (exn_message error) |}
               | Ok metrics =>
                   AIService.ret
                     {| status := 200;
                        body := Analyzed intelligence metrics
                                  (Dataset.channelStats youtubeData)
                                  (getVideoBreakdown
                                     (Dataset.videos youtubeData)) |}
               end)
      end
  end.
End Handler.

End Server.

(** ** Vocabulary of the statements *)

Module Props.
Import JS.

(** [x <= y] as JavaScript compares. *)
Definition nle (x y : number) : bool :=
  match x, y with
  | NaN, _ | _, NaN => false
  | _, _ => negb (nlt y x)
  end.

(** The integer part of a number. *)
Definition to_Z (x : number) : Z :=
  match x with
  | Fin q => Qfloor q
  | _ => 0%Z
  end.

(** The place of a number in the order of the numbers: the infinities lie
    beyond every binary64 number. *)
Definition rank (x : number) : Z :=
  match x with
  | Fin q => Qfloor q
  | Inf false => huge
  | Inf true => (- huge)%Z
  | NaN => 0%Z
  end.

(** A number that [parseInt] returns when it read digits: an infinity or an
    integer of the binary64 range. *)
Definition ordered (x : number) : Prop :=
  (exists negative, x = Inf negative) \/
  (exists z, x = of_Z z /\ (Z.abs z < huge)%Z).

(** A natural number as a number. *)
Definition of_N (n : N) : number := of_Z (Z.of_N n).

(** The counter reports the natural number [n]: it is the decimal numeral
    of [n], the way the provider serialises an unsigned integer, or it is
    absent and [n] is zero. *)
Definition reports (c : field) (n : N) : Prop :=
  c = Some (decimal n) \/ (c = None /\ n = 0%N).

(** The sum of a count over the videos. *)
Definition sum_N (count : Video.t -> N) (videos : list Video.t) : N :=
  fold_right N.add 0%N (map count videos).

(** A list in descending order of a key. *)
Definition descending {A : Type} (key : A -> Z) : list A -> Prop :=
  StronglySorted (fun x y => (key y <= key x)%Z).

(** [x] is the integer [k]. *)
Definition is_int (k : Z) (x : number) : bool :=
  match x with
  | Fin q => Qeq_bool q (inject_Z k)
  | _ => false
  end.

(** A counter is numeric when it is absent or a string of decimal digits,
    which is how the provider serialises an unsigned integer. *)
Fixpoint all_digits (s : string) : bool :=
  match s with
  | EmptyString => true
  | String c s' =>
      match digit_of c with
      | Some _ => all_digits s'
      | None => false
      end
  end.

Definition numeric (c : field) : bool :=
  match c with
  | None => true
  | Some s => all_digits s
  end.

(** The number is not [NaN]: what [parseInt] returns when it read digits. *)
Definition parsed (x : number) : bool :=
  match x with
  | NaN => false
  | _ => true
  end.

(** The view count of the video parses. *)
Definition counted (v : Video.t) : bool := parsed (Server.views v).

(** An error kind of the specification is read off a thrown error by its
    name or its message. *)
Definition has_kind (kind : string) (e : exn) : bool :=
  includes (exn_name e) kind || includes (exn_message e) kind.

(** The call threw, or the promise was rejected. *)
Definition failed {A : Type} (r : result A) : bool :=
  match r with
  | Throw _ => true
  | Ok _ => false
  end.

(** Equality of strings up to the case of their ASCII letters. *)
Inductive eq_ci : string -> string -> Prop :=
| eq_ci_nil : eq_ci "" ""
| eq_ci_cons (a b : ascii) (s t : string) :
    lower a = lower b -> eq_ci s t -> eq_ci (String a s) (String b t).

(** [p] occurs in [t], up to case. *)
Definition occurs_ci (p t : string) : Prop :=
  exists pre mid post, t = pre ++ mid ++ post /\ eq_ci mid p.

Definition list_sum_Z (l : list Z) : Z := fold_right Z.add 0%Z l.

(** The provider returns at most the number of comment threads asked for. *)
Definition honours_maxResults (this : YouTubeService.Provider) : Prop :=
  forall videoId maxResults items,
    YouTubeService.commentThreads this videoId maxResults = Ok items ->
    List.length items <= maxResults.

(** The number of comments fetched for the videos of a list. *)
Definition fetched (videos : list Video.t) : nat :=
  list_sum (map (fun v => List.length (Video.comments v)) videos).

End Props.

(** ** Sample data *)

Module Samples.
Import JS.

(** A date parser that knows the dates of the samples. *)
Definition sample_dates (s : string) : number :=
  if String.eqb s "2024-01-08T00:00:00Z" then of_Z 1704672000000
  else if String.eqb s "2024-01-01T00:00:00Z" then of_Z 1704067200000
  else NaN.

Definition a_comment : Comment.t :=
  Comment.mk "Loved it" 3 "viewer" "2024-01-09T00:00:00Z".

(** Likes are hidden on the first video: the provider sends no [likeCount]. *)
Definition stats_a : Stats.t := Stats.mk (Some "100") None (Some "60") "PT10M".
Definition stats_b : Stats.t := Stats.mk (Some "300") (Some "30") (Some "2") "PT5M".
Definition stats_c : Stats.t := Stats.mk (Some "100") (Some "7") None "PT1M".

Definition snippet_a : Snippet.t :=
  Snippet.mk "a" "Epic $10,000 CHALLENGE" "first" "2024-01-08T00:00:00Z" "a.jpg".
Definition snippet_b : Snippet.t :=
  Snippet.mk "b" "Studio tour" "second" "2024-01-01T00:00:00Z" "b.jpg".

Definition video_a : Video.t :=
  Video.mk "a" "Epic $10,000 CHALLENGE" "first" "2024-01-08T00:00:00Z" "a.jpg"
    None (repeat a_comment 50) stats_a.
Definition video_b : Video.t :=
  Video.mk "b" "Studio tour" "second" "2024-01-01T00:00:00Z" "b.jpg"
    (Some "hello world") [] stats_b.
Definition video_c : Video.t :=
  Video.mk "c" "Outtakes" "third" "2024-01-01T00:00:00Z" "c.jpg"
    (Some "") [a_comment] stats_c.

(** Two videos whose view counts lie beyond 2^53 and differ by one. *)
Definition crowded_a : Video.t :=
  Video.mk "p" "Premiere" "first" "2024-01-08T00:00:00Z" "p.jpg" None []
    (Stats.mk (Some "9007199254740992") (Some "1") (Some "1") "PT1M").
Definition crowded_b : Video.t :=
  Video.mk "q" "Sequel" "second" "2024-01-01T00:00:00Z" "q.jpg" None []
    (Stats.mk (Some "9007199254740993") (Some "1") (Some "1") "PT1M").

Definition channel : ChannelStats.t :=
  ChannelStats.mk (Some "1000") (Some "50000") (Some "12") "Channel" "About"
    "2020-01-01T00:00:00Z".

Definition dataset_of (videos : list Video.t) : Dataset.t :=
  Dataset.mk "UC1" "@channel" channel videos
    (of_nat (List.length videos))
    (of_nat (list_sum (map (fun v => List.length (Video.comments v)) videos))).

Definition empty_dataset : Dataset.t := dataset_of [].

(** A provider with two videos: the transcript of the first and the
    comments of the second cannot be fetched. *)
Definition provider : YouTubeService.Provider :=
  {| YouTubeService.search_channels := fun q =>
       if String.eqb q "channel" then Ok ["UC1"] else Ok [];
     YouTubeService.search_videos := fun _ => Ok [snippet_a; snippet_b];
     YouTubeService.fetchTranscript := fun id =>
       if String.eqb id "b" then Ok ["hello"; "world"]
       else Throw (Error "Transcript is disabled on this video");
     YouTubeService.commentThreads := fun id maxResults =>
       if String.eqb id "a" then Ok (firstn maxResults (repeat a_comment 60))
       else Throw (Error "Request failed with status code 403");
     YouTubeService.videos_statistics := fun id =>
       if String.eqb id "a" then Ok [stats_a] else Ok [stats_b];
     YouTubeService.channels_statistics := fun _ => Ok [channel] |}.


(** The same provider, but the statistics of the second video fail. *)
Definition broken_provider : YouTubeService.Provider :=
  {| YouTubeService.search_channels := YouTubeService.search_channels provider;
     YouTubeService.search_videos := YouTubeService.search_videos provider;
     YouTubeService.fetchTranscript := YouTubeService.fetchTranscript provider;
     YouTubeService.commentThreads := YouTubeService.commentThreads provider;
     YouTubeService.videos_statistics := fun id =>
       if String.eqb id "a" then Ok [stats_a]
       else Throw (Error "Request failed with status code 500");
     YouTubeService.channels_statistics :=
       YouTubeService.channels_statistics provider |}.

Definition collected : Dataset.t :=
  match YouTubeService.gatherChannelIntelligence provider "@channel" with
  | Ok ds => ds
  | Throw _ => empty_dataset
  end.

(** A model that must not be called: it fails on every prompt. *)
Definition no_model (prompt : string) : result string :=
  Throw (Error "connect ECONNREFUSED 127.0.0.1:11434").

Definition no_parser (s : string) : result AIService.json :=
  Throw (SyntaxError "Unexpected token").

End Samples.

(** ** Vocabulary of the further properties *)

Module MoreProps.
Import JS Props.

(** The quotient of [a] by [b], rounded to the nearest integer, halves up. *)
Definition rounded_quotient (a b : Z) : Z := ((2 * a + b) / (2 * b))%Z.

(** The transcript is there: not [null] and not the empty string. *)
Definition has_transcript (v : Video.t) : bool :=
  match Video.transcript v with
  | None | Some EmptyString => false
  | Some _ => true
  end.

(** The prefixes that the four fetching stages of the collection put in
    front of an error message. *)
Definition stages : list string :=
  ["Error finding channel: "; "Error fetching channel stats: ";
   "Error fetching videos: "; "Error fetching video stats: "].

(** The character does not occur in the string. *)
Fixpoint absent (c : ascii) (s : string) : bool :=
  match s with
  | EmptyString => true
  | String d s' => negb (Ascii.eqb c d) && absent c s'
  end.

(** A word of more than five characters. *)
Definition long_word (w : string) : bool := (5 <? String.length w)%nat.

(** The list without its repetitions: each string where it first occurs. *)
Fixpoint first_occurrences (l : list string) : list string :=
  match l with
  | [] => []
  | x :: l' => x :: filter (fun y => negb (String.eqb x y)) (first_occurrences l')
  end.

(** The words of all the titles, in order. *)
Definition title_words (videoData : list Video.t) : list string :=
  flat_map (fun v => AIService.split_spaces (Video.title v)) videoData.

(** A transcript that the feature analysis reads: not [null], not empty. *)
Definition usable (t : option string) : bool :=
  match t with
  | None | Some EmptyString => false
  | Some _ => true
  end.

(** The transcripts that the feature analysis reads, in order. *)
Definition usable_texts (transcripts : list (option string)) : list string :=
  flat_map (fun t => match t with
                     | None | Some EmptyString => []
                     | Some s => [s]
                     end) transcripts.

(** The text that the keyword extraction reads and the words it counts. *)
Definition keyword_text (videoData : list Video.t) : string :=
  join " " (map (fun v => Video.title v ++ " " ++ Video.description v) videoData).

Definition keyword_words (videoData : list Video.t) : list string :=
  filter AIService.counted_word
    (AIService.split_spaces (toLowerCase (keyword_text videoData))).

(** How many times the word occurs in the list. *)
Definition occurrences (l : list string) (w : string) : nat :=
  count_occ string_dec l w.

(** The importance of a word that occurs [n] times. *)
Definition importance_of (n : nat) : string :=
  if (5 <? n)%nat then "high" else if (2 <? n)%nat then "medium" else "low".

(** What [wordCount] holds for a word that was seen [n] times. *)
Definition count_after (w : string) (n : nat) : option AIService.count :=
  if String.eqb w "__proto__" then None
  else
    match n with
    | O => None
    | _ => Some (if String.eqb w "constructor" then AIService.Native n
                 else AIService.Times n)
    end.

(** The comparator of the ranking, [(a, b) => b[1] - a[1]], and the entries
    that the ranking keeps for a list of counted words. *)
Definition by_count (a b : string * AIService.count) : number :=
  nsub (AIService.count_number (snd b)) (AIService.count_number (snd a)).

Definition ranking (words : list string) : list (string * AIService.count) :=
  firstn 12
    (sort by_count
       (AIService.Object_entries (fold_left AIService.bump words []))).

(** The count of the entry is a number, and that number. *)
Definition numbered (e : string * AIService.count) : Prop :=
  exists n, snd e = AIService.Times n.

Definition count_key (e : string * AIService.count) : Z :=
  to_Z (AIService.count_number (snd e)).

(** Some title has "challenge" or a dollar sign, as the hook analysis
    tests it. *)
Definition spectacular (videoData : list Video.t) : bool :=
  existsb (fun t => includes t "challenge" || includes t "$")
    (map (fun v => toLowerCase (Video.title v)) videoData).

(** The prompts that an analysis of the dataset sends, in order: one for the
    features when a transcript is usable, one for the sentiment from five
    comments on, one for the hooks unless a title is spectacular. *)
Definition features_prompts (ds : Dataset.t) : list string :=
  let transcripts := map Video.transcript (Dataset.videos ds) in
  if existsb usable transcripts
  then [AIService.features_prompt
          (join (AIService.nl ++ AIService.nl) (usable_texts transcripts))]
  else [].

Definition sentiment_prompts (ds : Dataset.t) : list string :=
  let allComments := flat_map Video.comments (Dataset.videos ds) in
  if (List.length allComments <? 5)%nat then []
  else [AIService.sentiment_prompt
          (substring 0 2000
             (join AIService.nl (map Comment.text allComments)))].

Definition hooks_prompts (ds : Dataset.t) : list string :=
  if spectacular (Dataset.videos ds) then []
  else [AIService.hooks_prompt
          (substring 0 1500
             (join AIService.nl (map Video.title (Dataset.videos ds))))].

Definition prompts_of (ds : Dataset.t) : list string :=
  (features_prompts ds ++ sentiment_prompts ds ++ hooks_prompts ds)%list.

(** Every character of the string passes the test. *)
Fixpoint every (p : ascii -> bool) (s : string) : bool :=
  match s with
  | EmptyString => true
  | String c s' => p c && every p s'
  end.

Definition no_space (c : ascii) : bool := negb (is_space c).

End MoreProps.

(** ** More sample data *)

Module MoreSamples.
Import JS AIService.

(** A model that answers every prompt with an object of one theme, and a
    parser that knows this answer and the answer of [listing_model]. *)
Definition chatty_model (prompt : string) : result string :=
  Ok (dq "Sure! {`complaints`:[],`mostRequestedFeature`:`Shorts`} Hope it helps.").

Definition listing_model (prompt : string) : result string :=
  Ok (dq "Topics: [`editing`,`lighting`] and more [`sound`]").

Definition small_parser (s : string) : result json :=
  if String.eqb s (dq "{`complaints`:[],`mostRequestedFeature`:`Shorts`}")
  then Ok (JObj [("complaints", JArr []);
                 ("mostRequestedFeature", JStr "Shorts")])
  else if String.eqb s (dq "[`editing`,`lighting`]")
  then Ok (JArr [JStr "editing"; JStr "lighting"])
  else Throw (SyntaxError "Unexpected token").

Definition five_comments : list Comment.t := repeat Samples.a_comment 5.

Definition plain_video (title description : string) : Video.t :=
  Video.mk "v" title description "2024-01-01T00:00:00Z" "v.jpg" None []
    (Stats.mk None None None "PT1M").

(** A video whose view counter is not a number. *)
Definition uncounted_video : Video.t :=
  Video.mk "u" "Premiere" "soon" "2024-01-01T00:00:00Z" "u.jpg" None []
    (Stats.mk (Some "n/a") (Some "3") (Some "1") "PT1M").

(** A provider that finds the channel but no video on it. *)
Definition quiet_provider : YouTubeService.Provider :=
  {| YouTubeService.search_channels :=
       YouTubeService.search_channels Samples.provider;
     YouTubeService.search_videos := fun _ => Ok [];
     YouTubeService.fetchTranscript :=
       YouTubeService.fetchTranscript Samples.provider;
     YouTubeService.commentThreads :=
       YouTubeService.commentThreads Samples.provider;
     YouTubeService.videos_statistics :=
       YouTubeService.videos_statistics Samples.provider;
     YouTubeService.channels_statistics :=
       YouTubeService.channels_statistics Samples.provider |}.

End MoreSamples.

(** * Facts *)

(** ** Numbers that are integers *)

Module NumberFacts.
Import JS Props.

Lemma Qred_inject_Z (z : Z) : Qred (inject_Z z) = inject_Z z.
Proof.
  unfold Qred, inject_Z.
  generalize (Z.ggcd_gcd z 1) (Z.ggcd_correct_divisors z 1).
  destruct (Z.ggcd z 1) as (g, (aa, bb)); simpl.
  intros Hg [Ha Hb]. rewrite Z.gcd_1_r in Hg. subst g.
  rewrite Z.mul_1_l in Ha, Hb. subst aa bb. reflexivity.
Qed.

Lemma nadd_of_Z (a b : Z) : nadd (of_Z a) (of_Z b) = of_Z (a + b).
Proof.
  unfold nadd, of_Z, fin. rewrite <- (Qred_inject_Z (a + b)).
  f_equal. apply Qred_complete. rewrite inject_Z_plus. reflexivity.
Qed.

Lemma nopp_of_Z (a : Z) : nopp (of_Z a) = of_Z (- a).
Proof.
  unfold nopp, of_Z, fin. exact (f_equal Fin (Qred_inject_Z (- a))).
Qed.

Lemma nsub_of_Z (a b : Z) : nsub (of_Z a) (of_Z b) = of_Z (a - b).
Proof. unfold nsub. rewrite nopp_of_Z, nadd_of_Z. reflexivity. Qed.

Lemma nlt_of_Z (a b : Z) : nlt (of_Z a) (of_Z b) = (a <? b)%Z.
Proof.
  unfold nlt, of_Z, inject_Z, Qcompare; simpl. rewrite !Z.mul_1_r.
  unfold Z.ltb. destruct (a ?= b)%Z; reflexivity.
Qed.

Lemma ngt_of_Z (a b : Z) : ngt (of_Z a) (of_Z b) = (b <? a)%Z.
Proof. apply nlt_of_Z. Qed.

Lemma nadd_of_nat (a b : nat) : nadd (of_nat a) (of_nat b) = of_nat (a + b).
Proof. unfold of_nat. rewrite nadd_of_Z, Nat2Z.inj_add. reflexivity. Qed.

Lemma of_Z_inj (a b : Z) : of_Z a = of_Z b -> a = b.
Proof. unfold of_Z, inject_Z. congruence. Qed.

Lemma of_nat_inj (a b : nat) : of_nat a = of_nat b -> a = b.
Proof. intros H. apply Nat2Z.inj, of_Z_inj, H. Qed.

Lemma nle_of_Z (a b : Z) : nle (of_Z a) (of_Z b) = (a <=? b)%Z.
Proof.
  change (negb (nlt (of_Z b) (of_Z a)) = (a <=? b)%Z).
  rewrite nlt_of_Z. apply eq_sym, Z.leb_antisym.
Qed.

Lemma to_Z_of_Z (z : Z) : to_Z (of_Z z) = z.
Proof. apply Qfloor_Z. Qed.

Lemma is_int_of_Z (k z : Z) : is_int k (of_Z z) = (z =? k)%Z.
Proof.
  unfold is_int, of_Z. destruct (Z.eqb_spec z k) as [ -> | N ].
  - apply Qeq_bool_iff. reflexivity.
  - destruct (Qeq_bool (inject_Z z) (inject_Z k)) eqn:E; [ | reflexivity ].
    apply Qeq_bool_iff in E. unfold Qeq in E; simpl in E. lia.
Qed.

Lemma nlt_Fin_ext (p p' q q' : Q) :
  (p == p')%Q -> (q == q')%Q -> nlt (Fin p) (Fin q) = nlt (Fin p') (Fin q').
Proof. intros Hp Hq. simpl. rewrite Hp, Hq. reflexivity. Qed.

(** [x - x] is never positive, whatever [x] is, and stays so when divided
    by a positive integer. *)
Lemma span_of_one_date (d : number) (c : Z) :
  (0 < c)%Z -> ngt (ndiv (nsub d d) (of_Z c)) zero = false.
Proof.
  intros Hc. destruct d as [ | a | q ].
  - reflexivity.
  - destruct a; reflexivity.
  - unfold nsub, nopp, nadd, fin, ndiv, of_Z.
    assert (Hz : Qzero (inject_Z c) = false).
    { unfold Qzero; simpl. apply Z.eqb_neq. lia. }
    rewrite Hz. unfold ngt, zero, of_Z, fin.
    rewrite (nlt_Fin_ext (inject_Z 0) 0 _ 0); [ reflexivity | reflexivity | ].
    rewrite !Qred_correct, Qplus_opp_r. reflexivity.
Qed.

(** Adding to zero and dividing by one keep the sign. *)
Lemma mean_of_one (x : number) :
  ngt (ndiv (nadd zero x) (of_nat 1)) zero = ngt x zero.
Proof.
  destruct x as [ | a | q ].
  - reflexivity.
  - destruct a; reflexivity.
  - unfold nadd, zero, of_nat, of_Z, ndiv, fin. simpl Qzero. cbv iota.
    unfold ngt. apply nlt_Fin_ext; [ reflexivity | ].
    rewrite !Qred_correct. simpl inject_Z. field.
Qed.

(** The integers that binary64 holds exactly, and what [binary64] returns. *)
Lemma huge_above_2_53 : (2 ^ 53 < huge)%Z.
Proof. reflexivity. Qed.

Lemma binary64_exact (z : Z) : (Z.abs z < 2 ^ 53)%Z -> binary64 z = of_Z z.
Proof.
  intros H. unfold binary64. apply Z.ltb_lt in H. rewrite H. reflexivity.
Qed.

Lemma binary64_ordered (z : Z) : ordered (binary64 z).
Proof.
  unfold binary64. destruct (Z.ltb_spec (Z.abs z) (2 ^ 53)) as [ L | _ ].
  - right. exists z. split; [ reflexivity | ].
    pose proof huge_above_2_53. lia.
  - set (ulp := (2 ^ (Z.log2 (Z.abs z) - 52))%Z).
    set (m := if (2 * (Z.abs z mod ulp) <? ulp)%Z then (Z.abs z / ulp)%Z
              else if (ulp <? 2 * (Z.abs z mod ulp))%Z then (Z.abs z / ulp + 1)%Z
              else if Z.even (Z.abs z / ulp) then (Z.abs z / ulp)%Z
                   else (Z.abs z / ulp + 1)%Z).
    destruct (Z.leb_spec huge (m * ulp)) as [ _ | L ].
    + left. eexists. reflexivity.
    + right. exists (Z.sgn z * (m * ulp))%Z. split; [ reflexivity | ].
      assert (Hu : (0 <= ulp)%Z) by (unfold ulp; apply Z.pow_nonneg; lia).
      assert (Hm : (0 <= m)%Z).
      { assert (Hd : (0 <= Z.abs z / ulp)%Z).
        { destruct (Z.eq_dec ulp 0) as [ -> | N ].
          - rewrite Z.div_0_r. lia.
          - apply Z.div_pos; lia. }
        unfold m.
        destruct (2 * (Z.abs z mod ulp) <? ulp)%Z; [ exact Hd | ].
        destruct (ulp <? 2 * (Z.abs z mod ulp))%Z; [ lia | ].
        destruct (Z.even (Z.abs z / ulp)); lia. }
      assert (Hp : (0 <= m * ulp)%Z) by (apply Z.mul_nonneg_nonneg; assumption).
      rewrite Z.abs_mul, (Z.abs_eq (m * ulp)) by exact Hp.
      destruct z; cbn [Z.sgn Z.abs]; lia.
Qed.

(** On the numbers that [parseInt] returns the comparisons are those of the
    ranks. *)
Lemma rank_of_Z (z : Z) : rank (of_Z z) = z.
Proof. apply Qfloor_Z. Qed.

Lemma nlt_rank (x y : number) :
  ordered x -> ordered y -> nlt x y = (rank x <? rank y)%Z.
Proof.
  assert (P : (0 < huge)%Z) by reflexivity.
  intros [ [ a -> ] | (p & -> & Hp) ] [ [ b -> ] | (q & -> & Hq) ];
    rewrite ?rank_of_Z, ?nlt_of_Z; try reflexivity.
  - destruct a, b; cbn [nlt rank andb negb]; symmetry;
      first [ apply Z.ltb_irrefl | apply Z.ltb_lt; lia | apply Z.ltb_ge; lia ].
  - destruct a; cbn [nlt of_Z rank]; symmetry;
      first [ apply Z.ltb_lt; lia | apply Z.ltb_ge; lia ].
  - destruct b; cbn [nlt of_Z rank negb]; symmetry;
      first [ apply Z.ltb_lt; lia | apply Z.ltb_ge; lia ].
Qed.

Lemma ngt_rank (x y : number) :
  ordered x -> ordered y -> ngt x y = (rank y <? rank x)%Z.
Proof. intros Hx Hy. apply nlt_rank; assumption. Qed.

Lemma nle_rank (x y : number) :
  ordered x -> ordered y -> nle x y = (rank x <=? rank y)%Z.
Proof.
  intros Hx Hy.
  assert (E : nle x y = negb (nlt y x)).
  { destruct Hx as [ [ a -> ] | (p & -> & _) ], Hy as [ [ b -> ] | (q & -> & _) ];
      reflexivity. }
  rewrite E, (nlt_rank y x Hy Hx). apply eq_sym, Z.leb_antisym.
Qed.

(** The sign of a difference, as a comparator reads it: a difference of two
    infinities of one sign is not a number and counts as zero. *)
Lemma nsub_positive (x y : number) :
  ordered x -> ordered y -> ngt (nsub y x) zero = (rank x <? rank y)%Z.
Proof.
  assert (P : (0 < huge)%Z) by reflexivity.
  intros [ [ a -> ] | (p & -> & Hp) ] [ [ b -> ] | (q & -> & Hq) ].
  - destruct a, b;
      cbn [nsub nopp nadd Bool.eqb negb of_Z ngt nlt zero rank];
      symmetry;
      first [ apply Z.ltb_irrefl | apply Z.ltb_lt; lia | apply Z.ltb_ge; lia ].
  - rewrite rank_of_Z.
    destruct a; cbn [nsub nopp nadd of_Z ngt nlt zero rank negb fin];
      symmetry; first [ apply Z.ltb_lt; lia | apply Z.ltb_ge; lia ].
  - rewrite rank_of_Z.
    destruct b; cbn [nsub nopp nadd of_Z ngt nlt zero rank negb fin];
      symmetry; first [ apply Z.ltb_lt; lia | apply Z.ltb_ge; lia ].
  - rewrite nsub_of_Z, !rank_of_Z. unfold zero. rewrite ngt_of_Z.
    destruct (Z.ltb_spec 0 (q - p)), (Z.ltb_spec p q); try reflexivity; lia.
Qed.

End NumberFacts.

(** ** Counters as the data provider sends them *)

Module CounterFacts.
Import JS Props NumberFacts.

Lemma digit_of_range (c : ascii) (d : Z) :
  digit_of c = Some d -> (0 <= d <= 9)%Z.
Proof.
  unfold digit_of.
  destruct ((48 <=? Z.of_nat (nat_of_ascii c)) && (Z.of_nat (nat_of_ascii c) <=? 57))%Z
    eqn:E; [ | discriminate ].
  intros [= <-]. apply andb_true_iff in E. destruct E as [E1 E2].
  apply Z.leb_le in E1, E2. lia.
Qed.

Lemma digit_plain (c : ascii) (d : Z) :
  digit_of c = Some d ->
  is_space c = false /\
  (forall s, read_sign (String c s) = (false, String c s)) /\
  (Ascii.eqb c "x" || Ascii.eqb c "X" = false)%bool.
Proof.
  destruct c as [[] [] [] [] [] [] [] []]; intros H;
    try discriminate H; repeat split.
Qed.

Lemma digits_from_all (s : string) (a : Z) :
  all_digits s = true -> (0 <= a)%Z ->
  exists z, (0 <= z)%Z /\ fst (digits_from digit_of 10 (Some a) s) = Some z.
Proof.
  revert a. induction s as [ | c s IH ]; intros a Hs Ha; simpl in *.
  - exists a. split; [ assumption | reflexivity ].
  - destruct (digit_of c) as [ d | ] eqn:D; [ | discriminate ].
    apply digit_of_range in D. apply IH; [ assumption | lia ].
Qed.

Lemma parseInt_all_digits (c : ascii) (s : string) :
  all_digits (String c s) = true ->
  exists z, (0 <= z)%Z /\
    fst (digits_from digit_of 10 None (String c s)) = Some z /\
    parseInt (String c s) = binary64 z.
Proof.
  intros H. simpl in H.
  destruct (digit_of c) as [ d | ] eqn:D; [ | discriminate ].
  destruct (digit_plain c d D) as (Hsp & Hsign & _).
  destruct (digits_from_all s d H) as (z & Hz & E).
  { apply digit_of_range in D. lia. }
  assert (E' : fst (digits_from digit_of 10 None (String c s)) = Some z).
  { simpl. rewrite D. exact E. }
  exists z. split; [ assumption | ]. split; [ exact E' | ].
  unfold parseInt. simpl skip_spaces. rewrite Hsp, Hsign.
  assert (R : match String c s with
              | String "0" (String x s2) =>
                  if (Ascii.eqb x "x" || Ascii.eqb x "X")%bool
                  then fst (digits_from hex_digit_of 16 None s2)
                  else fst (digits_from digit_of 10 None (String c s))
              | _ => fst (digits_from digit_of 10 None (String c s))
              end = Some z).
  { destruct s as [ | x s2 ].
    - destruct c as [[] [] [] [] [] [] [] []]; exact E'.
    - simpl in H. destruct (digit_of x) as [ dx | ] eqn:Dx; [ | discriminate ].
      destruct (digit_plain x dx Dx) as (_ & _ & Hx).
      destruct c as [[] [] [] [] [] [] [] []]; try exact E'.
      rewrite Hx. exact E'. }
  rewrite R. reflexivity.
Qed.

(** [parseInt(c || 0)] of a numeric counter is the binary64 number of a
    natural number. *)
Lemma parseInt_or_zero (c : field) :
  numeric c = true ->
  exists z, (0 <= z)%Z /\ parseInt (or_zero c) = binary64 z.
Proof.
  destruct c as [ [ | ch s ] | ]; simpl; intros H.
  - exists 0%Z. split; [ lia | reflexivity ].
  - change (or_zero (Some (String ch s))) with (String ch s).
    destruct (parseInt_all_digits ch s H) as (z & Hz & _ & E).
    exists z. split; assumption.
  - exists 0%Z. split; [ lia | reflexivity ].
Qed.

(** Whatever its argument, [parseInt] returns [NaN], an infinity or an
    integer of the binary64 range. *)
Lemma parseInt_cases (s : string) : parseInt s = NaN \/ ordered (parseInt s).
Proof.
  unfold parseInt. destruct (read_sign (skip_spaces s)) as [neg s1].
  match goal with
  | |- context [match ?p with Some _ => _ | None => _ end] => destruct p as [ z | ]
  end.
  - right. apply binary64_ordered.
  - left. reflexivity.
Qed.

Lemma parsed_ordered (s : string) :
  parsed (parseInt s) = true -> ordered (parseInt s).
Proof.
  destruct (parseInt_cases s) as [ E | E ]; [ | intros _; exact E ].
  rewrite E. discriminate.
Qed.

Lemma ordered_parsed (x : number) : ordered x -> parsed x = true.
Proof. intros [ [ a -> ] | (z & -> & _) ]; reflexivity. Qed.

Lemma counted_views (v : Video.t) : counted v = true -> ordered (Server.views v).
Proof. apply parsed_ordered. Qed.

(** The counters of the provider do parse. *)
Lemma numeric_counted (v : Video.t) :
  numeric (Stats.viewCount (Video.stats v)) = true -> counted v = true.
Proof.
  intros H. destruct (parseInt_or_zero _ H) as (z & _ & E).
  unfold counted, Server.views. rewrite E.
  apply ordered_parsed, binary64_ordered.
Qed.

(** *** Decimal numerals

    [parseInt] reads the decimal numeral of a natural number back. *)

Ltac digit_value :=
  match goal with
  | |- context [digit_of ?c] =>
      let v := eval vm_compute in (digit_of c) in
      change (digit_of c) with v
  end.

Lemma all_digits_uint (d : Decimal.uint) :
  all_digits (NilEmpty.string_of_uint d) = true.
Proof.
  induction d; cbn [NilEmpty.string_of_uint all_digits];
    [ reflexivity | digit_value; exact IHd .. ].
Qed.

Lemma digits_uint_acc (d : Decimal.uint) (acc : positive) :
  fst (digits_from digit_of 10 (Some (Zpos acc)) (NilEmpty.string_of_uint d)) =
  Some (Zpos (Pos.of_uint_acc d acc)).
Proof.
  revert acc.
  induction d; intros acc; cbn [NilEmpty.string_of_uint digits_from Pos.of_uint_acc];
    [ reflexivity | digit_value; cbv iota beta .. ];
    match goal with
    | |- fst (digits_from _ _ (Some ?z) _) = Some (Zpos (Pos.of_uint_acc _ ?p)) =>
        replace z with (Zpos p) by lia; apply IHd
    end.
Qed.

Lemma digits_uint (d : Decimal.uint) :
  fst (digits_from digit_of 10 (Some 0%Z) (NilEmpty.string_of_uint d)) =
  Some (Z.of_N (Pos.of_uint d)).
Proof.
  induction d; cbn [NilEmpty.string_of_uint digits_from Pos.of_uint];
    [ reflexivity | digit_value; cbv iota beta .. ];
    [ exact IHd | .. ];
    match goal with
    | |- fst (digits_from _ _ (Some ?z) _) = _ =>
        change z with (Zpos (Z.to_pos z)); apply digits_uint_acc
    end.
Qed.

Lemma decimal_cons (n : N) : exists c s, decimal n = String c s.
Proof.
  unfold decimal, NilZero.string_of_uint.
  destruct (N.to_uint n); cbn [NilEmpty.string_of_uint]; eauto.
Qed.

Lemma all_digits_decimal (n : N) : all_digits (decimal n) = true.
Proof.
  unfold decimal, NilZero.string_of_uint.
  destruct (N.to_uint n) eqn:E; [ reflexivity | rewrite <- E .. ];
    apply all_digits_uint.
Qed.

Lemma digits_decimal (n : N) :
  fst (digits_from digit_of 10 None (decimal n)) = Some (Z.of_N n).
Proof.
  rewrite <- (DecimalN.Unsigned.of_to n) at 2.
  unfold decimal, NilZero.string_of_uint, N.of_uint.
  pose proof (digits_uint (N.to_uint n)) as H.
  destruct (N.to_uint n); cbn [NilEmpty.string_of_uint digits_from] in H |- *;
    [ reflexivity | exact H .. ].
Qed.

Lemma parseInt_decimal (n : N) : parseInt (decimal n) = binary64 (Z.of_N n).
Proof.
  destruct (decimal_cons n) as (c & s & E).
  pose proof (all_digits_decimal n) as A. pose proof (digits_decimal n) as D.
  rewrite E in A, D |- *.
  destruct (parseInt_all_digits c s A) as (z & _ & F & P).
  rewrite P. congruence.
Qed.

(** The number that [parseInt(c || 0)] reads from a counter that reports
    [n], for [n] below 2^53. *)
Lemma reports_parse (c : field) (n : N) :
  reports c n -> (n < 2 ^ 53)%N -> parseInt (or_zero c) = of_N n.
Proof.
  intros [ -> | [ -> -> ] ] B; [ | reflexivity ].
  destruct (decimal_cons n) as (ch & s & E).
  unfold or_zero. rewrite E. rewrite <- E. rewrite parseInt_decimal.
  apply binary64_exact.
  rewrite Z.abs_eq by lia.
  change (2 ^ 53)%Z with (Z.of_N (2 ^ 53)). lia.
Qed.

Lemma ordered_of_N (n : N) : (n < 2 ^ 53)%N -> ordered (of_N n).
Proof.
  intros B. right. exists (Z.of_N n). split; [ reflexivity | ].
  pose proof huge_above_2_53. rewrite Z.abs_eq by lia.
  assert ((Z.of_N n < Z.of_N (2 ^ 53))%Z) by lia.
  change (Z.of_N (2 ^ 53)) with (2 ^ 53)%Z in *. lia.
Qed.

End CounterFacts.

(** ** The stable sort under a comparator that follows an integer key *)

Module SortFacts.
Import JS Props NumberFacts.

Section Keyed.
Context {A : Type} (cmp : A -> A -> number) (key : A -> Z) (good : A -> Prop).

(** The comparator puts [a] after [b] exactly when the key of [a] is the
    smaller one: the order is descending. *)
Hypothesis after_key :
  forall a b, good a -> good b -> after cmp a b = (key a <? key b)%Z.

Lemma insert_perm (a : A) (l : list A) : Permutation (insert cmp a l) (a :: l).
Proof.
  induction l as [ | b l IH ]; simpl.
  - apply Permutation_refl.
  - destruct (after cmp a b).
    + apply perm_trans with (b :: a :: l).
      * apply perm_skip, IH.
      * apply perm_swap.
    + apply Permutation_refl.
Qed.

Lemma sort_perm (l : list A) : Permutation (sort cmp l) l.
Proof.
  induction l as [ | a l IH ]; simpl.
  - apply perm_nil.
  - apply perm_trans with (a :: sort cmp l).
    + apply insert_perm.
    + apply perm_skip, IH.
Qed.

Lemma sort_Forall (P : A -> Prop) (l : list A) :
  Forall P l -> Forall P (sort cmp l).
Proof.
  intros H. apply (Permutation_Forall (Permutation_sym (sort_perm l)) H).
Qed.

Lemma insert_descending (a : A) (l : list A) :
  good a -> Forall good l -> descending key l -> descending key (insert cmp a l).
Proof.
  intros Ga. induction l as [ | b l IH ]; intros Gl Hl; simpl.
  - constructor; constructor.
  - inversion Gl as [ | ? ? Gb Gl' ]; subst.
    inversion Hl as [ | ? ? Hl' Hb ]; subst.
    rewrite (after_key a b Ga Gb).
    destruct (key a <? key b)%Z eqn:E.
    + apply Z.ltb_lt in E. constructor.
      * apply IH; assumption.
      * apply (Permutation_Forall (Permutation_sym (insert_perm a l))).
        constructor; [ lia | assumption ].
    + apply Z.ltb_ge in E. constructor; [ assumption | ].
      constructor; [ assumption | ].
      apply (Forall_impl _ (fun y (Hy : (key y <= key b)%Z) =>
                              Z.le_trans _ _ _ Hy E) Hb).
Qed.

Lemma sort_descending (l : list A) :
  Forall good l -> descending key (sort cmp l).
Proof.
  induction l as [ | a l IH ]; intros Gl; simpl.
  - constructor.
  - inversion Gl; subst. apply insert_descending.
    + assumption.
    + apply sort_Forall; assumption.
    + apply IH; assumption.
Qed.

(** Stability: the elements of one key keep their order. *)
Lemma insert_filter (P : A -> bool) (a : A) (l : list A) :
  (forall x y, good x -> good y -> P x = true -> P y = true -> key x = key y) ->
  good a -> Forall good l ->
  filter P (insert cmp a l) = filter P (a :: l).
Proof.
  intros HP Ga. induction l as [ | b l IH ]; intros Gl.
  - reflexivity.
  - inversion Gl as [ | ? ? Gb Gl' ]; subst. simpl insert.
    rewrite (after_key a b Ga Gb).
    destruct (key a <? key b)%Z eqn:E; [ | reflexivity ].
    apply Z.ltb_lt in E. simpl filter at 1. rewrite (IH Gl'). simpl.
    destruct (P a) eqn:Pa, (P b) eqn:Pb; try reflexivity.
    specialize (HP a b Ga Gb Pa Pb). lia.
Qed.

Lemma sort_filter (P : A -> bool) (l : list A) :
  (forall x y, good x -> good y -> P x = true -> P y = true -> key x = key y) ->
  Forall good l ->
  filter P (sort cmp l) = filter P l.
Proof.
  intros HP. induction l as [ | a l IH ]; intros Gl.
  - reflexivity.
  - inversion Gl; subst. simpl sort. rewrite insert_filter.
    + simpl. rewrite IH by assumption. reflexivity.
    + assumption.
    + assumption.
    + apply sort_Forall; assumption.
Qed.

End Keyed.

Lemma sort_one {A : Type} (cmp : A -> A -> number) (a : A) :
  sort cmp [a] = [a].
Proof. reflexivity. Qed.

End SortFacts.

(** ** The video breakdown *)

Module BreakdownFacts.
Import JS Props NumberFacts CounterFacts SortFacts.

(** The rows whose views [parseInt] read. *)
Lemma after_by_views (a b : Entry.t) :
  ordered (Entry.views a) -> ordered (Entry.views b) ->
  after Server.byViews a b = (rank (Entry.views a) <? rank (Entry.views b))%Z.
Proof.
  intros Ha Hb. unfold after, Server.byViews. apply nsub_positive; assumption.
Qed.

Lemma entries_ordered (videos : list Video.t) :
  forallb counted videos = true ->
  Forall (fun e => ordered (Entry.views e)) (map Server.breakdownEntry videos).
Proof.
  intros H. apply Forall_forall. intros e He.
  apply in_map_iff in He. destruct He as (v & <- & Hv).
  rewrite forallb_forall in H. specialize (H v Hv).
  exact (counted_views v H).
Qed.

Lemma descending_views (l : list Entry.t) :
  Forall (fun e => ordered (Entry.views e)) l ->
  descending (fun e => rank (Entry.views e)) l ->
  StronglySorted (fun a b => nle (Entry.views b) (Entry.views a) = true) l.
Proof.
  intros G H. induction H as [ | a l Hl IH Ha ].
  - constructor.
  - inversion G as [ | ? ? Ga Gl ]; subst. constructor.
    + apply IH, Gl.
    + rewrite Forall_forall in Ha, Gl |- *. intros b Hb.
      rewrite (nle_rank _ _ (Gl b Hb) Ga). apply Z.leb_le, Ha, Hb.
Qed.

(** The rows of one integer view count have one rank. *)
Lemma is_int_rank (k : Z) (x : number) : is_int k x = true -> rank x = k.
Proof.
  destruct x as [ | a | q ]; try discriminate. cbn [is_int rank]. intros H.
  apply Qeq_bool_iff in H. rewrite (Qfloor_comp _ _ H). apply Qfloor_Z.
Qed.

End BreakdownFacts.

(** ** The best performing video *)

Module BestFacts.
Import JS Props NumberFacts CounterFacts.

(** The views of a video in the order of the numbers. *)
Lemma keepBest_key (best current : Video.t) :
  ordered (Server.views best) -> ordered (Server.views current) ->
  Server.keepBest best current =
  if (rank (Server.views best) <? rank (Server.views current))%Z
  then current else best.
Proof.
  intros Hb Hc. unfold Server.keepBest.
  rewrite (ngt_rank _ _ Hc Hb). reflexivity.
Qed.

(** The reduction from any starting video: either the start survives and
    nothing in the list beats it, or the result is the first video of the
    list that is above the start and above everything before it. *)
Lemma fold_step (l : list Video.t) :
  forall start : Video.t,
  ordered (Server.views start) ->
  Forall (fun v => ordered (Server.views v)) l ->
  let key := fun v => rank (Server.views v) in
  let r := fold_left Server.keepBest l start in
  (r = start /\ forall v, In v l -> (key v <= key start)%Z) \/
  (exists pre post,
     l = (pre ++ r :: post)%list /\ (key start < key r)%Z /\
     (forall v, In v pre -> (key v < key r)%Z) /\
     (forall v, In v post -> (key v <= key r)%Z)).
Proof.
  induction l as [ | a l IH ]; intros start Hs Hl key; subst key; cbv beta zeta;
    simpl.
  - left. split; [ reflexivity | intros v [] ].
  - inversion Hl as [ | ? ? Ha Hl' ]; subst.
    rewrite (keepBest_key start a Hs Ha).
    destruct (Z.ltb_spec (rank (Server.views start)) (rank (Server.views a)))
      as [Lt | Ge].
    + right. destruct (IH a Ha Hl') as [ [E Hall] | (pre & post & E & Hr & Hpre & Hpost) ].
      * exists [], l. rewrite E. repeat split.
        -- assumption.
        -- intros v [].
        -- assumption.
      * exists (a :: pre), post. repeat split.
        -- simpl. f_equal. exact E.
        -- lia.
        -- intros v [ <- | Hv ]; [ assumption | apply Hpre, Hv ].
        -- assumption.
    + destruct (IH start Hs Hl') as [ [E Hall] | (pre & post & E & Hr & Hpre & Hpost) ].
      * left. split; [ exact E | ].
        intros v [ <- | Hv ]; [ assumption | apply Hall, Hv ].
      * right. exists (a :: pre), post. repeat split.
        -- simpl. f_equal. exact E.
        -- assumption.
        -- intros v [ <- | Hv ]; [ lia | apply Hpre, Hv ].
        -- assumption.
Qed.

Lemma bestVideo_first_maximum (videos : list Video.t) :
  videos <> [] ->
  Forall (fun v => ordered (Server.views v)) videos ->
  let key := fun v => rank (Server.views v) in
  exists pre best post,
    Server.bestVideo videos = Some best /\
    videos = (pre ++ best :: post)%list /\
    (forall v, In v pre -> (key v < key best)%Z) /\
    (forall v, In v post -> (key v <= key best)%Z).
Proof.
  intros Hne Hn key. destruct videos as [ | first rest ]; [ congruence | ].
  assert (Hf : ordered (Server.views first)) by (inversion Hn; assumption).
  unfold Server.bestVideo.
  destruct (fold_step (first :: rest) first Hf Hn)
    as [ [E Hall] | (pre & post & E & Hr & Hpre & Hpost) ].
  - exists [], first, rest. rewrite E. repeat split.
    + intros v [].
    + intros v Hv. apply Hall. right. exact Hv.
  - exists pre, (fold_left Server.keepBest (first :: rest) first), post.
    repeat split; assumption.
Qed.

End BestFacts.

(** ** The metrics of a dataset *)

Module MetricsFacts.
Import JS Props NumberFacts CounterFacts.

Lemma bestVideo_some (videos : list Video.t) :
  videos <> [] -> exists best, Server.bestVideo videos = Some best.
Proof.
  destruct videos as [ | first rest ]; [ congruence | ].
  intros _. eexists. reflexivity.
Qed.

(** With a best video at hand the metrics are returned, and these fields
    are what the function body computes for them. *)
Lemma calculate_fields (Date_parse : string -> number) (ds : Dataset.t)
    (best : Video.t) :
  Server.bestVideo (Dataset.videos ds) = Some best ->
  exists m,
    Server.calculateEnhancedMetrics Date_parse ds = Ok m /\
    Metrics.bestPerformingVideo m =
      Best.mk (Video.title best) (Stats.viewCount (Video.stats best))
              (Stats.likeCount (Video.stats best)) /\
    Metrics.commentsProcessed m = Dataset.totalComments ds /\
    Metrics.totalComments m = Server.sum_of Server.comments (Dataset.videos ds) /\
    Metrics.avgComments m =
      Math_round (ndiv (Server.sum_of Server.comments (Dataset.videos ds))
                       (of_nat (List.length (Dataset.videos ds)))) /\
    Metrics.commentRate m =
      parseFloat
        (if ngt (Server.sum_of Server.views (Dataset.videos ds)) zero
         then toFixed 2
                (nmul (ndiv (Server.sum_of Server.comments (Dataset.videos ds))
                            (Server.sum_of Server.views (Dataset.videos ds)))
                      (of_Z 100))
         else "0.00").
Proof.
  intros B. unfold Server.calculateEnhancedMetrics. rewrite B.
  eexists. split; [ reflexivity | ]. repeat split.
Qed.

(** Sums of integral counters are integers. *)
Lemma fold_sum_of_Z (f : Video.t -> number) (g : Video.t -> Z)
    (videos : list Video.t) (a : Z) :
  (forall v, In v videos -> f v = of_Z (g v)) ->
  fold_left (fun sum v => nadd sum (f v)) videos (of_Z a) =
  of_Z (a + list_sum_Z (map g videos)).
Proof.
  unfold list_sum_Z. revert a. induction videos as [ | v l IH ]; intros a H;
    cbn [fold_left map fold_right].
  - rewrite Z.add_0_r. reflexivity.
  - rewrite (H v (or_introl eq_refl)), nadd_of_Z, IH.
    + f_equal. lia.
    + intros w Hw. apply H. right. exact Hw.
Qed.

(** A returned metrics record comes with a best video and the fields of
    [calculate_fields]. *)
Lemma calculate_Ok_inv (Date_parse : string -> number) (ds : Dataset.t)
    (m : Metrics.t) :
  Server.calculateEnhancedMetrics Date_parse ds = Ok m ->
  Dataset.videos ds <> [] /\
  Metrics.commentsProcessed m = Dataset.totalComments ds /\
  Metrics.totalComments m = Server.sum_of Server.comments (Dataset.videos ds) /\
  Metrics.avgComments m =
    Math_round (ndiv (Server.sum_of Server.comments (Dataset.videos ds))
                     (of_nat (List.length (Dataset.videos ds)))) /\
  Metrics.commentRate m =
    parseFloat
      (if ngt (Server.sum_of Server.views (Dataset.videos ds)) zero
       then toFixed 2
              (nmul (ndiv (Server.sum_of Server.comments (Dataset.videos ds))
                          (Server.sum_of Server.views (Dataset.videos ds)))
                    (of_Z 100))
       else "0.00").
Proof.
  intros H. destruct (Server.bestVideo (Dataset.videos ds)) as [ best | ] eqn:B.
  - destruct (calculate_fields Date_parse ds best B)
      as (m' & E & _ & H1 & H2 & H3 & H4).
    rewrite E in H. injection H as <-.
    split; [ | auto ].
    intros N. rewrite N in B. discriminate B.
  - unfold Server.calculateEnhancedMetrics in H. rewrite B in H. discriminate H.
Qed.




(** Sums of counters that report natural numbers. *)
Lemma sum_N_Z (count : Video.t -> N) (l : list Video.t) :
  Z.of_N (sum_N count l) = list_sum_Z (map (fun v => Z.of_N (count v)) l).
Proof.
  unfold sum_N, list_sum_Z. induction l as [ | v l IH ]; cbn [map fold_right].
  - reflexivity.
  - rewrite N2Z.inj_add, IH. reflexivity.
Qed.

Lemma sum_N_In (count : Video.t -> N) (l : list Video.t) (v : Video.t) :
  In v l -> (count v <= sum_N count l)%N.
Proof.
  unfold sum_N. induction l as [ | w l IH ]; intros H; [ destruct H | ].
  cbn [map fold_right]. destruct H as [ -> | H ]; [ lia | ].
  specialize (IH H). lia.
Qed.

Lemma sum_of_counts (f : Video.t -> number) (count : Video.t -> N)
    (videos : list Video.t) :
  (forall v, In v videos -> f v = of_N (count v)) ->
  Server.sum_of f videos = of_N (sum_N count videos).
Proof.
  intros H. unfold Server.sum_of, zero, of_N.
  rewrite (fold_sum_of_Z f (fun v => Z.of_N (count v)) videos 0 H).
  rewrite Z.add_0_l, sum_N_Z. reflexivity.
Qed.

(** A counter that reports a number within a total below 2^53 is read as
    that number. *)
Lemma counter_reported (c : Video.t -> field) (count : Video.t -> N)
    (videos : list Video.t) :
  (forall v, In v videos -> reports (c v) (count v)) ->
  (sum_N count videos < 2 ^ 53)%N ->
  forall v, In v videos -> parseInt (or_zero (c v)) = of_N (count v).
Proof.
  intros R B v Hv. apply reports_parse; [ apply R, Hv | ].
  pose proof (sum_N_In count videos v Hv). lia.
Qed.


End MetricsFacts.

(** ** The collection of a dataset *)

Module CollectFacts.
Import JS Props NumberFacts YouTubeService.

Lemma rethrow_Ok {A : Type} (pre : string) (body : result A) (a : A) :
  rethrow pre body = Ok a -> body = Ok a.
Proof. destruct body; simpl; congruence. Qed.

Lemma rethrow_Throw {A : Type} (pre : string) (body : result A) (e : exn) :
  rethrow pre body = Throw e ->
  exists e', body = Throw e' /\ e = Error (pre ++ exn_message e').
Proof.
  destruct body as [ a | e' ]; simpl; intros H; [ discriminate | ].
  exists e'. split; [ reflexivity | congruence ].
Qed.

Lemma bind_Ok {A B : Type} (r : result A) (k : A -> result B) (b : B) :
  bind r k = Ok b -> exists a, r = Ok a /\ k a = Ok b.
Proof.
  destruct r as [ a | e ]; simpl; intros H; [ | discriminate ].
  exists a. split; [ reflexivity | exact H ].
Qed.

Lemma Promise_all_Ok {A B : Type} (f : A -> result B) (l : list A) :
  forall bs, Promise_all f l = Ok bs -> Forall2 (fun a b => f a = Ok b) l bs.
Proof.
  induction l as [ | a l IH ]; simpl; intros bs H.
  - injection H as <-. constructor.
  - destruct (f a) as [ b | e ] eqn:E; [ | discriminate ].
    apply bind_Ok in H. destruct H as (bs' & H1 & H2).
    injection H2 as <-. constructor; [ exact E | apply IH, H1 ].
Qed.

Lemma Promise_all_total {A B : Type} (f : A -> result B) (l : list A) :
  (forall a, In a l -> failed (f a) = false) ->
  exists bs, Promise_all f l = Ok bs.
Proof.
  induction l as [ | a l IH ]; simpl; intros H.
  - eexists. reflexivity.
  - pose proof (H a (or_introl eq_refl)) as Ha.
    destruct (f a) as [ b | e ]; [ | discriminate ].
    destruct IH as [ bs E ]; [ intros x Hx; apply H; right; exact Hx | ].
    rewrite E. eexists. reflexivity.
Qed.

(** A rejected [Promise.all] carries the error of one of its promises. *)
Lemma Promise_all_Throw {A B : Type} (f : A -> result B) (l : list A) :
  (exists a, In a l /\ failed (f a) = true) ->
  exists a e, In a l /\ f a = Throw e /\ Promise_all f l = Throw e.
Proof.
  induction l as [ | a l IH ]; simpl; intros (x & Hx & Fx).
  - destruct Hx.
  - destruct (f a) as [ b | e ] eqn:E.
    + destruct Hx as [ -> | Hx ]; [ rewrite E in Fx; discriminate | ].
      destruct IH as (y & e & Hy & Ey & Ep); [ exists x; split; assumption | ].
      exists y, e. rewrite Ep.
      split; [ right; exact Hy | split; [ exact Ey | reflexivity ] ].
    + exists a, e. split; [ left; reflexivity | split; [ exact E | reflexivity ] ].
Qed.

Lemma Forall2_in_r {A B : Type} (R : A -> B -> Prop) (l : list A)
    (l' : list B) (b : B) :
  Forall2 R l l' -> In b l' -> exists a, In a l /\ R a b.
Proof.
  induction 1 as [ | x y l l' Hxy _ IH ]; intros Hb.
  - destruct Hb.
  - destruct Hb as [ <- | Hb ].
    + exists x. split; [ left; reflexivity | exact Hxy ].
    + destruct (IH Hb) as (a & Ha & Ra). exists a. split; [ right | ]; assumption.
Qed.

Lemma getVideoStats_Throw (this : Provider) (videoId : string) (e : exn) :
  getVideoStats this videoId = Throw e ->
  exists msg, e = Error ("Error fetching video stats: " ++ msg).
Proof.
  unfold getVideoStats. intros H. apply rethrow_Throw in H.
  destruct H as (e' & _ & ->). exists (exn_message e'). reflexivity.
Qed.

Lemma gatherVideo_failed (this : Provider) (video : Snippet.t) :
  failed (gatherVideo this video) =
  failed (getVideoStats this (Snippet.videoId video)).
Proof.
  unfold gatherVideo. destruct (getVideoStats this (Snippet.videoId video));
    reflexivity.
Qed.

Lemma gatherVideo_Ok (this : Provider) (video : Snippet.t) (v : Video.t) :
  gatherVideo this video = Ok v ->
  Video.videoId v = Snippet.videoId video /\
  Video.transcript v = getTranscript this (Snippet.videoId video) /\
  Video.comments v = getTopComments this (Snippet.videoId video) 50 /\
  getVideoStats this (Snippet.videoId video) = Ok (Video.stats v).
Proof.
  unfold gatherVideo. intros H. apply bind_Ok in H.
  destruct H as (st & E & H). injection H as <-. simpl. auto.
Qed.

Lemma fold_fetched (videos : list Video.t) (n : nat) :
  fold_left (fun sum v => nadd sum (of_nat (List.length (Video.comments v))))
    videos (of_nat n) = of_nat (n + fetched videos).
Proof.
  unfold fetched, list_sum. revert n.
  induction videos as [ | v l IH ]; intros n; cbn [fold_left map fold_right].
  - rewrite Nat.add_0_r. reflexivity.
  - rewrite nadd_of_nat, IH. f_equal. lia.
Qed.

(** What a returned dataset was built from. *)
Lemma gather_Ok (this : Provider) (channelHandle : string) (ds : Dataset.t) :
  gatherChannelIntelligence this channelHandle = Ok ds ->
  exists channelId channelStats videos,
    getChannelId this channelHandle = Ok channelId /\
    getChannelStats this channelId = Ok channelStats /\
    getLatestVideos this channelId = Ok videos /\
    Promise_all (gatherVideo this) videos = Ok (Dataset.videos ds) /\
    Dataset.totalVideosAnalyzed ds = of_nat (List.length (Dataset.videos ds)) /\
    Dataset.totalComments ds = of_nat (fetched (Dataset.videos ds)).
Proof.
  unfold gatherChannelIntelligence. intros H. apply rethrow_Ok in H.
  apply bind_Ok in H. destruct H as (channelId & H1 & H).
  apply bind_Ok in H. destruct H as (channelStats & H2 & H).
  apply bind_Ok in H. destruct H as (videos & H3 & H).
  apply bind_Ok in H. destruct H as (videoData & H4 & H).
  injection H as <-. exists channelId, channelStats, videos.
  cbn [Dataset.videos Dataset.totalVideosAnalyzed Dataset.totalComments].
  repeat split; try assumption.
  apply (fold_fetched videoData 0).
Qed.

End CollectFacts.

(** ** Strings and the analyzers *)

Module AnalyzerFacts.
Import JS Props AIService.

Lemma prefix_app (p post : string) : prefix p (p ++ post) = true.
Proof.
  induction p as [ | c p IH ]; simpl.
  - destruct post; reflexivity.
  - destruct (ascii_dec c c); [ exact IH | congruence ].
Qed.

Lemma includes_prefix (s p : string) :
  prefix p s = true -> includes s p = true.
Proof. intros H. destruct s; cbn [includes]; rewrite H; reflexivity. Qed.

Lemma includes_app (pre p post : string) :
  includes (pre ++ p ++ post) p = true.
Proof.
  induction pre as [ | c pre IH ].
  - change ("" ++ p ++ post) with (p ++ post).
    apply includes_prefix, prefix_app.
  - cbn [append includes]. rewrite IH. apply orb_true_r.
Qed.

Lemma toLowerCase_app (a b : string) :
  toLowerCase (a ++ b) = toLowerCase a ++ toLowerCase b.
Proof.
  induction a as [ | c a IH ]; simpl; [ reflexivity | rewrite IH; reflexivity ].
Qed.

Lemma eq_ci_toLowerCase (s t : string) :
  eq_ci s t -> toLowerCase s = toLowerCase t.
Proof.
  induction 1 as [ | a b s t Hab _ IH ]; simpl; [ reflexivity | ].
  rewrite Hab, IH. reflexivity.
Qed.

(** A title in which [p] occurs up to case has the lower-case [p] in its
    lower-case form. *)
Lemma occurs_ci_includes (p t : string) :
  occurs_ci p t -> includes (toLowerCase t) (toLowerCase p) = true.
Proof.
  intros (pre & mid & post & -> & Hmid).
  rewrite !toLowerCase_app, (eq_ci_toLowerCase _ _ Hmid).
  apply includes_app.
Qed.

End AnalyzerFacts.

(** * The claims *)

Import JS Props.

(** C1, as amended.  On a dataset without videos the metrics computation
    throws and returns no metrics.  The error is the [TypeError] of reading
    the title of an undefined best video: the code has no error of an
    "InsufficientData" kind and does not check the number of videos. *)
Theorem C1_zero_videos_throws_TypeError (Date_parse : string -> number)
    (ds : Dataset.t) :
  Dataset.videos ds = [] ->
  Server.calculateEnhancedMetrics Date_parse ds =
  Throw (TypeError "Cannot read properties of undefined (reading 'title')").
Proof.
  intros H. unfold Server.calculateEnhancedMetrics. rewrite H. reflexivity.
Qed.

Lemma C1_zero_videos_witness :
  Server.calculateEnhancedMetrics Samples.sample_dates Samples.empty_dataset =
  Throw (TypeError "Cannot read properties of undefined (reading 'title')").
Proof.
  apply (C1_zero_videos_throws_TypeError Samples.sample_dates Samples.empty_dataset).
  reflexivity.
Defined.

(** C1, as stated, fails on the empty dataset: the error thrown there is
    not of the kind "InsufficientData". *)
Lemma C1_not_InsufficientData :
  ~ (exists e,
       Server.calculateEnhancedMetrics Samples.sample_dates Samples.empty_dataset
       = Throw e /\
       has_kind "InsufficientData" e = true).
Proof.
  intros (e & H & K). vm_compute in H. injection H as <-.
  vm_compute in K. discriminate K.
Qed.

(** C2, on the code.  With exactly one video the upload frequency is 0.
    The views trend is 0 only when the video has no views: the single video
    is the older half, the recent half is empty, its mean is 0/0, and a video
    with views makes the trend [NaN]. *)
Theorem C2_single_video_trend (Date_parse : string -> number)
    (ds : Dataset.t) (v : Video.t) :
  Dataset.videos ds = [v] ->
  exists m,
    Server.calculateEnhancedMetrics Date_parse ds = Ok m /\
    Metrics.uploadFrequency m = zero /\
    Metrics.viewsTrend m = if ngt (Server.views v) zero then NaN else zero.
Proof.
  intros H. unfold Server.calculateEnhancedMetrics. rewrite H.
  cbn [Server.bestVideo].
  eexists. split; [ reflexivity | ].
  cbn [Metrics.uploadFrequency Metrics.viewsTrend].
  cbn [map sort fold_right insert List.length number_at nth_error Nat.sub].
  split.
  - rewrite NumberFacts.span_of_one_date by lia. reflexivity.
  - change (to_index (Math_floor (ndiv (of_nat 1) (of_Z 2)))) with 0%nat.
    cbn [skipn firstn List.length Server.sum_of fold_left].
    rewrite NumberFacts.mean_of_one.
    destruct (ngt (Server.views v) zero); [ | reflexivity ].
    change (ndiv zero (of_nat 0)) with NaN.
    reflexivity.
Qed.

Lemma C2_single_video_witness :
  exists m,
    Server.calculateEnhancedMetrics Samples.sample_dates
      (Samples.dataset_of [Samples.video_b]) = Ok m /\
    Metrics.uploadFrequency m = zero /\
    Metrics.viewsTrend m = NaN.
Proof.
  apply (C2_single_video_trend Samples.sample_dates
           (Samples.dataset_of [Samples.video_b]) Samples.video_b).
  reflexivity.
Defined.

(** C3, on the code.  A video whose [likeCount] is missing and whose views
    are positive gets the engagement rate "NaN" in the breakdown, although
    its [likes] field, which goes through [|| 0], is 0. *)
Theorem C3_missing_likes_rate_is_NaN (videos : list Video.t) (v : Video.t) :
  In v videos ->
  Stats.likeCount (Video.stats v) = None ->
  ngt (parseInt (ToString (Stats.viewCount (Video.stats v)))) zero = true ->
  exists e,
    In e (Server.getVideoBreakdown videos) /\
    Entry.title e = Video.title v /\
    Entry.likes e = zero /\
    Entry.engagementRate e = "NaN".
Proof.
  intros Hin Hl Hv. exists (Server.breakdownEntry v). split.
  - apply (Permutation_in _ (Permutation_sym (SortFacts.sort_perm _ _))).
    apply in_map, Hin.
  - unfold Server.breakdownEntry.
    cbn [Entry.title Entry.likes Entry.engagementRate].
    rewrite Hv, Hl. repeat split.
Qed.

Lemma C3_missing_likes_witness :
  exists e,
    In e (Server.getVideoBreakdown [Samples.video_b; Samples.video_a]) /\
    Entry.title e = "Epic $10,000 CHALLENGE" /\
    Entry.likes e = zero /\
    Entry.engagementRate e = "NaN".
Proof.
  apply (C3_missing_likes_rate_is_NaN [Samples.video_b; Samples.video_a]
           Samples.video_a).
  - simpl. right. left. reflexivity.
  - reflexivity.
  - reflexivity.
Defined.

(** C4. Once the channel, its statistics and its latest videos are fetched:
    - when the statistics of every video are fetched, the dataset is
      returned whatever became of the other fetches, and in it a video whose
      transcript fetch failed has a [null] transcript and a video whose
      comment fetch failed has no comments;
    - when the statistics fetch of some video fails, the collection throws
      an error that wraps a statistics error, and returns no dataset. *)
Theorem C4_collection_failures (this : YouTubeService.Provider)
    (channelHandle channelId : string) (channelStats : ChannelStats.t)
    (videos : list Snippet.t) :
  YouTubeService.getChannelId this channelHandle = Ok channelId ->
  YouTubeService.getChannelStats this channelId = Ok channelStats ->
  YouTubeService.getLatestVideos this channelId = Ok videos ->
  ((forall video, In video videos ->
      failed (YouTubeService.getVideoStats this (Snippet.videoId video)) = false) ->
   exists ds,
     YouTubeService.gatherChannelIntelligence this channelHandle = Ok ds /\
     Forall2
       (fun video v =>
          Video.videoId v = Snippet.videoId video /\
          (failed (YouTubeService.fetchTranscript this (Snippet.videoId video)) = true ->
           Video.transcript v = None) /\
          (failed (YouTubeService.commentThreads this (Snippet.videoId video) 50) = true ->
           Video.comments v = []))
       videos (Dataset.videos ds)) /\
  ((exists video, In video videos /\
      failed (YouTubeService.getVideoStats this (Snippet.videoId video)) = true) ->
   exists msg,
     YouTubeService.gatherChannelIntelligence this channelHandle =
     Throw (Error ("Intelligence gathering failed: " ++
                   "Error fetching video stats: " ++ msg))).
Proof.
  intros H1 H2 H3. split.
  - intros Hstats.
    destruct (CollectFacts.Promise_all_total (YouTubeService.gatherVideo this) videos)
      as [ videoData E ].
    { intros video Hv. rewrite CollectFacts.gatherVideo_failed. apply Hstats, Hv. }
    unfold YouTubeService.gatherChannelIntelligence.
    rewrite H1; cbn [bind]. rewrite H2; cbn [bind]. rewrite H3; cbn [bind].
    rewrite E; cbn [bind rethrow].
    eexists. split; [ reflexivity | ]. cbn [Dataset.videos].
    apply CollectFacts.Promise_all_Ok in E.
    eapply Forall2_impl; [ | exact E ].
    intros video v Hv. cbv beta in Hv.
    apply CollectFacts.gatherVideo_Ok in Hv.
    destruct Hv as (Hid & Ht & Hc & _).
    split; [ exact Hid | split ].
    + intros F. rewrite Ht. unfold YouTubeService.getTranscript.
      destruct (YouTubeService.fetchTranscript this (Snippet.videoId video));
        [ discriminate | reflexivity ].
    + intros F. rewrite Hc. unfold YouTubeService.getTopComments.
      destruct (YouTubeService.commentThreads this (Snippet.videoId video) 50);
        [ discriminate | reflexivity ].
  - intros Hfail.
    destruct (CollectFacts.Promise_all_Throw (YouTubeService.gatherVideo this) videos)
      as (video & e & Hin & Ev & Ep).
    { destruct Hfail as (video & Hin & F). exists video.
      split; [ exact Hin | ]. rewrite CollectFacts.gatherVideo_failed. exact F. }
    assert (Es : YouTubeService.getVideoStats this (Snippet.videoId video) = Throw e).
    { unfold YouTubeService.gatherVideo in Ev.
      destruct (YouTubeService.getVideoStats this (Snippet.videoId video));
        [ discriminate | simpl in Ev; injection Ev as ->; reflexivity ]. }
    destruct (CollectFacts.getVideoStats_Throw _ _ _ Es) as [ msg -> ].
    exists msg. unfold YouTubeService.gatherChannelIntelligence.
    rewrite H1; cbn [bind]. rewrite H2; cbn [bind]. rewrite H3; cbn [bind].
    rewrite Ep. reflexivity.
Qed.

Lemma C4_collection_witness :
  (exists ds,
     YouTubeService.gatherChannelIntelligence Samples.provider "@channel" = Ok ds /\
     Forall2
       (fun video v =>
          Video.videoId v = Snippet.videoId video /\
          (failed (YouTubeService.fetchTranscript Samples.provider
                     (Snippet.videoId video)) = true ->
           Video.transcript v = None) /\
          (failed (YouTubeService.commentThreads Samples.provider
                     (Snippet.videoId video) 50) = true ->
           Video.comments v = []))
       [Samples.snippet_a; Samples.snippet_b] (Dataset.videos ds)) /\
  (exists msg,
     YouTubeService.gatherChannelIntelligence Samples.broken_provider "@channel" =
     Throw (Error ("Intelligence gathering failed: " ++
                   "Error fetching video stats: " ++ msg))).
Proof.
  split.
  - apply (proj1 (C4_collection_failures Samples.provider "@channel" "UC1"
                    Samples.channel [Samples.snippet_a; Samples.snippet_b]
                    eq_refl eq_refl eq_refl)).
    intros video [ <- | [ <- | [] ] ]; reflexivity.
  - apply (proj2 (C4_collection_failures Samples.broken_provider "@channel" "UC1"
                    Samples.channel [Samples.snippet_a; Samples.snippet_b]
                    eq_refl eq_refl eq_refl)).
    exists Samples.snippet_b. split; [ right; left; reflexivity | reflexivity ].
Defined.

(** C5. With fewer than five comments, or none at all, the sentiment
    analysis returns the fixed placeholder for insufficient data (three
    complaints of low or medium frequency and "More data needed" as the most
    requested feature) and sends no prompt to the model. *)
Theorem C5_few_comments_placeholder
    (generate : string -> result string)
    (JSON_parse : string -> result AIService.json)
    (ToNumber : AIService.json -> number)
    (comments : option (list Comment.t)) (calls : list string) :
  (forall l, comments = Some l -> (List.length l < 5)%nat) ->
  AIService.analyzeSentiment generate JSON_parse ToNumber comments calls =
  (AIService.JObj
     [("complaints",
       AIService.JArr
         [AIService.complaint "Limited engagement data" "medium";
          AIService.complaint "Low comment activity" "low";
          AIService.complaint "Check community settings" "low"]);
      ("mostRequestedFeature", AIService.JStr "More data needed")],
   calls).
Proof.
  intros H. unfold AIService.analyzeSentiment.
  destruct comments as [ l | ]; [ | reflexivity ].
  specialize (H l eq_refl). apply Nat.ltb_lt in H. rewrite H. reflexivity.
Qed.

Lemma C5_few_comments_witness :
  AIService.analyzeSentiment Samples.no_model Samples.no_parser
    (fun _ => NaN) (Some [Samples.a_comment; Samples.a_comment]) [] =
  (AIService.JObj
     [("complaints",
       AIService.JArr
         [AIService.complaint "Limited engagement data" "medium";
          AIService.complaint "Low comment activity" "low";
          AIService.complaint "Check community settings" "low"]);
      ("mostRequestedFeature", AIService.JStr "More data needed")],
   []).
Proof.
  apply (C5_few_comments_placeholder Samples.no_model Samples.no_parser
           (fun _ => NaN) (Some [Samples.a_comment; Samples.a_comment]) []).
  intros l E. injection E as <-. simpl. lia.
Defined.

(** C6. When some title contains "challenge", in any mix of upper and lower
    case, or a dollar sign, the hook analysis returns the fixed
    "Entertainment & Spectacle" result and sends no prompt to the model,
    whatever the model would have answered. *)
Theorem C6_spectacle_short_circuit
    (generate : string -> result string)
    (JSON_parse : string -> result AIService.json)
    (videoData : list Video.t) (calls : list string) :
  (exists v, In v videoData /\
     (occurs_ci "challenge" (Video.title v) \/ occurs_ci "$" (Video.title v))) ->
  AIService.analyzeHooks generate JSON_parse videoData calls =
  (AIService.JObj
     [("primaryHook", AIService.JStr "Entertainment & Spectacle");
      ("secondaryHooks",
       AIService.JArr [AIService.JStr "FOMO"; AIService.JStr "Curiosity"]);
      ("strategy", AIService.JStr "Viral content with high production value")],
   calls).
Proof.
  intros (v & Hv & Ht). unfold AIService.analyzeHooks.
  assert (E : existsb (fun t => includes t "challenge" || includes t "$")
                (map (fun v => toLowerCase (Video.title v)) videoData) = true).
  { apply existsb_exists. exists (toLowerCase (Video.title v)). split.
    - apply in_map_iff. exists v. split; [ reflexivity | exact Hv ].
    - apply orb_true_iff. destruct Ht as [ Ht | Ht ]; [ left | right ].
      + apply (AnalyzerFacts.occurs_ci_includes "challenge"), Ht.
      + apply (AnalyzerFacts.occurs_ci_includes "$"), Ht. }
  rewrite E. reflexivity.
Qed.

Lemma C6_spectacle_witness :
  AIService.analyzeHooks Samples.no_model Samples.no_parser
    [Samples.video_b; Samples.video_a] [] =
  (AIService.JObj
     [("primaryHook", AIService.JStr "Entertainment & Spectacle");
      ("secondaryHooks",
       AIService.JArr [AIService.JStr "FOMO"; AIService.JStr "Curiosity"]);
      ("strategy", AIService.JStr "Viral content with high production value")],
   []).
Proof.
  apply (C6_spectacle_short_circuit Samples.no_model Samples.no_parser
           [Samples.video_b; Samples.video_a] []).
  exists Samples.video_a. split; [ right; left; reflexivity | ].
  left. exists "Epic $10,000 ", "CHALLENGE", "".
  split; [ reflexivity | ].
  repeat (apply eq_ci_cons; [ reflexivity | ]). apply eq_ci_nil.
Defined.

(** C7. The video breakdown is sorted by views, largest first, and rows
    with the same number of views keep the order of the input list.  The
    view counts are ones that [parseInt] reads: none parses to [NaN]. *)
Theorem C7_breakdown_sorted_and_stable (videos : list Video.t) :
  forallb counted videos = true ->
  let rows := map Server.breakdownEntry videos in
  let out := Server.getVideoBreakdown videos in
  StronglySorted (fun a b => nle (Entry.views b) (Entry.views a) = true) out /\
  Permutation out rows /\
  forall k : Z,
    filter (fun e => is_int k (Entry.views e)) out =
    filter (fun e => is_int k (Entry.views e)) rows.
Proof.
  intros H rows out.
  pose proof (BreakdownFacts.entries_ordered videos H) as G.
  split; [ | split ].
  - apply BreakdownFacts.descending_views.
    + apply SortFacts.sort_Forall, G.
    + apply (SortFacts.sort_descending Server.byViews _
               (fun e => ordered (Entry.views e))
               BreakdownFacts.after_by_views), G.
  - apply SortFacts.sort_perm.
  - intros k.
    apply (SortFacts.sort_filter Server.byViews
             (fun e => rank (Entry.views e))
             (fun e => ordered (Entry.views e))
             BreakdownFacts.after_by_views); [ | exact G ].
    intros x y _ _ Ex Ey.
    rewrite (BreakdownFacts.is_int_rank k _ Ex).
    rewrite (BreakdownFacts.is_int_rank k _ Ey). reflexivity.
Qed.

Lemma C7_breakdown_witness :
  let videos := [Samples.video_a; Samples.video_b; Samples.video_c] in
  let rows := map Server.breakdownEntry videos in
  let out := Server.getVideoBreakdown videos in
  StronglySorted (fun a b => nle (Entry.views b) (Entry.views a) = true) out /\
  Permutation out rows /\
  forall k : Z,
    filter (fun e => is_int k (Entry.views e)) out =
    filter (fun e => is_int k (Entry.views e)) rows.
Proof.
  apply (C7_breakdown_sorted_and_stable
           [Samples.video_a; Samples.video_b; Samples.video_c]).
  reflexivity.
Defined.

(** C8, as amended.  On a list that is not empty and whose view counters
    report natural numbers below 2^53 (a counter that is absent reports
    zero), the best performing video has the largest view count reported,
    and it is the first of the list to have it: every video before it
    reports fewer views, no video after it reports more.  The counts are
    read off the counters as decimal numerals, not by the code's own
    [parseInt]. *)
Theorem C8_best_video_is_first_maximum (Date_parse : string -> number)
    (ds : Dataset.t) (count : Video.t -> N) :
  Dataset.videos ds <> [] ->
  (forall v, In v (Dataset.videos ds) ->
     reports (Stats.viewCount (Video.stats v)) (count v) /\
     (count v < 2 ^ 53)%N) ->
  exists m pre best post,
    Server.calculateEnhancedMetrics Date_parse ds = Ok m /\
    Dataset.videos ds = (pre ++ best :: post)%list /\
    Metrics.bestPerformingVideo m =
      Best.mk (Video.title best) (Stats.viewCount (Video.stats best))
              (Stats.likeCount (Video.stats best)) /\
    (forall v, In v pre -> (count v < count best)%N) /\
    (forall v, In v post -> (count v <= count best)%N).
Proof.
  intros Hne Hc.
  assert (Hv : forall v, In v (Dataset.videos ds) ->
               Server.views v = of_N (count v)).
  { intros v Hin. destruct (Hc v Hin) as [ R B ].
    apply CounterFacts.reports_parse; assumption. }
  assert (Ho : Forall (fun v => ordered (Server.views v)) (Dataset.videos ds)).
  { apply Forall_forall. intros v Hin. rewrite (Hv v Hin).
    apply CounterFacts.ordered_of_N, (Hc v Hin). }
  destruct (BestFacts.bestVideo_first_maximum _ Hne Ho)
    as (pre & best & post & B & E & Hpre & Hpost).
  destruct (MetricsFacts.calculate_fields Date_parse ds best B)
    as (m & Hm & Hbest & _).
  exists m, pre, best, post.
  assert (Hk : forall v, In v (Dataset.videos ds) ->
               rank (Server.views v) = Z.of_N (count v)).
  { intros v Hin. rewrite (Hv v Hin). apply NumberFacts.rank_of_Z. }
  assert (Ib : In best (Dataset.videos ds)).
  { rewrite E. apply in_or_app. right. left. reflexivity. }
  repeat split; try assumption.
  - intros v Hin. specialize (Hpre v Hin). cbv beta in Hpre.
    rewrite (Hk best Ib), (Hk v) in Hpre; [ lia | ].
    rewrite E. apply in_or_app. left. exact Hin.
  - intros v Hin. specialize (Hpost v Hin). cbv beta in Hpost.
    rewrite (Hk best Ib), (Hk v) in Hpost; [ lia | ].
    rewrite E. apply in_or_app. right. right. exact Hin.
Qed.

Lemma C8_best_video_witness :
  exists m,
    Server.calculateEnhancedMetrics Samples.sample_dates
      (Samples.dataset_of [Samples.video_a; Samples.video_b; Samples.video_c])
    = Ok m /\
    Metrics.bestPerformingVideo m =
      Best.mk "Studio tour" (Some "300") (Some "30").
Proof.
  destruct (C8_best_video_is_first_maximum Samples.sample_dates
              (Samples.dataset_of
                 [Samples.video_a; Samples.video_b; Samples.video_c])
              (fun v => if String.eqb (Video.videoId v) "b" then 300%N
                        else 100%N))
    as (m & pre & best & post & Hm & E & Hb & Hpre & Hpost).
  - discriminate.
  - intros v [ <- | [ <- | [ <- | [] ] ] ];
      (split; [ left; reflexivity | reflexivity ]).
  - exists m. split; [ exact Hm | ]. rewrite Hb.
    cbn [Dataset.videos Samples.dataset_of] in E.
    destruct pre as [ | x [ | y [ | z pre ] ] ]; cbn [app] in E.
    + injection E as <- <-.
      specialize (Hpost Samples.video_b (or_introl eq_refl)).
      cbv in Hpost. contradiction Hpost. reflexivity.
    + injection E as _ <- _. reflexivity.
    + injection E as _ <- <- _.
      specialize (Hpre Samples.video_b (or_intror (or_introl eq_refl))).
      cbv in Hpre. discriminate Hpre.
    + injection E as _ _ _ E. destruct pre; discriminate E.
Defined.

(** C8, as stated, fails beyond 2^53.  The view counts 9007199254740992
    and 9007199254740993 convert to the same number; the reduction keeps
    the first video, and no video with the largest view count is the one
    reported. *)
Lemma C8_not_maximal_beyond_2_53 :
  let videos := [Samples.crowded_a; Samples.crowded_b] in
  ~ (exists m best,
       Server.calculateEnhancedMetrics Samples.sample_dates
         (Samples.dataset_of videos) = Ok m /\
       In best videos /\
       Metrics.bestPerformingVideo m =
         Best.mk (Video.title best) (Stats.viewCount (Video.stats best))
                 (Stats.likeCount (Video.stats best)) /\
       forall v n k,
         In v videos ->
         reports (Stats.viewCount (Video.stats v)) n ->
         reports (Stats.viewCount (Video.stats best)) k ->
         (n <= k)%N).
Proof.
  intros videos (m & best & Hm & Hin & Hb & Hmax).
  assert (Ha : Metrics.bestPerformingVideo m =
               Best.mk "Premiere" (Some "9007199254740992") (Some "1")).
  { vm_compute in Hm. injection Hm as <-. reflexivity. }
  destruct Hin as [ <- | [ <- | [] ] ].
  - specialize (Hmax Samples.crowded_b 9007199254740993%N 9007199254740992%N
                  (or_intror (or_introl eq_refl))
                  (or_introl eq_refl) (or_introl eq_refl)).
    vm_compute in Hmax. apply Hmax. reflexivity.
  - rewrite Ha in Hb. discriminate Hb.
Qed.

(** C9. Every dataset that the collection returns has [totalComments]
    equal to the sum of the lengths of its videos' comment lists, and
    [totalVideosAnalyzed] equal to the length of its video list. *)
Theorem C9_dataset_totals (this : YouTubeService.Provider)
    (channelHandle : string) (ds : Dataset.t) :
  YouTubeService.gatherChannelIntelligence this channelHandle = Ok ds ->
  Dataset.totalComments ds =
    of_nat (list_sum (map (fun v => List.length (Video.comments v))
                          (Dataset.videos ds))) /\
  Dataset.totalVideosAnalyzed ds = of_nat (List.length (Dataset.videos ds)).
Proof.
  intros H. apply CollectFacts.gather_Ok in H.
  destruct H as (_ & _ & _ & _ & _ & _ & _ & Hn & Hc).
  split; [ exact Hc | exact Hn ].
Qed.

Lemma C9_dataset_totals_witness :
  Dataset.totalComments Samples.collected =
    of_nat (list_sum (map (fun v => List.length (Video.comments v))
                          (Dataset.videos Samples.collected))) /\
  Dataset.totalVideosAnalyzed Samples.collected =
    of_nat (List.length (Dataset.videos Samples.collected)).
Proof.
  apply (C9_dataset_totals Samples.provider "@channel" Samples.collected).
  vm_compute. reflexivity.
Defined.




(** * Further properties *)

Import MoreProps.

(** ** More on the metrics *)

Module MetricsMore.
Import NumberFacts CounterFacts.

Lemma Qred_zero (q : Q) : (q == 0)%Q -> Qred q = 0%Q.
Proof. intros H. apply (Qred_complete q 0 H). Qed.

Lemma ndiv_of_Z (a b : Z) :
  b <> 0%Z -> ndiv (of_Z a) (of_Z b) = fin (inject_Z a / inject_Z b)%Q.
Proof.
  intros Hb. unfold ndiv, of_Z.
  assert (E : Qzero (inject_Z b) = false)
    by (unfold Qzero; simpl; apply Z.eqb_neq, Hb).
  rewrite E. reflexivity.
Qed.

(** [Math.round(a / b)] on integers. *)
Lemma round_quotient (a : Z) (b : positive) :
  Math_round (ndiv (of_Z a) (of_Z (Zpos b))) =
  of_Z (rounded_quotient a (Zpos b)).
Proof.
  rewrite ndiv_of_Z by discriminate. unfold fin, Math_round. f_equal.
  unfold rounded_quotient.
  transitivity (Qfloor ((2 * a + Zpos b) # (2 * b))).
  - apply Qfloor_comp. rewrite Qred_correct.
    rewrite (Qmake_Qdiv (2 * a + Z.pos b) (2 * b)).
    rewrite Pos2Z.inj_mul, !inject_Z_plus, !inject_Z_mult.
    field. intros H. discriminate H.
  - reflexivity.
Qed.

Lemma number_at_constant (x : number) (l : list number) (i : nat) :
  Forall (eq x) l -> (i < List.length l)%nat -> number_at l i = x.
Proof.
  intros H. revert i. induction H as [ | y l Hy _ IH ]; intros i Hi.
  - inversion Hi.
  - destruct i as [ | i ]; [ symmetry; exact Hy | ].
    apply IH. simpl in Hi. lia.
Qed.

Lemma filter_none {A : Type} (f : A -> bool) (l : list A) :
  (forall a, In a l -> f a = false) -> filter f l = [].
Proof.
  induction l as [ | a l IH ]; intros H; simpl; [ reflexivity | ].
  rewrite (H a (or_introl eq_refl)). apply IH.
  intros b Hb. apply H. right. exact Hb.
Qed.

Lemma filter_all {A : Type} (f : A -> bool) (l : list A) :
  (forall a, In a l -> f a = true) -> filter f l = l.
Proof.
  induction l as [ | a l IH ]; intros H; simpl; [ reflexivity | ].
  rewrite (H a (or_introl eq_refl)). f_equal. apply IH.
  intros b Hb. apply H. right. exact Hb.
Qed.

Lemma truthy_has_transcript (v : Video.t) :
  Server.truthy (Server.transcript_and_length v) = has_transcript v.
Proof.
  unfold Server.truthy, Server.transcript_and_length, has_transcript.
  destruct (Video.transcript v) as [ [ | c s ] | ]; reflexivity.
Qed.

(** The share of [k] videos among [n], as [transcriptAvailability] prints
    and reads it again, at the two ends. *)
Lemma share_none (n : positive) :
  parseInt (toFixed 0 (nmul (ndiv (of_nat 0) (of_Z (Zpos n))) (of_Z 100))) = of_Z 0.
Proof.
  change (of_nat 0) with (of_Z 0). rewrite ndiv_of_Z by discriminate.
  unfold fin. rewrite Qred_zero; [ reflexivity | ].
  unfold Qdiv. apply Qmult_0_l.
Qed.

Lemma share_all (n : positive) :
  parseInt (toFixed 0 (nmul (ndiv (of_Z (Zpos n)) (of_Z (Zpos n))) (of_Z 100)))
  = of_Z 100.
Proof.
  rewrite ndiv_of_Z by discriminate. unfold fin.
  rewrite (Qred_complete _ 1%Q); [ reflexivity | ].
  field. intros H. discriminate H.
Qed.

End MetricsMore.

(** X1. The metrics computation throws exactly when the dataset has no
    video: on a list that is not empty it returns metrics whatever the
    counters, the dates and the transcripts are, and passes the counts of
    the dataset and of the channel through. *)
Theorem X1_metrics_unless_empty (Date_parse : string -> number)
    (ds : Dataset.t) :
  ((exists m, Server.calculateEnhancedMetrics Date_parse ds = Ok m) <->
   Dataset.videos ds <> []) /\
  (forall m, Server.calculateEnhancedMetrics Date_parse ds = Ok m ->
     Metrics.videosAnalyzed m = of_nat (List.length (Dataset.videos ds)) /\
     Metrics.commentsProcessed m = Dataset.totalComments ds /\
     Metrics.subscriberCount m =
       ChannelStats.subscriberCount (Dataset.channelStats ds) /\
     Metrics.totalChannelViews m =
       ChannelStats.totalViews (Dataset.channelStats ds) /\
     Metrics.totalChannelVideos m =
       ChannelStats.totalVideos (Dataset.channelStats ds)).
Proof.
  split; [ split | ].
  - intros [m Hm]. apply (MetricsFacts.calculate_Ok_inv _ _ _ Hm).
  - intros Hne. destruct (MetricsFacts.bestVideo_some _ Hne) as [best B].
    destruct (MetricsFacts.calculate_fields Date_parse ds best B) as (m & Hm & _).
    exists m. exact Hm.
  - intros m Hm. unfold Server.calculateEnhancedMetrics in Hm.
    destruct (Server.bestVideo (Dataset.videos ds)); [ | discriminate Hm ].
    injection Hm as <-. repeat split.
Qed.

Lemma X1_metrics_witness :
  (exists m,
     Server.calculateEnhancedMetrics Samples.sample_dates
       (Samples.dataset_of [Samples.video_a]) = Ok m) /\
  ~ (exists m,
       Server.calculateEnhancedMetrics Samples.sample_dates
         Samples.empty_dataset = Ok m).
Proof.
  split.
  - apply (proj1 (X1_metrics_unless_empty Samples.sample_dates
                    (Samples.dataset_of [Samples.video_a]))).
    discriminate.
  - intros H.
    apply (proj1 (X1_metrics_unless_empty Samples.sample_dates
                    Samples.empty_dataset)) in H.
    apply H. reflexivity.
Defined.

(** X2. When the view, like and comment counters of every video report
    natural numbers (a counter that is absent reports zero) and the sum of
    each counter over the videos is below 2^52, the three totals are these
    sums and the three averages are the sums divided by the number of
    videos, rounded to the nearest integer with halves rounded up.  Below
    2^52 the sums of the engine are exact, and its quotient lies on the
    side of every half that the exact quotient lies on. *)
Theorem X2_totals_and_averages (Date_parse : string -> number)
    (ds : Dataset.t) (viewed liked commented : Video.t -> N) :
  Dataset.videos ds <> [] ->
  (forall v, In v (Dataset.videos ds) ->
     reports (Stats.viewCount (Video.stats v)) (viewed v) /\
     reports (Stats.likeCount (Video.stats v)) (liked v) /\
     reports (Stats.commentCount (Video.stats v)) (commented v)) ->
  (sum_N viewed (Dataset.videos ds) < 2 ^ 52)%N ->
  (sum_N liked (Dataset.videos ds) < 2 ^ 52)%N ->
  (sum_N commented (Dataset.videos ds) < 2 ^ 52)%N ->
  let videos := Dataset.videos ds in
  let n := Z.of_nat (List.length videos) in
  exists m,
    Server.calculateEnhancedMetrics Date_parse ds = Ok m /\
    Metrics.totalViews m = of_N (sum_N viewed videos) /\
    Metrics.totalLikes m = of_N (sum_N liked videos) /\
    Metrics.totalComments m = of_N (sum_N commented videos) /\
    Metrics.avgViews m =
      of_Z (rounded_quotient (Z.of_N (sum_N viewed videos)) n) /\
    Metrics.avgLikes m =
      of_Z (rounded_quotient (Z.of_N (sum_N liked videos)) n) /\
    Metrics.avgComments m =
      of_Z (rounded_quotient (Z.of_N (sum_N commented videos)) n).
Proof.
  intros Hne Hr Bv Bl Bc videos n.
  destruct (MetricsFacts.bestVideo_some _ Hne) as [best B].
  unfold Server.calculateEnhancedMetrics. rewrite B.
  eexists. split; [ reflexivity | ].
  cbn [Metrics.totalViews Metrics.totalLikes Metrics.totalComments
       Metrics.avgViews Metrics.avgLikes Metrics.avgComments].
  fold videos.
  assert (W : (2 ^ 52 < 2 ^ 53)%N) by reflexivity.
  assert (Ev : Server.sum_of Server.views videos = of_N (sum_N viewed videos)).
  { apply MetricsFacts.sum_of_counts.
    apply (MetricsFacts.counter_reported
             (fun v => Stats.viewCount (Video.stats v)) viewed videos);
      [ intros v Hv; apply (Hr v Hv) | fold videos in Bv; lia ]. }
  assert (El : Server.sum_of Server.likes videos = of_N (sum_N liked videos)).
  { apply MetricsFacts.sum_of_counts.
    apply (MetricsFacts.counter_reported
             (fun v => Stats.likeCount (Video.stats v)) liked videos);
      [ intros v Hv; apply (Hr v Hv) | fold videos in Bl; lia ]. }
  assert (Ec : Server.sum_of Server.comments videos =
               of_N (sum_N commented videos)).
  { apply MetricsFacts.sum_of_counts.
    apply (MetricsFacts.counter_reported
             (fun v => Stats.commentCount (Video.stats v)) commented videos);
      [ intros v Hv; apply (Hr v Hv) | fold videos in Bc; lia ]. }
  assert (En : exists p, of_nat (List.length videos) = of_Z (Zpos p) /\ n = Zpos p).
  { subst n videos. destruct (Dataset.videos ds) as [ | v l ]; [ congruence | ].
    exists (Pos.of_succ_nat (List.length l)). unfold of_nat.
    cbn [List.length]. rewrite Zpos_P_of_succ_nat, Nat2Z.inj_succ. auto. }
  destruct En as (p & En & ->).
  rewrite Ev, El, Ec, En. unfold of_N.
  rewrite !MetricsMore.round_quotient. repeat split.
Qed.

Lemma X2_totals_witness :
  exists m,
    Server.calculateEnhancedMetrics Samples.sample_dates
      (Samples.dataset_of [Samples.video_b; Samples.video_c]) = Ok m /\
    Metrics.totalViews m = of_Z 400 /\
    Metrics.totalLikes m = of_Z 37 /\
    Metrics.totalComments m = of_Z 2 /\
    Metrics.avgViews m = of_Z 200 /\
    Metrics.avgLikes m = of_Z 19 /\
    Metrics.avgComments m = of_Z 1.
Proof.
  apply (X2_totals_and_averages Samples.sample_dates
           (Samples.dataset_of [Samples.video_b; Samples.video_c])
           (fun v => if String.eqb (Video.videoId v) "b" then 300%N else 100%N)
           (fun v => if String.eqb (Video.videoId v) "b" then 30%N else 7%N)
           (fun v => if String.eqb (Video.videoId v) "b" then 2%N else 0%N)).
  - discriminate.
  - intros v [ <- | [ <- | [] ] ]; repeat split;
      first [ left; reflexivity | right; split; reflexivity ].
  - reflexivity.
  - reflexivity.
  - reflexivity.
Defined.

(** X3. The transcript availability of a dataset with videos is 0 when no
    video has a transcript, an empty transcript counting as none, and 100
    when every video has one. *)
Theorem X3_transcript_availability_ends (Date_parse : string -> number)
    (ds : Dataset.t) :
  Dataset.videos ds <> [] ->
  exists m,
    Server.calculateEnhancedMetrics Date_parse ds = Ok m /\
    (forallb (fun v => negb (has_transcript v)) (Dataset.videos ds) = true ->
     Metrics.transcriptAvailability m = of_Z 0) /\
    (forallb has_transcript (Dataset.videos ds) = true ->
     Metrics.transcriptAvailability m = of_Z 100).
Proof.
  intros Hne.
  destruct (MetricsFacts.bestVideo_some _ Hne) as [best B].
  unfold Server.calculateEnhancedMetrics. rewrite B.
  eexists. split; [ reflexivity | ].
  cbn [Metrics.transcriptAvailability].
  assert (En : exists p, of_nat (List.length (Dataset.videos ds)) = of_Z (Zpos p)).
  { destruct (Dataset.videos ds) as [ | v l ]; [ congruence | ].
    exists (Pos.of_succ_nat (List.length l)). unfold of_nat.
    cbn [List.length]. rewrite Zpos_P_of_succ_nat, Nat2Z.inj_succ. reflexivity. }
  destruct En as (p & En).
  split; intros H; rewrite forallb_forall in H.
  - rewrite MetricsMore.filter_none.
    + cbn [List.length]. rewrite En. apply MetricsMore.share_none.
    + intros v Hv. rewrite MetricsMore.truthy_has_transcript.
      apply negb_true_iff, H, Hv.
  - rewrite MetricsMore.filter_all.
    + rewrite En. apply MetricsMore.share_all.
    + intros v Hv. rewrite MetricsMore.truthy_has_transcript. apply H, Hv.
Qed.

Lemma X3_transcript_availability_witness :
  (exists m,
     Server.calculateEnhancedMetrics Samples.sample_dates
       (Samples.dataset_of [Samples.video_a; Samples.video_c]) = Ok m /\
     Metrics.transcriptAvailability m = of_Z 0) /\
  (exists m,
     Server.calculateEnhancedMetrics Samples.sample_dates
       (Samples.dataset_of [Samples.video_b]) = Ok m /\
     Metrics.transcriptAvailability m = of_Z 100).
Proof.
  split.
  - destruct (X3_transcript_availability_ends Samples.sample_dates
                (Samples.dataset_of [Samples.video_a; Samples.video_c]))
      as (m & Hm & H0 & _); [ discriminate | ].
    exists m. split; [ exact Hm | apply H0; reflexivity ].
  - destruct (X3_transcript_availability_ends Samples.sample_dates
                (Samples.dataset_of [Samples.video_b]))
      as (m & Hm & _ & H100); [ discriminate | ].
    exists m. split; [ exact Hm | apply H100; reflexivity ].
Defined.

(** X4. When all the videos of a dataset are published at the same instant,
    or no publication date is a valid date, the upload frequency is 0: the
    division by a span of zero days is guarded. *)
Theorem X4_upload_frequency_same_date (Date_parse : string -> number)
    (ds : Dataset.t) (instant : number) :
  Dataset.videos ds <> [] ->
  (forall v, In v (Dataset.videos ds) ->
     Date_parse (Video.publishedAt v) = instant) ->
  exists m,
    Server.calculateEnhancedMetrics Date_parse ds = Ok m /\
    Metrics.uploadFrequency m = zero.
Proof.
  intros Hne Hd.
  destruct (MetricsFacts.bestVideo_some _ Hne) as [best B].
  unfold Server.calculateEnhancedMetrics. rewrite B.
  eexists. split; [ reflexivity | ].
  cbn [Metrics.uploadFrequency].
  set (dates := sort (fun a b => nsub b a)
                  (map (fun v => Date_parse (Video.publishedAt v))
                       (Dataset.videos ds))).
  assert (Hall : Forall (eq instant) dates).
  { apply SortFacts.sort_Forall. apply Forall_forall. intros d Hin.
    apply in_map_iff in Hin. destruct Hin as (v & <- & Hv).
    symmetry. apply Hd, Hv. }
  assert (Hlen : (0 < List.length dates)%nat).
  { unfold dates.
    rewrite (Permutation_length (SortFacts.sort_perm _ _)), length_map.
    destruct (Dataset.videos ds); [ congruence | simpl; lia ]. }
  rewrite (MetricsMore.number_at_constant instant dates 0 Hall Hlen).
  rewrite (MetricsMore.number_at_constant instant dates _ Hall) by lia.
  rewrite NumberFacts.span_of_one_date by lia. reflexivity.
Qed.

Lemma X4_upload_frequency_witness :
  exists m,
    Server.calculateEnhancedMetrics Samples.sample_dates
      (Samples.dataset_of [Samples.video_b; Samples.video_c]) = Ok m /\
    Metrics.uploadFrequency m = zero.
Proof.
  apply (X4_upload_frequency_same_date Samples.sample_dates
           (Samples.dataset_of [Samples.video_b; Samples.video_c])
           (of_Z 1704067200000)).
  - discriminate.
  - intros v [ <- | [ <- | [] ] ]; reflexivity.
Defined.

(** X5. The video breakdown has exactly one row per video, whatever the
    counters are: it is a rearrangement of the rows built from the videos. *)
Theorem X5_breakdown_one_row_per_video (videos : list Video.t) :
  Permutation (Server.getVideoBreakdown videos)
              (map Server.breakdownEntry videos) /\
  List.length (Server.getVideoBreakdown videos) = List.length videos.
Proof.
  assert (P : Permutation (Server.getVideoBreakdown videos)
                          (map Server.breakdownEntry videos))
    by apply SortFacts.sort_perm.
  split; [ exact P | ].
  rewrite (Permutation_length P). apply length_map.
Qed.

(** ** More on the collection *)

Module CollectMore.
Import YouTubeService CollectFacts.

Lemma bind_Throw {A B : Type} (r : result A) (k : A -> result B) (e : exn) :
  bind r k = Throw e -> r = Throw e \/ exists a, r = Ok a /\ k a = Throw e.
Proof.
  destruct r as [ a | e' ]; simpl; intros H.
  - right. exists a. split; [ reflexivity | exact H ].
  - left. injection H as ->. reflexivity.
Qed.

Lemma Promise_all_Throw_inv {A B : Type} (f : A -> result B) (l : list A)
    (e : exn) :
  Promise_all f l = Throw e -> exists a, In a l /\ f a = Throw e.
Proof.
  induction l as [ | a l IH ]; simpl; intros H; [ discriminate H | ].
  destruct (f a) as [ b | e' ] eqn:E.
  - apply bind_Throw in H. destruct H as [ H | (bs & _ & H) ]; [ | discriminate H ].
    destruct (IH H) as (x & Hx & Ex). exists x. split; [ right | ]; assumption.
  - injection H as ->. exists a. split; [ left; reflexivity | exact E ].
Qed.

Lemma gatherVideo_Throw (this : Provider) (video : Snippet.t) (e : exn) :
  gatherVideo this video = Throw e ->
  getVideoStats this (Snippet.videoId video) = Throw e.
Proof.
  unfold gatherVideo. intros H. apply bind_Throw in H.
  destruct H as [ H | (st & _ & H) ]; [ exact H | discriminate H ].
Qed.

Lemma replace_first_absent (c : ascii) (s : string) :
  absent c s = true -> replace_first c s = s.
Proof.
  induction s as [ | d s IH ]; simpl; intros H; [ reflexivity | ].
  apply andb_true_iff in H. destruct H as [H1 H2].
  apply negb_true_iff in H1. rewrite H1, (IH H2). reflexivity.
Qed.

Lemma gathered_videos (this : Provider) (channelHandle : string)
    (ds : Dataset.t) :
  gatherChannelIntelligence this channelHandle = Ok ds ->
  exists latest,
    Forall2 (fun video v => gatherVideo this video = Ok v)
            latest (Dataset.videos ds).
Proof.
  intros H. destruct (gather_Ok _ _ _ H) as (_ & _ & latest & _ & _ & _ & H4 & _).
  exists latest. apply Promise_all_Ok, H4.
Qed.

Lemma gather_handle (this : Provider) (channelHandle : string) (ds : Dataset.t) :
  gatherChannelIntelligence this channelHandle = Ok ds ->
  Dataset.channelHandle ds = channelHandle.
Proof.
  unfold gatherChannelIntelligence. intros H.
  apply CollectFacts.rethrow_Ok in H.
  apply CollectFacts.bind_Ok in H. destruct H as (channelId & _ & H).
  apply CollectFacts.bind_Ok in H. destruct H as (channelStats & _ & H).
  apply CollectFacts.bind_Ok in H. destruct H as (latest & _ & H).
  apply CollectFacts.bind_Ok in H. destruct H as (videoData & _ & H).
  injection H as <-. reflexivity.
Qed.

End CollectMore.

(** X6. Whatever goes wrong in the collection, what it throws is an [Error]
    whose message starts with "Intelligence gathering failed: " followed by
    the prefix of the stage that failed: the errors of the provider and the
    [TypeError] of a missing item never leave it unwrapped. *)
Theorem X6_collection_errors_are_wrapped (this : YouTubeService.Provider)
    (channelHandle : string) (e : exn) :
  YouTubeService.gatherChannelIntelligence this channelHandle = Throw e ->
  exists stage detail,
    In stage stages /\
    e = Error ("Intelligence gathering failed: " ++ stage ++ detail).
Proof.
  unfold YouTubeService.gatherChannelIntelligence. intros H.
  apply CollectFacts.rethrow_Throw in H. destruct H as (e' & H & ->).
  apply CollectMore.bind_Throw in H. destruct H as [ H | (channelId & _ & H) ].
  { apply CollectFacts.rethrow_Throw in H. destruct H as (e1 & _ & ->).
    exists "Error finding channel: ", (exn_message e1).
    split; [ simpl; auto | reflexivity ]. }
  apply CollectMore.bind_Throw in H. destruct H as [ H | (channelStats & _ & H) ].
  { apply CollectFacts.rethrow_Throw in H. destruct H as (e1 & _ & ->).
    exists "Error fetching channel stats: ", (exn_message e1).
    split; [ simpl; auto | reflexivity ]. }
  apply CollectMore.bind_Throw in H. destruct H as [ H | (videos & _ & H) ].
  { apply CollectFacts.rethrow_Throw in H. destruct H as (e1 & _ & ->).
    exists "Error fetching videos: ", (exn_message e1).
    split; [ simpl; auto | reflexivity ]. }
  apply CollectMore.bind_Throw in H. destruct H as [ H | (videoData & _ & H) ];
    [ | discriminate H ].
  apply CollectMore.Promise_all_Throw_inv in H. destruct H as (video & _ & H).
  apply CollectMore.gatherVideo_Throw in H.
  apply CollectFacts.rethrow_Throw in H. destruct H as (e1 & _ & ->).
  exists "Error fetching video stats: ", (exn_message e1).
  split; [ simpl; auto 6 | reflexivity ].
Qed.

Lemma X6_collection_errors_witness :
  exists stage detail,
    In stage stages /\
    Error "Intelligence gathering failed: Error fetching video stats: Request failed with status code 500"
    = Error ("Intelligence gathering failed: " ++ stage ++ detail).
Proof.
  apply (X6_collection_errors_are_wrapped Samples.broken_provider "@channel").
  reflexivity.
Defined.

(** X7. When the search finds no channel, the collection fails with the
    message "Intelligence gathering failed: Error finding channel: Channel
    not found": the error thrown inside [getChannelId] is caught and wrapped
    by [getChannelId] itself, then once more by the collection. *)
Theorem X7_channel_not_found (this : YouTubeService.Provider)
    (channelHandle : string) :
  YouTubeService.search_channels this (replace_first "@" channelHandle) = Ok [] ->
  YouTubeService.getChannelId this channelHandle =
    Throw (Error "Error finding channel: Channel not found") /\
  YouTubeService.gatherChannelIntelligence this channelHandle =
    Throw (Error "Intelligence gathering failed: Error finding channel: Channel not found").
Proof.
  intros H.
  assert (E : YouTubeService.getChannelId this channelHandle =
              Throw (Error "Error finding channel: Channel not found")).
  { unfold YouTubeService.getChannelId. rewrite H. reflexivity. }
  split; [ exact E | ].
  unfold YouTubeService.gatherChannelIntelligence. rewrite E. reflexivity.
Qed.

Lemma X7_channel_not_found_witness :
  YouTubeService.getChannelId Samples.provider "@nobody" =
    Throw (Error "Error finding channel: Channel not found") /\
  YouTubeService.gatherChannelIntelligence Samples.provider "@nobody" =
    Throw (Error "Intelligence gathering failed: Error finding channel: Channel not found").
Proof.
  apply (X7_channel_not_found Samples.provider "@nobody"). reflexivity.
Defined.

(** X8. The marker in front of a handle is optional: a handle written
    with a leading "@" resolves as the same handle written without it. *)
Theorem X8_handle_marker_is_optional (this : YouTubeService.Provider)
    (handle : string) :
  absent "@" handle = true ->
  YouTubeService.getChannelId this (String "@" handle) =
  YouTubeService.getChannelId this handle.
Proof.
  intros A. unfold YouTubeService.getChannelId.
  rewrite (CollectMore.replace_first_absent "@" handle A). reflexivity.
Qed.

Lemma X8_handle_marker_witness :
  YouTubeService.getChannelId Samples.provider "@channel" =
  YouTubeService.getChannelId Samples.provider "channel".
Proof.
  apply (X8_handle_marker_is_optional Samples.provider "channel"). reflexivity.
Defined.

(** X9. A returned dataset mirrors the provider: it keeps the handle as it
    was given, the channel id found for it and the statistics of that
    channel, and its videos are the latest videos of the channel, one for
    one and in the same order, each with its own identifier, title,
    description and date, the statistics fetched for it, the transcript
    that [getTranscript] returns and the comments that [getTopComments]
    returns for 50. *)
Theorem X9_dataset_mirrors_provider (this : YouTubeService.Provider)
    (channelHandle : string) (ds : Dataset.t) :
  YouTubeService.gatherChannelIntelligence this channelHandle = Ok ds ->
  Dataset.channelHandle ds = channelHandle /\
  YouTubeService.getChannelId this channelHandle = Ok (Dataset.channelId ds) /\
  YouTubeService.getChannelStats this (Dataset.channelId ds) =
    Ok (Dataset.channelStats ds) /\
  exists latest,
    YouTubeService.getLatestVideos this (Dataset.channelId ds) = Ok latest /\
    Forall2
      (fun video v =>
         Video.videoId v = Snippet.videoId video /\
         Video.title v = Snippet.title video /\
         Video.description v = Snippet.description video /\
         Video.publishedAt v = Snippet.publishedAt video /\
         YouTubeService.getVideoStats this (Snippet.videoId video) =
           Ok (Video.stats v) /\
         Video.transcript v =
           YouTubeService.getTranscript this (Snippet.videoId video) /\
         Video.comments v =
           YouTubeService.getTopComments this (Snippet.videoId video) 50)
      latest (Dataset.videos ds).
Proof.
  unfold YouTubeService.gatherChannelIntelligence. intros H.
  apply CollectFacts.rethrow_Ok in H.
  apply CollectFacts.bind_Ok in H. destruct H as (channelId & H1 & H).
  apply CollectFacts.bind_Ok in H. destruct H as (channelStats & H2 & H).
  apply CollectFacts.bind_Ok in H. destruct H as (latest & H3 & H).
  apply CollectFacts.bind_Ok in H. destruct H as (videoData & H4 & H).
  injection H as <-.
  cbn [Dataset.channelHandle Dataset.channelId Dataset.channelStats
       Dataset.videos].
  repeat split; try assumption.
  exists latest. split; [ exact H3 | ].
  apply CollectFacts.Promise_all_Ok in H4.
  eapply Forall2_impl; [ | exact H4 ].
  intros video v Hv. cbv beta in Hv.
  unfold YouTubeService.gatherVideo in Hv.
  apply CollectFacts.bind_Ok in Hv. destruct Hv as (st & Es & Hv).
  injection Hv as <-. cbn. repeat split. exact Es.
Qed.

Lemma X9_dataset_mirrors_witness :
  Dataset.channelHandle Samples.collected = "@channel" /\
  YouTubeService.getChannelId Samples.provider "@channel" =
    Ok (Dataset.channelId Samples.collected) /\
  YouTubeService.getChannelStats Samples.provider
    (Dataset.channelId Samples.collected) =
    Ok (Dataset.channelStats Samples.collected) /\
  exists latest,
    YouTubeService.getLatestVideos Samples.provider
      (Dataset.channelId Samples.collected) = Ok latest /\
    Forall2
      (fun video v =>
         Video.videoId v = Snippet.videoId video /\
         Video.title v = Snippet.title video /\
         Video.description v = Snippet.description video /\
         Video.publishedAt v = Snippet.publishedAt video /\
         YouTubeService.getVideoStats Samples.provider (Snippet.videoId video) =
           Ok (Video.stats v) /\
         Video.transcript v =
           YouTubeService.getTranscript Samples.provider (Snippet.videoId video) /\
         Video.comments v =
           YouTubeService.getTopComments Samples.provider
             (Snippet.videoId video) 50)
      latest (Dataset.videos Samples.collected).
Proof.
  apply (X9_dataset_mirrors_provider Samples.provider "@channel"
           Samples.collected).
  vm_compute. reflexivity.
Defined.

(** X10. When the provider returns no more comment threads than it is asked
    for, every video of a returned dataset has at most 50 comments, and the
    dataset's [totalComments] is at most 50 times the number of its
    videos. *)
Theorem X10_at_most_50_comments_per_video (this : YouTubeService.Provider)
    (channelHandle : string) (ds : Dataset.t) :
  honours_maxResults this ->
  YouTubeService.gatherChannelIntelligence this channelHandle = Ok ds ->
  Forall (fun v => List.length (Video.comments v) <= 50) (Dataset.videos ds) /\
  exists n,
    Dataset.totalComments ds = of_nat n /\
    n <= 50 * List.length (Dataset.videos ds).
Proof.
  intros Hmax H.
  destruct (CollectMore.gathered_videos this channelHandle ds H) as [latest Hall].
  assert (Hcap : Forall (fun v => List.length (Video.comments v) <= 50)
                        (Dataset.videos ds)).
  { apply Forall_forall. intros v Hv.
    destruct (CollectFacts.Forall2_in_r _ _ _ _ Hall Hv) as (video & _ & Ev).
    apply CollectFacts.gatherVideo_Ok in Ev. destruct Ev as (_ & _ & Ec & _).
    rewrite Ec. unfold YouTubeService.getTopComments.
    destruct (YouTubeService.commentThreads this (Snippet.videoId video) 50)
      as [ items | ] eqn:E.
    - apply (Hmax _ _ _ E).
    - simpl. lia. }
  split; [ exact Hcap | ].
  destruct (CollectFacts.gather_Ok _ _ _ H) as (_ & _ & _ & _ & _ & _ & _ & _ & Ht).
  exists (fetched (Dataset.videos ds)). split; [ exact Ht | ].
  clear Hall Ht H. unfold fetched, list_sum.
  induction Hcap as [ | v l Hv _ IH ]; cbn [map fold_right List.length]; lia.
Qed.

Lemma X10_at_most_50_witness :
  Forall (fun v => List.length (Video.comments v) <= 50)
         (Dataset.videos Samples.collected) /\
  exists n,
    Dataset.totalComments Samples.collected = of_nat n /\
    n <= 50 * List.length (Dataset.videos Samples.collected).
Proof.
  apply (X10_at_most_50_comments_per_video Samples.provider "@channel"
           Samples.collected).
  - intros videoId maxResults items. simpl.
    destruct (String.eqb videoId "a"); [ | discriminate ].
    intros E. injection E as <-. apply firstn_le_length.
  - vm_compute. reflexivity.
Defined.

(** ** More on the analyzers *)

Module AnalyzerMore.
Import AIService AnalyzerFacts.

Lemma append_assoc (a b c : string) : (a ++ b) ++ c = a ++ b ++ c.
Proof.
  induction a as [ | d a IH ]; cbn [append]; [ reflexivity | ].
  rewrite IH. reflexivity.
Qed.

Lemma append_nil_r (a : string) : a ++ "" = a.
Proof.
  induction a as [ | d a IH ]; cbn [append]; [ reflexivity | ].
  rewrite IH. reflexivity.
Qed.

Lemma absent_app (c : ascii) (a b : string) :
  absent c (a ++ b) = absent c a && absent c b.
Proof.
  induction a as [ | d a IH ]; cbn [append absent]; [ reflexivity | ].
  rewrite IH. apply andb_assoc.
Qed.

Lemma absent_self (c : ascii) (s : string) : absent c (String c s) = false.
Proof. cbn [absent]. rewrite Ascii.eqb_refl. reflexivity. Qed.

Lemma absent_cons (c d : ascii) (s : string) :
  d <> c -> absent c s = true -> absent c (String d s) = true.
Proof.
  intros N A. cbn [absent]. rewrite A, andb_true_r. apply negb_true_iff.
  destruct (Ascii.eqb_spec c d) as [ E | _ ]; [ congruence | reflexivity ].
Qed.

(** The scan for the closing character, for braces and for brackets. *)
Lemma until_close_Some (s u : string) :
  until_close s = Some u ->
  exists body post,
    s = body ++ "}" ++ post /\ u = body ++ "}" /\ absent "}" body = true.
Proof.
  revert u. induction s as [ | c s IH ]; cbn [until_close until_bracket]; intros u H;
    [ discriminate H | ].
  destruct (Ascii.eqb_spec c "}") as [ -> | N ].
  - injection H as <-. exists "", s. repeat split.
  - destruct (until_close s) as [ u' | ]; [ | discriminate H ].
    injection H as <-. destruct (IH u' eq_refl) as (body & post & -> & -> & A).
    exists (String c body), post. repeat split.
    apply absent_cons; assumption.
Qed.

Lemma until_close_None (s : string) :
  until_close s = None -> absent "}" s = true.
Proof.
  induction s as [ | c s IH ]; cbn [until_close until_bracket]; intros H;
    [ reflexivity | ].
  destruct (Ascii.eqb_spec c "}") as [ -> | N ]; [ discriminate H | ].
  destruct (until_close s); [ discriminate H | ].
  apply absent_cons; [ assumption | apply IH; reflexivity ].
Qed.

Lemma until_bracket_Some (s u : string) :
  until_bracket s = Some u ->
  exists body post,
    s = body ++ "]" ++ post /\ u = body ++ "]" /\ absent "]" body = true.
Proof.
  revert u. induction s as [ | c s IH ]; cbn [until_close until_bracket]; intros u H;
    [ discriminate H | ].
  destruct (Ascii.eqb_spec c "]") as [ -> | N ].
  - injection H as <-. exists "", s. repeat split.
  - destruct (until_bracket s) as [ u' | ]; [ | discriminate H ].
    injection H as <-. destruct (IH u' eq_refl) as (body & post & -> & -> & A).
    exists (String c body), post. repeat split.
    apply absent_cons; assumption.
Qed.

Lemma until_bracket_None (s : string) :
  until_bracket s = None -> absent "]" s = true.
Proof.
  induction s as [ | c s IH ]; cbn [until_close until_bracket]; intros H;
    [ reflexivity | ].
  destruct (Ascii.eqb_spec c "]") as [ -> | N ]; [ discriminate H | ].
  destruct (until_bracket s); [ discriminate H | ].
  apply absent_cons; [ assumption | apply IH; reflexivity ].
Qed.

(** A string that has the closing character somewhere after an opening one
    has it after the first character too, or starts with the opening one. *)
Lemma enclosed_tail (o c d : ascii) (s pre mid post : string) :
  String d s = pre ++ String o (mid ++ String c post) ->
  absent c s = false.
Proof.
  intros H. destruct pre as [ | d' pre ]; simpl in H; injection H as _ ->.
  - rewrite absent_app, absent_self. apply andb_false_r.
  - rewrite absent_app. change (String o (mid ++ String c post))
      with (String o mid ++ String c post).
    rewrite absent_app, absent_self, andb_false_r. apply andb_false_r.
Qed.

Lemma match_object_spec (s : string) :
  match match_object s with
  | Some m =>
      exists pre body post,
        s = pre ++ m ++ post /\ m = "{" ++ body ++ "}" /\
        absent "{" pre = true /\ absent "}" body = true
  | None =>
      forall pre mid post, s <> pre ++ "{" ++ mid ++ "}" ++ post
  end.
Proof.
  induction s as [ | d s IH ]; cbn [match_object match_array].
  - intros [ | ? pre ] mid post H; discriminate H.
  - destruct (Ascii.eqb_spec d "{") as [ -> | N ].
    + destruct (until_close s) as [ u | ] eqn:U; cbn [option_map].
      * destruct (until_close_Some s u U) as (body & post & -> & -> & A).
        exists "", body, post. repeat split; [ | exact A ].
        cbn [append]. f_equal. symmetry. exact (append_assoc body (String _ EmptyString) post).
      * intros pre mid post H.
        pose proof (enclosed_tail "{" "}" _ _ _ _ _ H) as F.
        rewrite (until_close_None s U) in F. discriminate F.
    + destruct (match_object s) as [ m | ].
      * destruct IH as (pre & body & post & -> & -> & A1 & A2).
        exists (String d pre), body, post. repeat split; [ | exact A2 ].
        apply absent_cons; assumption.
      * intros [ | d' pre ] mid post H; simpl in H.
        -- injection H as E _. congruence.
        -- injection H as _ H. apply (IH pre mid post H).
Qed.

Lemma match_array_spec (s : string) :
  match match_array s with
  | Some m =>
      exists pre body post,
        s = pre ++ m ++ post /\ m = "[" ++ body ++ "]" /\
        absent "[" pre = true /\ absent "]" body = true
  | None =>
      forall pre mid post, s <> pre ++ "[" ++ mid ++ "]" ++ post
  end.
Proof.
  induction s as [ | d s IH ]; cbn [match_object match_array].
  - intros [ | ? pre ] mid post H; discriminate H.
  - destruct (Ascii.eqb_spec d "[") as [ -> | N ].
    + destruct (until_bracket s) as [ u | ] eqn:U; cbn [option_map].
      * destruct (until_bracket_Some s u U) as (body & post & -> & -> & A).
        exists "", body, post. repeat split; [ | exact A ].
        cbn [append]. f_equal. symmetry. exact (append_assoc body (String _ EmptyString) post).
      * intros pre mid post H.
        pose proof (enclosed_tail "[" "]" _ _ _ _ _ H) as F.
        rewrite (until_bracket_None s U) in F. discriminate F.
    + destruct (match_array s) as [ m | ].
      * destruct IH as (pre & body & post & -> & -> & A1 & A2).
        exists (String d pre), body, post. repeat split; [ | exact A2 ].
        apply absent_cons; assumption.
      * intros [ | d' pre ] mid post H; simpl in H.
        -- injection H as E _. congruence.
        -- injection H as _ H. apply (IH pre mid post H).
Qed.

(** Reading a key of a parsed object after one was written. *)
Lemma get_set_same (key : string) (v : json) (fields : list (string * json)) :
  get key fields <> None -> get key (set key v fields) = Some v.
Proof.
  induction fields as [ | [k w] rest IH ]; cbn [get set]; [ congruence | ].
  destruct (String.eqb_spec k key) as [ -> | N ]; cbn [get].
  - rewrite String.eqb_refl. reflexivity.
  - apply String.eqb_neq in N. rewrite N. exact IH.
Qed.

Lemma get_set_other (key other : string) (v : json)
    (fields : list (string * json)) :
  other <> key -> get other (set key v fields) = get other fields.
Proof.
  intros N. induction fields as [ | [k w] rest IH ]; cbn [get set];
    [ reflexivity | ].
  destruct (String.eqb_spec k key) as [ -> | N' ]; cbn [get].
  - destruct (String.eqb_spec key other) as [ E | _ ]; [ congruence | reflexivity ].
  - rewrite IH. reflexivity.
Qed.

(** The parts of a case-insensitive search, backwards: what [includes]
    finds in the lower-case title is in the title up to case. *)
Lemma prefix_inv (p s : string) :
  prefix p s = true -> exists post, s = p ++ post.
Proof.
  revert s. induction p as [ | a p IH ]; intros s H.
  - exists s. reflexivity.
  - destruct s as [ | b s ]; cbn [prefix] in H; [ discriminate H | ].
    destruct (ascii_dec a b) as [ -> | _ ]; [ | discriminate H ].
    destruct (IH s H) as [ post -> ]. exists post. reflexivity.
Qed.

Lemma includes_inv (s p : string) :
  includes s p = true -> exists pre post, s = pre ++ p ++ post.
Proof.
  induction s as [ | c s IH ]; cbn [includes]; intros H.
  - rewrite orb_false_r in H. destruct (prefix_inv _ _ H) as [ post E ].
    exists "", post. exact E.
  - apply orb_true_iff in H. destruct H as [ H | H ].
    + destruct (prefix_inv _ _ H) as [ post E ]. exists "", post. exact E.
    + destruct (IH H) as (pre & post & ->). exists (String c pre), post.
      reflexivity.
Qed.

Lemma toLowerCase_app_inv (t a b : string) :
  toLowerCase t = a ++ b ->
  exists ta tb, t = ta ++ tb /\ toLowerCase ta = a /\ toLowerCase tb = b.
Proof.
  revert t. induction a as [ | c a IH ]; intros t H.
  - exists "", t. repeat split. exact H.
  - destruct t as [ | d t ]; cbn [toLowerCase append] in H; [ discriminate H | ].
    injection H as Hc H. destruct (IH t H) as (ta & tb & -> & <- & <-).
    exists (String d ta), tb. repeat split. cbn [toLowerCase]. rewrite Hc.
    reflexivity.
Qed.

Lemma toLowerCase_eq_ci (s t : string) :
  toLowerCase s = toLowerCase t -> eq_ci s t.
Proof.
  revert t. induction s as [ | a s IH ]; intros [ | b t ] H;
    cbn [toLowerCase] in H; try discriminate H.
  - constructor.
  - injection H as Hc H. constructor; [ exact Hc | apply IH, H ].
Qed.

Lemma includes_occurs_ci (p t : string) :
  toLowerCase p = p ->
  includes (toLowerCase t) p = true -> occurs_ci p t.
Proof.
  intros Hp H. destruct (includes_inv _ _ H) as (pre & post & E).
  destruct (toLowerCase_app_inv _ _ _ E) as (tpre & rest & -> & _ & E').
  destruct (toLowerCase_app_inv _ _ _ E') as (mid & tpost & -> & Hm & _).
  exists tpre, mid, tpost. split; [ reflexivity | ].
  apply toLowerCase_eq_ci. rewrite Hm, Hp. reflexivity.
Qed.

(** The short cut of the hook analysis is taken exactly when some title has
    "challenge", up to case, or a dollar sign. *)
Lemma spectacle_iff (videoData : list Video.t) :
  existsb (fun t => includes t "challenge" || includes t "$")
    (map (fun v => toLowerCase (Video.title v)) videoData) = true <->
  exists v, In v videoData /\
    (occurs_ci "challenge" (Video.title v) \/ occurs_ci "$" (Video.title v)).
Proof.
  rewrite existsb_exists. split.
  - intros (t & Ht & H). apply in_map_iff in Ht. destruct Ht as (v & <- & Hv).
    exists v. split; [ exact Hv | ]. apply orb_true_iff in H.
    destruct H as [ H | H ]; [ left | right ];
      apply includes_occurs_ci; try exact H; reflexivity.
  - intros (v & Hv & H). exists (toLowerCase (Video.title v)). split.
    + apply in_map_iff. exists v. split; [ reflexivity | exact Hv ].
    + apply orb_true_iff. destruct H as [ H | H ]; [ left | right ].
      * apply (occurs_ci_includes "challenge"), H.
      * apply (occurs_ci_includes "$"), H.
Qed.

Lemma length_append (a b : string) :
  String.length (a ++ b) = String.length a + String.length b.
Proof.
  induction a as [ | c a IH ]; cbn [append String.length]; [ reflexivity | ].
  rewrite IH. reflexivity.
Qed.

Lemma length_substring_0 (n : nat) (s : string) :
  String.length (substring 0 n s) <= n.
Proof.
  revert s. induction n as [ | n IH ]; intros [ | c s ]; cbn; try lia.
  specialize (IH s). lia.
Qed.

(** Folding over the words of all the titles. *)
Lemma fold_flat_map {A B C : Type} (g : C -> B -> C) (h : A -> list B)
    (l : list A) (acc : C) :
  fold_left (fun acc a => fold_left g (h a) acc) l acc =
  fold_left g (flat_map h l) acc.
Proof.
  revert acc. induction l as [ | a l IH ]; intros acc; cbn [fold_left flat_map];
    [ reflexivity | ].
  rewrite fold_left_app. apply IH.
Qed.

Lemma fold_filter {B C : Type} (p : B -> bool) (f : C -> B -> C)
    (l : list B) (acc : C) :
  fold_left (fun acc b => if p b then f acc b else acc) l acc =
  fold_left f (filter p l) acc.
Proof.
  revert acc. induction l as [ | b l IH ]; intros acc; cbn [fold_left filter];
    [ reflexivity | ].
  destruct (p b); cbn [fold_left]; apply IH.
Qed.

Lemma filter_filter_comm {A : Type} (p q : A -> bool) (l : list A) :
  filter p (filter q l) = filter q (filter p l).
Proof.
  induction l as [ | a l IH ]; cbn [filter]; [ reflexivity | ].
  destruct (p a) eqn:P, (q a) eqn:Q; cbn [filter]; rewrite ?P, ?Q, IH;
    reflexivity.
Qed.

Lemma filter_redundant {A : Type} (p q : A -> bool) (l : list A) :
  (forall a, p a = true -> q a = true) -> filter p (filter q l) = filter p l.
Proof.
  intros H. induction l as [ | a l IH ]; cbn [filter]; [ reflexivity | ].
  destruct (q a) eqn:Q; cbn [filter].
  - rewrite IH. reflexivity.
  - destruct (p a) eqn:P; [ | exact IH ].
    rewrite (H a P) in Q. discriminate Q.
Qed.

Lemma first_occurrences_filter (p : string -> bool) (l : list string) :
  first_occurrences (filter p l) = filter p (first_occurrences l).
Proof.
  induction l as [ | x l IH ]; cbn [filter first_occurrences]; [ reflexivity | ].
  destruct (p x) eqn:P; cbn [filter first_occurrences]; rewrite ?P, IH.
  - f_equal. apply filter_filter_comm.
  - symmetry. apply filter_redundant. intros y Py.
    apply negb_true_iff. destruct (String.eqb_spec x y) as [ -> | _ ];
      [ congruence | reflexivity ].
Qed.

Lemma first_occurrences_In (l : list string) (x : string) :
  In x (first_occurrences l) <-> In x l.
Proof.
  induction l as [ | y l IH ]; cbn [first_occurrences]; [ tauto | ].
  cbn [In]. rewrite filter_In, IH. split.
  - tauto.
  - intros [ E | H ]; [ left; exact E | ].
    destruct (String.eqb_spec y x) as [ E | N ]; [ left; exact E | right ].
    split; [ exact H | reflexivity ].
Qed.

Lemma first_occurrences_NoDup (l : list string) : NoDup (first_occurrences l).
Proof.
  induction l as [ | x l IH ]; cbn [first_occurrences]; constructor.
  - rewrite filter_In, String.eqb_refl. intros [ _ F ]. discriminate F.
  - apply NoDup_filter, IH.
Qed.

Lemma filter_not_in_snoc (acc l : list string) (x : string) :
  filter (fun y => negb (existsb (String.eqb y) (acc ++ [x]))) l =
  filter (fun y => negb (existsb (String.eqb y) acc))
         (filter (fun y => negb (String.eqb x y)) l).
Proof.
  induction l as [ | y l IH ]; cbn [filter]; [ reflexivity | ].
  rewrite existsb_app. cbn [existsb]. rewrite orb_false_r, (String.eqb_sym y x).
  destruct (String.eqb x y); cbn [negb filter].
  - rewrite orb_true_r. exact IH.
  - rewrite orb_false_r.
    destruct (existsb (String.eqb y) acc); cbn [negb]; rewrite IH; reflexivity.
Qed.

(** Adding to a [Set] one by one keeps the first occurrences. *)
Lemma Set_add_all (l acc : list string) :
  fold_left Set_add l acc =
  (acc ++ first_occurrences
            (filter (fun y => negb (existsb (String.eqb y) acc)) l))%list.
Proof.
  revert acc. induction l as [ | x l IH ]; intros acc;
    cbn [fold_left filter first_occurrences].
  - symmetry. apply app_nil_r.
  - unfold Set_add at 2. destruct (existsb (String.eqb x) acc) eqn:M;
      cbn [negb first_occurrences].
    + apply IH.
    + rewrite IH, <- app_assoc. cbn [app]. do 2 f_equal.
      rewrite <- first_occurrences_filter. f_equal.
      rewrite filter_not_in_snoc. apply filter_filter_comm.
Qed.

Lemma filter_all_true {A : Type} (l : list A) : filter (fun _ => true) l = l.
Proof.
  induction l as [ | a l IH ]; cbn [filter]; [ | rewrite IH ]; reflexivity.
Qed.

Lemma extractFeaturesFromTitles_spec (videoData : list Video.t) :
  extractFeaturesFromTitles videoData =
  map feature_entry
    (firstn 5 (first_occurrences (filter long_word (title_words videoData)))).
Proof.
  unfold extractFeaturesFromTitles. do 2 f_equal.
  rewrite (fold_flat_map
             (fun keywords word =>
                if (5 <? String.length word)%nat then Set_add keywords word
                else keywords)
             (fun v => split_spaces (Video.title v))).
  rewrite (fold_filter long_word Set_add), Set_add_all. cbn [app].
  f_equal. apply filter_all_true.
Qed.

Lemma usable_texts_none (transcripts : list (option string)) :
  forallb (fun t => negb (usable t)) transcripts = true ->
  usable_texts transcripts = [].
Proof.
  induction transcripts as [ | t l IH ]; cbn [forallb usable_texts flat_map];
    [ reflexivity | ].
  intros H. apply andb_true_iff in H. destruct H as [ Ht Hl ].
  fold (usable_texts l). rewrite (IH Hl).
  destruct t as [ [ | c s ] | ]; [ reflexivity | discriminate Ht | reflexivity ].
Qed.

Lemma usable_texts_some (transcripts : list (option string)) :
  existsb usable transcripts = true ->
  exists c s rest, usable_texts transcripts = String c s :: rest.
Proof.
  induction transcripts as [ | t l IH ]; cbn [existsb usable_texts flat_map];
    [ discriminate | ].
  intros H. fold (usable_texts l).
  destruct t as [ [ | c s ] | ]; cbn [usable orb app] in *.
  - apply IH, H.
  - exists c, s, (usable_texts l). reflexivity.
  - apply IH, H.
Qed.

Lemma join_starts (sep : string) (c : ascii) (s : string) (rest : list string) :
  exists s', join sep (String c s :: rest) = String c s'.
Proof.
  destruct rest as [ | r rest ]; cbn [join append].
  - exists s. reflexivity.
  - eexists. reflexivity.
Qed.

(** The prompts that each analyzer adds to the list of calls. *)
Lemma features_trace (generate : string -> result string)
    (JSON_parse : string -> result json) (transcripts : list (option string))
    (videoData : list Video.t) (calls : list string) :
  snd (analyzeFeatures generate JSON_parse transcripts videoData calls) =
  (calls ++
   if existsb usable transcripts
   then [features_prompt (join (nl ++ nl) (usable_texts transcripts))]
   else [])%list.
Proof.
  unfold analyzeFeatures. fold (usable_texts transcripts).
  destruct (existsb usable transcripts) eqn:U.
  - destruct (usable_texts_some transcripts U) as (c & s & rest & E).
    destruct (join_starts (nl ++ nl) c s rest) as [ s' J ].
    rewrite E, J. rewrite <- J.
    unfold mbind, callOllama.
    destruct (generate _) as [ response | e ]; cbn [rethrow bind].
    + destruct (match_array response) as [ m | ]; [ | reflexivity ].
      destruct (JSON_parse m); reflexivity.
    + reflexivity.
  - rewrite usable_texts_none.
    + cbn [join ret snd]. symmetry. apply app_nil_r.
    + clear - U. induction transcripts as [ | t l IH ]; [ reflexivity | ].
      cbn [existsb forallb] in *. apply orb_false_iff in U. destruct U as [ U1 U2 ].
      rewrite U1, (IH U2). reflexivity.
Qed.

Lemma sentiment_trace (generate : string -> result string)
    (JSON_parse : string -> result json) (ToNumber : json -> number)
    (comments : list Comment.t) (calls : list string) :
  snd (analyzeSentiment generate JSON_parse ToNumber (Some comments) calls) =
  (calls ++
   if (List.length comments <? 5)%nat then []
   else [sentiment_prompt
           (substring 0 2000 (join nl (map Comment.text comments)))])%list.
Proof.
  unfold analyzeSentiment. destruct (List.length comments <? 5)%nat.
  - cbn [ret snd]. symmetry. apply app_nil_r.
  - unfold mbind, callOllama.
    destruct (generate _) as [ response | e ]; cbn [rethrow bind].
    + destruct (match_object response) as [ m | ]; [ | reflexivity ].
      destruct (JSON_parse m) as [ data | ]; cbn [bind]; [ | reflexivity ].
      destruct (pad_complaints ToNumber data); reflexivity.
    + reflexivity.
Qed.

Lemma hooks_trace (generate : string -> result string)
    (JSON_parse : string -> result json) (videoData : list Video.t)
    (calls : list string) :
  snd (analyzeHooks generate JSON_parse videoData calls) =
  (calls ++
   if spectacular videoData then []
   else [hooks_prompt (substring 0 1500 (join nl (map Video.title videoData)))])%list.
Proof.
  unfold analyzeHooks. fold (spectacular videoData).
  destruct (spectacular videoData).
  - cbn [ret snd]. symmetry. apply app_nil_r.
  - unfold mbind, callOllama.
    destruct (generate _) as [ response | e ]; cbn [rethrow bind].
    + destruct (match_object response) as [ m | ]; [ | reflexivity ].
      destruct (JSON_parse m); reflexivity.
    + reflexivity.
Qed.

(** What [generateIntelligence] returns and sends. *)
Lemma generateIntelligence_run (generate : string -> result string)
    (JSON_parse : string -> result json) (ToNumber : json -> number)
    (now : string) (ds : Dataset.t) (calls : list string) :
  let out := generateIntelligence generate JSON_parse ToNumber now ds calls in
  snd out = (calls ++ prompts_of ds)%list /\
  Report.channelHandle (fst out) = Dataset.channelHandle ds /\
  Report.analyzedAt (fst out) = now /\
  Report.keywords (fst out) = JArr (extractKeywords (Dataset.videos ds)) /\
  Report.videosAnalyzed (fst out) = Dataset.totalVideosAnalyzed ds /\
  Report.commentsAnalyzed (fst out) = Dataset.totalComments ds.
Proof.
  intros out. subst out. unfold generateIntelligence, mbind.
  pose proof (features_trace generate JSON_parse
                (map Video.transcript (Dataset.videos ds)) (Dataset.videos ds)
                calls) as T1.
  destruct (analyzeFeatures _ _ _ _ calls) as [ features c1 ]. cbn [snd] in T1.
  pose proof (sentiment_trace generate JSON_parse ToNumber
                (flat_map Video.comments (Dataset.videos ds)) c1) as T2.
  destruct (analyzeSentiment _ _ _ _ c1) as [ sentiment c2 ]. cbn [snd] in T2.
  pose proof (hooks_trace generate JSON_parse (Dataset.videos ds) c2) as T3.
  destruct (analyzeHooks _ _ _ c2) as [ hooks c3 ]. cbn [snd] in T3.
  cbn [ret fst snd Report.channelHandle Report.analyzedAt Report.keywords
       Report.videosAnalyzed Report.commentsAnalyzed].
  repeat split.
  rewrite T3, T2, T1. unfold prompts_of, features_prompts, sentiment_prompts,
    hooks_prompts. rewrite <- !app_assoc. reflexivity.
Qed.

End AnalyzerMore.

(** X11. What the analyzers take out of the model's answer is the text from
    the first "{" of the answer to the first "}" after it (from the first
    "[" to the first "]" for the features): the match has no closing
    character before its last one, so an object or array that contains
    another one is cut at the inner closing character.  Nothing is taken
    out only when no opening character is followed by a closing one. *)
Theorem X11_first_opening_to_first_closing (s : string) :
  match AIService.match_object s with
  | Some m =>
      exists pre body post,
        s = pre ++ m ++ post /\ m = "{" ++ body ++ "}" /\
        absent "{" pre = true /\ absent "}" body = true
  | None =>
      forall pre mid post, s <> pre ++ "{" ++ mid ++ "}" ++ post
  end /\
  match AIService.match_array s with
  | Some m =>
      exists pre body post,
        s = pre ++ m ++ post /\ m = "[" ++ body ++ "]" /\
        absent "[" pre = true /\ absent "]" body = true
  | None =>
      forall pre mid post, s <> pre ++ "[" ++ mid ++ "]" ++ post
  end.
Proof.
  split; [ apply AnalyzerMore.match_object_spec | apply AnalyzerMore.match_array_spec ].
Qed.

(** X12. With five comments or more the sentiment analysis sends exactly
    one prompt, which carries at most the first 2000 characters of the
    comment texts joined by new lines.  When the model fails, when its
    answer has no "{" followed by a "}", when the matched text does not
    parse, or when the parsed value has no usable [complaints], the result
    is the fixed positive placeholder. *)
Theorem X12_sentiment_asks_once_and_falls_back
    (generate : string -> result string)
    (JSON_parse : string -> result AIService.json)
    (ToNumber : AIService.json -> number)
    (comments : list Comment.t) (calls : list string) :
  5 <= List.length comments ->
  let excerpt :=
    substring 0 2000 (join AIService.nl (map Comment.text comments)) in
  let prompt := AIService.sentiment_prompt excerpt in
  let out :=
    AIService.analyzeSentiment generate JSON_parse ToNumber (Some comments)
      calls in
  snd out = (calls ++ [prompt])%list /\
  String.length excerpt <= 2000 /\
  (failed (generate prompt) = true -> fst out = AIService.positive_fallback) /\
  (forall response,
     generate prompt = Ok response ->
     AIService.match_object response = None ->
     fst out = AIService.positive_fallback) /\
  (forall response jsonMatch,
     generate prompt = Ok response ->
     AIService.match_object response = Some jsonMatch ->
     failed (JSON_parse jsonMatch) = true ->
     fst out = AIService.positive_fallback) /\
  (forall response jsonMatch data,
     generate prompt = Ok response ->
     AIService.match_object response = Some jsonMatch ->
     JSON_parse jsonMatch = Ok data ->
     failed (AIService.pad_complaints ToNumber data) = true ->
     fst out = AIService.positive_fallback).
Proof.
  intros H excerpt prompt out.
  assert (E : (List.length comments <? 5)%nat = false) by (apply Nat.ltb_ge, H).
  subst out. unfold AIService.analyzeSentiment. rewrite E.
  fold excerpt. fold prompt.
  unfold AIService.mbind, AIService.callOllama.
  split.
  { destruct (generate prompt) as [ response | e ]; cbn [rethrow bind].
    - destruct (AIService.match_object response) as [ m | ]; [ | reflexivity ].
      destruct (JSON_parse m) as [ data | e ]; cbn [bind]; [ | reflexivity ].
      destruct (AIService.pad_complaints ToNumber data); reflexivity.
    - reflexivity. }
  split; [ apply AnalyzerMore.length_substring_0 | ].
  repeat split.
  - intros F. destruct (generate prompt); [ discriminate F | reflexivity ].
  - intros response G M. rewrite G. cbn [rethrow bind]. rewrite M. reflexivity.
  - intros response m G M F. rewrite G. cbn [rethrow bind]. rewrite M.
    destruct (JSON_parse m); [ discriminate F | reflexivity ].
  - intros response m data G M P F. rewrite G. cbn [rethrow bind].
    rewrite M, P. cbn [bind].
    destruct (AIService.pad_complaints ToNumber data);
      [ discriminate F | reflexivity ].
Qed.

Lemma X12_sentiment_witness :
  let comments := repeat Samples.a_comment 5 in
  let excerpt :=
    substring 0 2000 (join AIService.nl (map Comment.text comments)) in
  let prompt := AIService.sentiment_prompt excerpt in
  let out :=
    AIService.analyzeSentiment Samples.no_model Samples.no_parser
      (fun _ => NaN) (Some comments) [] in
  snd out = [prompt] /\ fst out = AIService.positive_fallback.
Proof.
  intros comments excerpt prompt out.
  destruct (X12_sentiment_asks_once_and_falls_back Samples.no_model
              Samples.no_parser (fun _ => NaN) comments [])
    as (H1 & _ & H2 & _).
  - simpl. lia.
  - split; [ exact H1 | apply H2; reflexivity ].
Defined.

(** X13. When the model's answer parses to an object whose [complaints] is
    an array, the sentiment analysis returns that object with the array
    extended by "Positive sentiment" fillers up to three items: the items
    of the answer are kept in front and in order, an array of three or
    more is left as it is, and every other key of the object is returned
    as parsed. *)
Theorem X13_sentiment_pads_complaints
    (generate : string -> result string)
    (JSON_parse : string -> result AIService.json)
    (ToNumber : AIService.json -> number)
    (comments : list Comment.t) (calls : list string)
    (response jsonMatch : string) (fields : list (string * AIService.json))
    (complaints : list AIService.json) :
  5 <= List.length comments ->
  generate (AIService.sentiment_prompt
              (substring 0 2000 (join AIService.nl (map Comment.text comments))))
    = Ok response ->
  AIService.match_object response = Some jsonMatch ->
  JSON_parse jsonMatch = Ok (AIService.JObj fields) ->
  AIService.get "complaints" fields = Some (AIService.JArr complaints) ->
  exists fields' padded,
    fst (AIService.analyzeSentiment generate JSON_parse ToNumber
           (Some comments) calls) = AIService.JObj fields' /\
    AIService.get "complaints" fields' = Some (AIService.JArr padded) /\
    padded =
      (complaints ++
       repeat (AIService.complaint "Positive sentiment" "low")
              (3 - List.length complaints))%list /\
    List.length padded = Nat.max 3 (List.length complaints) /\
    (3 <= List.length complaints -> padded = complaints) /\
    (forall key, key <> "complaints" ->
       AIService.get key fields' = AIService.get key fields).
Proof.
  intros H G M P C.
  assert (E : (List.length comments <? 5)%nat = false) by (apply Nat.ltb_ge, H).
  unfold AIService.analyzeSentiment. rewrite E.
  unfold AIService.mbind, AIService.callOllama. rewrite G.
  cbn [rethrow bind]. rewrite M, P. cbn [bind AIService.pad_complaints].
  rewrite C. cbn [bind AIService.ret fst].
  eexists. eexists. split; [ reflexivity | ]. split; [ | split; [ reflexivity | ] ].
  - apply AnalyzerMore.get_set_same. rewrite C. discriminate.
  - split; [ | split ].
    + rewrite length_app, repeat_length. lia.
    + intros L. replace (3 - List.length complaints) with 0 by lia.
      apply app_nil_r.
    + intros key N. apply AnalyzerMore.get_set_other, N.
Qed.

Lemma X13_sentiment_pads_witness :
  exists fields' padded,
    fst (AIService.analyzeSentiment MoreSamples.chatty_model
           MoreSamples.small_parser (fun _ => NaN)
           (Some MoreSamples.five_comments) []) = AIService.JObj fields' /\
    AIService.get "complaints" fields' = Some (AIService.JArr padded) /\
    padded =
      ([] ++ repeat (AIService.complaint "Positive sentiment" "low") (3 - 0))%list /\
    List.length padded = Nat.max 3 0 /\
    (3 <= 0 -> padded = []) /\
    (forall key, key <> "complaints" ->
       AIService.get key fields' =
       AIService.get key
         [("complaints", AIService.JArr []);
          ("mostRequestedFeature", AIService.JStr "Shorts")]).
Proof.
  apply (X13_sentiment_pads_complaints MoreSamples.chatty_model
           MoreSamples.small_parser (fun _ => NaN) MoreSamples.five_comments []
           (AIService.dq "Sure! {`complaints`:[],`mostRequestedFeature`:`Shorts`} Hope it helps.")
           (AIService.dq "{`complaints`:[],`mostRequestedFeature`:`Shorts`}")).
  - simpl. lia.
  - reflexivity.
  - reflexivity.
  - reflexivity.
  - reflexivity.
Defined.

(** X14. When no title has "challenge", up to case, or a dollar sign, the
    hook analysis sends exactly one prompt, which carries at most the first
    1500 characters of the titles joined by new lines.  When the model
    fails, when its answer has no "{" followed by a "}", or when the
    matched text does not parse, the result is the fixed generic
    placeholder; when it parses, the parsed value is returned as it is,
    whatever its shape. *)
Theorem X14_hooks_ask_once_and_fall_back
    (generate : string -> result string)
    (JSON_parse : string -> result AIService.json)
    (videoData : list Video.t) (calls : list string) :
  (forall v, In v videoData ->
     ~ occurs_ci "challenge" (Video.title v) /\ ~ occurs_ci "$" (Video.title v)) ->
  let summaries :=
    substring 0 1500 (join AIService.nl (map Video.title videoData)) in
  let prompt := AIService.hooks_prompt summaries in
  let out := AIService.analyzeHooks generate JSON_parse videoData calls in
  snd out = (calls ++ [prompt])%list /\
  String.length summaries <= 1500 /\
  (failed (generate prompt) = true -> fst out = AIService.generic_hooks) /\
  (forall response,
     generate prompt = Ok response ->
     AIService.match_object response = None ->
     fst out = AIService.generic_hooks) /\
  (forall response jsonMatch,
     generate prompt = Ok response ->
     AIService.match_object response = Some jsonMatch ->
     failed (JSON_parse jsonMatch) = true ->
     fst out = AIService.generic_hooks) /\
  (forall response jsonMatch data,
     generate prompt = Ok response ->
     AIService.match_object response = Some jsonMatch ->
     JSON_parse jsonMatch = Ok data ->
     fst out = data).
Proof.
  intros H summaries prompt out.
  assert (E : existsb (fun t => includes t "challenge" || includes t "$")
                (map (fun v => toLowerCase (Video.title v)) videoData) = false).
  { destruct (existsb _ _) eqn:X; [ | reflexivity ].
    apply AnalyzerMore.spectacle_iff in X. destruct X as (v & Hv & [ X | X ]);
      destruct (H v Hv) as [ N1 N2 ]; contradiction. }
  subst out. unfold AIService.analyzeHooks. rewrite E.
  fold summaries. fold prompt.
  unfold AIService.mbind, AIService.callOllama.
  split.
  { destruct (generate prompt) as [ response | e ]; cbn [rethrow bind].
    - destruct (AIService.match_object response) as [ m | ]; [ | reflexivity ].
      destruct (JSON_parse m) as [ data | e ]; reflexivity.
    - reflexivity. }
  split; [ apply AnalyzerMore.length_substring_0 | ].
  repeat split.
  - intros F. destruct (generate prompt); [ discriminate F | reflexivity ].
  - intros response G M. rewrite G. cbn [rethrow bind]. rewrite M. reflexivity.
  - intros response m G M F. rewrite G. cbn [rethrow bind]. rewrite M.
    destruct (JSON_parse m); [ discriminate F | reflexivity ].
  - intros response m data G M P. rewrite G. cbn [rethrow bind].
    rewrite M, P. reflexivity.
Qed.

Lemma X14_hooks_witness :
  let videoData := [Samples.video_b; Samples.video_c] in
  let summaries :=
    substring 0 1500 (join AIService.nl (map Video.title videoData)) in
  let prompt := AIService.hooks_prompt summaries in
  let out :=
    AIService.analyzeHooks Samples.no_model Samples.no_parser videoData [] in
  snd out = [prompt] /\ fst out = AIService.generic_hooks.
Proof.
  intros videoData summaries prompt out.
  destruct (X14_hooks_ask_once_and_fall_back Samples.no_model
              Samples.no_parser videoData [])
    as (H1 & _ & H2 & _).
  - intros v Hv.
    assert (E : existsb (fun t => includes t "challenge" || includes t "$")
                  (map (fun v => toLowerCase (Video.title v)) videoData) = false)
      by reflexivity.
    split; intros O.
    + assert (X : existsb (fun t => includes t "challenge" || includes t "$")
                    (map (fun v => toLowerCase (Video.title v)) videoData) = true).
      { apply AnalyzerMore.spectacle_iff. exists v. auto. }
      rewrite E in X. discriminate X.
    + assert (X : existsb (fun t => includes t "challenge" || includes t "$")
                    (map (fun v => toLowerCase (Video.title v)) videoData) = true).
      { apply AnalyzerMore.spectacle_iff. exists v. auto. }
      rewrite E in X. discriminate X.
  - split; [ exact H1 | apply H2; reflexivity ].
Defined.

(** X15. The features read off the titles are the words of more than five
    characters of all the titles, in order and without repetition, cut to
    the first five, each tagged "Detected" and "medium": at most five
    entries, no feature twice, every feature a long word of some title. *)
Theorem X15_title_features (videoData : list Video.t) :
  exists features,
    AIService.extractFeaturesFromTitles videoData =
      map (fun k => AIService.object
                      [("feature", k); ("category", "Detected");
                       ("confidence", "medium")]) features /\
    features =
      firstn 5 (first_occurrences (filter long_word (title_words videoData))) /\
    List.length features <= 5 /\
    NoDup features /\
    forall k, In k features ->
      5 < String.length k /\
      exists v, In v videoData /\
        In k (AIService.split_spaces (Video.title v)).
Proof.
  eexists. split; [ apply AnalyzerMore.extractFeaturesFromTitles_spec | ].
  split; [ reflexivity | ]. split; [ apply firstn_le_length | ].
  set (all := first_occurrences (filter long_word (title_words videoData))).
  split.
  - pose proof (AnalyzerMore.first_occurrences_NoDup
                  (filter long_word (title_words videoData))) as N.
    fold all in N. rewrite <- (firstn_skipn 5 all) in N.
    apply NoDup_app_remove_r in N. exact N.
  - intros k Hk.
    assert (Hall : In k all).
    { rewrite <- (firstn_skipn 5 all). apply in_or_app. left. exact Hk. }
    unfold all in Hall.
    apply (proj1 (AnalyzerMore.first_occurrences_In _ _)) in Hall.
    apply filter_In in Hall. destruct Hall as [ Hw Hl ]. split.
    + apply Nat.ltb_lt, Hl.
    + unfold title_words in Hw. apply in_flat_map in Hw. exact Hw.
Qed.

(** X16. When no transcript is usable (each is [null] or empty) the feature
    analysis sends no prompt and returns the features read off the
    titles. *)
Theorem X16_features_without_transcripts
    (generate : string -> result string)
    (JSON_parse : string -> result AIService.json)
    (transcripts : list (option string)) (videoData : list Video.t)
    (calls : list string) :
  forallb (fun t => negb (usable t)) transcripts = true ->
  AIService.analyzeFeatures generate JSON_parse transcripts videoData calls =
  (AIService.JArr (AIService.extractFeaturesFromTitles videoData), calls).
Proof.
  intros H. unfold AIService.analyzeFeatures.
  fold (usable_texts transcripts).
  rewrite (AnalyzerMore.usable_texts_none transcripts H). reflexivity.
Qed.

Lemma X16_features_without_transcripts_witness :
  AIService.analyzeFeatures Samples.no_model Samples.no_parser
    [None; Some ""] [Samples.video_b] [] =
  (AIService.JArr (AIService.extractFeaturesFromTitles [Samples.video_b]), []).
Proof.
  apply (X16_features_without_transcripts Samples.no_model Samples.no_parser
           [None; Some ""] [Samples.video_b] []).
  reflexivity.
Defined.

(** X17. When some transcript is usable the feature analysis sends exactly
    one prompt, which carries at most the first 2000 characters of the
    usable transcripts joined by blank lines.  When the model fails, when
    its answer has no "[" followed by a "]", or when the matched text does
    not parse, the result is the features read off the titles; when it
    parses, the parsed value is returned as it is. *)
Theorem X17_features_ask_once_and_fall_back
    (generate : string -> result string)
    (JSON_parse : string -> result AIService.json)
    (transcripts : list (option string)) (videoData : list Video.t)
    (calls : list string) :
  existsb usable transcripts = true ->
  let combinedTranscripts :=
    join (AIService.nl ++ AIService.nl) (usable_texts transcripts) in
  let prompt := AIService.features_prompt combinedTranscripts in
  let fallback := AIService.JArr (AIService.extractFeaturesFromTitles videoData) in
  let out :=
    AIService.analyzeFeatures generate JSON_parse transcripts videoData calls in
  snd out = (calls ++ [prompt])%list /\
  String.length prompt <= String.length (AIService.features_prompt "") + 2000 /\
  (failed (generate prompt) = true -> fst out = fallback) /\
  (forall response,
     generate prompt = Ok response ->
     AIService.match_array response = None ->
     fst out = fallback) /\
  (forall response jsonMatch,
     generate prompt = Ok response ->
     AIService.match_array response = Some jsonMatch ->
     failed (JSON_parse jsonMatch) = true ->
     fst out = fallback) /\
  (forall response jsonMatch data,
     generate prompt = Ok response ->
     AIService.match_array response = Some jsonMatch ->
     JSON_parse jsonMatch = Ok data ->
     fst out = data).
Proof.
  intros H combinedTranscripts prompt fallback out.
  destruct (AnalyzerMore.usable_texts_some transcripts H) as (c & s & rest & U).
  destruct (AnalyzerMore.join_starts (AIService.nl ++ AIService.nl) c s rest)
    as [ s' J ].
  assert (C : combinedTranscripts = String c s').
  { unfold combinedTranscripts. rewrite U. exact J. }
  subst out. unfold AIService.analyzeFeatures.
  fold (usable_texts transcripts). fold combinedTranscripts.
  fold fallback. rewrite C. rewrite <- C. fold prompt.
  unfold AIService.mbind, AIService.callOllama.
  split.
  { destruct (generate prompt) as [ response | e ]; cbn [rethrow bind].
    - destruct (AIService.match_array response) as [ m | ]; [ | reflexivity ].
      destruct (JSON_parse m) as [ data | e ]; reflexivity.
    - reflexivity. }
  split.
  { unfold prompt, AIService.features_prompt.
    rewrite !AnalyzerMore.length_append.
    pose proof (AnalyzerMore.length_substring_0 2000 combinedTranscripts).
    pose proof (AnalyzerMore.length_substring_0 2000 "").
    lia. }
  repeat split.
  - intros F. destruct (generate prompt); [ discriminate F | reflexivity ].
  - intros response G M. rewrite G. cbn [rethrow bind]. rewrite M. reflexivity.
  - intros response m G M F. rewrite G. cbn [rethrow bind]. rewrite M.
    destruct (JSON_parse m); [ discriminate F | reflexivity ].
  - intros response m data G M P. rewrite G. cbn [rethrow bind].
    rewrite M, P. reflexivity.
Qed.

Lemma X17_features_witness :
  let prompt :=
    AIService.features_prompt
      (join (AIService.nl ++ AIService.nl) ["hello"; "world"]) in
  let out :=
    AIService.analyzeFeatures MoreSamples.listing_model MoreSamples.small_parser
      [Some "hello"; None; Some "world"] [Samples.video_b] [] in
  snd out = [prompt] /\
  fst out = AIService.JArr [AIService.JStr "editing"; AIService.JStr "lighting"].
Proof.
  intros prompt out.
  destruct (X17_features_ask_once_and_fall_back MoreSamples.listing_model
              MoreSamples.small_parser [Some "hello"; None; Some "world"]
              [Samples.video_b] [])
    as (H1 & _ & _ & _ & _ & H5).
  - reflexivity.
  - split; [ exact H1 | ].
    apply (H5 (AIService.dq "Topics: [`editing`,`lighting`] and more [`sound`]")
              (AIService.dq "[`editing`,`lighting`]")); reflexivity.
Defined.

(** ** The keyword extraction *)

Module KeywordFacts.
Import AIService NumberFacts.

Lemma own_put (w w' : string) (c : count) (wc : list (string * count)) :
  own w' (put w c wc) = if String.eqb w w' then Some c else own w' wc.
Proof.
  induction wc as [ | [k d] rest IH ]; cbn [own put].
  - reflexivity.
  - destruct (String.eqb_spec k w) as [ -> | N ]; cbn [own].
    + destruct (String.eqb w w'); reflexivity.
    + rewrite IH. destruct (String.eqb_spec k w') as [ -> | N' ].
      * destruct (String.eqb_spec w w') as [ E | _ ]; [ congruence | reflexivity ].
      * reflexivity.
Qed.

Lemma put_keys (w k : string) (c : count) (wc : list (string * count)) :
  In k (map fst (put w c wc)) <-> k = w \/ In k (map fst wc).
Proof.
  induction wc as [ | [k' d] rest IH ]; cbn [put map fst In].
  - intuition congruence.
  - destruct (String.eqb_spec k' w) as [ -> | N ]; cbn [map fst In].
    + intuition congruence.
    + rewrite IH. intuition congruence.
Qed.

Lemma put_NoDup (w : string) (c : count) (wc : list (string * count)) :
  NoDup (map fst wc) -> NoDup (map fst (put w c wc)).
Proof.
  induction wc as [ | [k d] rest IH ]; cbn [put map fst]; intros H.
  - constructor; [ intros [] | constructor ].
  - inversion H as [ | ? ? Hk Hrest ]; subst.
    destruct (String.eqb_spec k w) as [ -> | N ]; cbn [map fst].
    + constructor; assumption.
    + constructor; [ | apply IH, Hrest ].
      rewrite put_keys. intros [ E | I ]; [ congruence | contradiction ].
Qed.

Lemma In_own (w : string) (c : count) (wc : list (string * count)) :
  NoDup (map fst wc) -> In (w, c) wc -> own w wc = Some c.
Proof.
  induction wc as [ | [k d] rest IH ]; cbn [map fst own]; intros N H;
    [ destruct H | ].
  inversion N as [ | ? ? Hk Hrest ]; subst.
  destruct H as [ E | H ].
  - injection E as -> ->. rewrite String.eqb_refl. reflexivity.
  - destruct (String.eqb_spec k w) as [ -> | _ ]; [ | apply IH; assumption ].
    exfalso. apply Hk. apply (in_map fst _ _ H).
Qed.

Lemma bump_NoDup (wc : list (string * count)) (w : string) :
  NoDup (map fst wc) -> NoDup (map fst (bump wc w)).
Proof.
  intros H. unfold bump. destruct (String.eqb w "__proto__"); [ exact H | ].
  destruct (own w wc) as [ [ n | ones ] | ];
    [ | | destruct (String.eqb w "constructor") ]; apply put_NoDup, H.
Qed.

Lemma occurrences_snoc (l : list string) (x w : string) :
  occurrences (l ++ [x]) w =
  occurrences l w + (if String.eqb x w then 1 else 0).
Proof.
  unfold occurrences. rewrite count_occ_app. cbn [count_occ].
  destruct (string_dec x w) as [ -> | N ].
  - rewrite String.eqb_refl. reflexivity.
  - apply String.eqb_neq in N. rewrite N. reflexivity.
Qed.

(** The table after counting a list of words, read at any word. *)
Lemma own_counted (seen : list string) (w : string) :
  own w (fold_left bump seen []) = count_after w (occurrences seen w) /\
  NoDup (map fst (fold_left bump seen [])).
Proof.
  induction seen as [ | x seen IH ] using rev_ind.
  - split; [ | constructor ]. unfold count_after. cbn.
    destruct (String.eqb w "__proto__"); reflexivity.
  - destruct IH as [ IH N ]. rewrite fold_left_app. cbn [fold_left].
    set (wc := fold_left bump seen []) in *.
    split; [ | apply bump_NoDup, N ].
    rewrite occurrences_snoc. unfold bump.
    destruct (String.eqb_spec x "__proto__") as [ -> | Px ].
    + rewrite IH. unfold count_after.
      destruct (String.eqb_spec w "__proto__") as [ -> | Pw ]; [ reflexivity | ].
      destruct (String.eqb_spec "__proto__" w) as [ E | _ ]; [ congruence | ].
      rewrite Nat.add_0_r. reflexivity.
    + destruct (String.eqb_spec x w) as [ -> | Nxw ].
      * pose proof IH as IHw. unfold count_after in IHw |- *.
        apply String.eqb_neq in Px. rewrite Px in IHw |- *.
        destruct (occurrences seen w) as [ | n ]; rewrite IHw.
        -- destruct (String.eqb w "constructor"); rewrite own_put,
             String.eqb_refl; reflexivity.
        -- destruct (String.eqb w "constructor"); rewrite own_put,
             String.eqb_refl; cbn [Nat.add]; rewrite Nat.add_1_r; reflexivity.
      * rewrite Nat.add_0_r, <- IH. apply String.eqb_neq in Nxw.
        destruct (own x wc) as [ [ n | ones ] | ];
          [ | | destruct (String.eqb x "constructor") ];
          rewrite own_put, Nxw; reflexivity.
Qed.

Lemma importance_Times (n : nat) : importance (Times n) = importance_of n.
Proof.
  unfold importance, importance_of, count_number, of_nat.
  rewrite !ngt_of_Z.
  replace (5 <? Z.of_nat n)%Z with (5 <? n)%nat.
  - replace (2 <? Z.of_nat n)%Z with (2 <? n)%nat; [ reflexivity | ].
    destruct (Nat.ltb_spec 2 n), (Z.ltb_spec 2 (Z.of_nat n)); try reflexivity; lia.
  - destruct (Nat.ltb_spec 5 n), (Z.ltb_spec 5 (Z.of_nat n)); try reflexivity; lia.
Qed.

Lemma importance_Native (ones : nat) : importance (Native ones) = "low".
Proof. reflexivity. Qed.

(** The entries listed are the properties of the table, rearranged. *)
Lemma partition_perm {A : Type} (p : A -> bool) (l : list A) :
  Permutation (filter p l ++ filter (fun a => negb (p a)) l) l.
Proof.
  induction l as [ | a l IH ]; cbn [filter app]; [ constructor | ].
  destruct (p a); cbn [negb app].
  - constructor. exact IH.
  - apply Permutation_sym, Permutation_cons_app, Permutation_sym, IH.
Qed.

Lemma Object_entries_perm (wc : list (string * count)) :
  Permutation (Object_entries wc) wc.
Proof.
  unfold Object_entries.
  apply perm_trans with (filter is_index wc ++ filter (fun e => negb (is_index e)) wc)%list.
  - apply Permutation_app_tail, SortFacts.sort_perm.
  - apply partition_perm.
Qed.

(** The table that [extractKeywords] builds, and its ranking. *)
Lemma wordCount_fold (words : list string) :
  fold_left (fun wordCount word =>
               if counted_word word then bump wordCount word else wordCount)
            words [] =
  fold_left bump (filter counted_word words) [].
Proof. apply (AnalyzerMore.fold_filter counted_word bump). Qed.

Lemma extractKeywords_ranking (videoData : list Video.t) :
  extractKeywords videoData =
  match ranking (keyword_words videoData) with
  | [] => [keyword_entry "content" "medium"]
  | ranked => map (fun e => keyword_entry (fst e) (importance (snd e))) ranked
  end.
Proof.
  unfold extractKeywords. rewrite wordCount_fold.
  fold (keyword_text videoData). fold (keyword_words videoData).
  fold by_count. fold (ranking (keyword_words videoData)).
  destruct (ranking (keyword_words videoData)); reflexivity.
Qed.

Lemma ranking_In (words : list string) (e : string * count) :
  In e (ranking words) -> In e (fold_left bump words []).
Proof.
  unfold ranking. intros H.
  assert (H' : In e (sort by_count (Object_entries (fold_left bump words [])))).
  { rewrite <- (firstn_skipn 12 (sort by_count _)). apply in_or_app. left. exact H. }
  apply (Permutation_in _ (SortFacts.sort_perm _ _)) in H'.
  apply (Permutation_in _ (Object_entries_perm _)) in H'. exact H'.
Qed.

Lemma ranking_keys_NoDup (words : list string) : NoDup (map fst (ranking words)).
Proof.
  unfold ranking.
  set (sorted := sort by_count (Object_entries (fold_left bump words []))).
  assert (N : NoDup (map fst sorted)).
  { apply (Permutation_NoDup (l := map fst (fold_left bump words []))).
    - apply Permutation_map, Permutation_sym.
      apply perm_trans with (Object_entries (fold_left bump words [])).
      + apply SortFacts.sort_perm.
      + apply Object_entries_perm.
    - apply (own_counted words ""). }
  rewrite <- (firstn_skipn 12 sorted), map_app in N.
  apply NoDup_app_remove_r in N. exact N.
Qed.

Lemma ranking_count (words : list string) (w : string) (c : count) :
  In (w, c) (ranking words) -> count_after w (occurrences words w) = Some c.
Proof.
  intros H. apply ranking_In in H.
  destruct (own_counted words w) as [ E N ]. rewrite <- E.
  apply In_own; assumption.
Qed.

Lemma count_after_Some (words : list string) (w : string) (c : count) :
  count_after w (occurrences words w) = Some c ->
  w <> "__proto__" /\ In w words /\
  importance c =
    (if String.eqb w "constructor" then "low"
     else importance_of (occurrences words w)).
Proof.
  unfold count_after.
  destruct (String.eqb_spec w "__proto__") as [ -> | P ]; [ discriminate | ].
  destruct (occurrences words w) as [ | n ] eqn:O; [ discriminate | ].
  intros [= <-]. split; [ exact P | split ].
  - apply (count_occ_In string_dec). unfold occurrences in O. lia.
  - destruct (String.eqb w "constructor");
      [ reflexivity | apply importance_Times ].
Qed.

Lemma ranking_nil (words : list string) :
  ranking words = [] <-> forall w, In w words -> w = "__proto__".
Proof.
  unfold ranking. split.
  - intros H w Hw.
    destruct (String.eqb_spec w "__proto__") as [ E | P ]; [ exact E | exfalso ].
    destruct (own_counted words w) as [ E _ ].
    assert (O : 0 < occurrences words w)
      by (apply (count_occ_In string_dec), Hw).
    unfold count_after in E. apply String.eqb_neq in P. rewrite P in E.
    destruct (occurrences words w) as [ | n ]; [ lia | ].
    set (wc := fold_left bump words []) in *.
    assert (L : List.length (sort by_count (Object_entries wc)) = List.length wc).
    { apply Permutation_length.
      apply perm_trans with (Object_entries wc);
        [ apply SortFacts.sort_perm | apply Object_entries_perm ]. }
    destruct wc as [ | e wc' ]; [ discriminate E | ].
    destruct (sort by_count (Object_entries (e :: wc'))); [ discriminate L | ].
    discriminate H.
  - intros H.
    assert (E : fold_left bump words [] = []).
    { clear - H. assert (G : forall acc, acc = [] -> fold_left bump words acc = []).
      { induction words as [ | x l IH ]; intros acc ->; [ reflexivity | ].
        cbn [fold_left]. apply IH.
        - intros w Hw. apply H. right. exact Hw.
        - unfold bump. rewrite (H x (or_introl eq_refl)). reflexivity. }
      apply G. reflexivity. }
    rewrite E. reflexivity.
Qed.

Lemma NoDup_map_key {A B C : Type} (key : A -> B) (f : A -> C) (l : list A) :
  (forall a b, f a = f b -> key a = key b) ->
  NoDup (map key l) -> NoDup (map f l).
Proof.
  intros H. induction l as [ | a l IH ]; cbn [map]; intros N; constructor;
    inversion N as [ | ? ? Ha Hl ]; subst.
  - intros I. apply Ha. apply in_map_iff in I. destruct I as (b & E & Hb).
    apply in_map_iff. exists b. split; [ symmetry; apply H; symmetry; exact E | exact Hb ].
  - apply IH, Hl.
Qed.

Lemma own_In (w : string) (c : count) (wc : list (string * count)) :
  own w wc = Some c -> In (w, c) wc.
Proof.
  induction wc as [ | [k d] rest IH ]; cbn [own]; [ discriminate | ].
  destruct (String.eqb_spec k w) as [ -> | _ ].
  - intros [= ->]. left. reflexivity.
  - intros H. right. apply IH, H.
Qed.

Lemma StronglySorted_app_inv {A : Type} (R : A -> A -> Prop) (l1 l2 : list A) :
  StronglySorted R (l1 ++ l2)%list ->
  StronglySorted R l1 /\ forall a b, In a l1 -> In b l2 -> R a b.
Proof.
  induction l1 as [ | x l1 IH ]; cbn [app]; intros H.
  - split; [ constructor | intros a b [] ].
  - inversion H as [ | ? ? Hs Hx ]; subst. destruct (IH Hs) as [ S1 S2 ].
    rewrite Forall_forall in Hx. split.
    + constructor; [ exact S1 | ]. apply Forall_forall. intros y Hy.
      apply Hx, in_or_app. left. exact Hy.
    + intros a b [ <- | Ha ] Hb.
      * apply Hx, in_or_app. right. exact Hb.
      * apply S2; assumption.
Qed.

(** On counts that are numbers the comparator of the ranking follows
    them. *)
Lemma after_by_count (a b : string * count) :
  numbered a -> numbered b ->
  after by_count a b = (count_key a <? count_key b)%Z.
Proof.
  intros [ x Hx ] [ y Hy ]. unfold after, by_count, count_key.
  rewrite Hx, Hy. cbn [count_number]. unfold of_nat.
  rewrite nsub_of_Z, !to_Z_of_Z. unfold zero. rewrite ngt_of_Z.
  destruct (Z.ltb_spec 0 (Z.of_nat y - Z.of_nat x)),
           (Z.ltb_spec (Z.of_nat x) (Z.of_nat y)); try reflexivity; lia.
Qed.

Lemma table_numbered (words : list string) (e : string * count) :
  ~ In "constructor" words ->
  In e (fold_left bump words []) ->
  snd e = Times (occurrences words (fst e)) /\ In (fst e) words.
Proof.
  intros NC H. destruct e as [ w c ]. cbn [fst snd].
  destruct (own_counted words w) as [ E N ].
  rewrite (In_own w c _ N H) in E. symmetry in E.
  destruct (count_after_Some words w c E) as (_ & I & _).
  split; [ | exact I ].
  unfold count_after in E. destruct (String.eqb w "__proto__"); [ discriminate E | ].
  destruct (occurrences words w); [ discriminate E | ].
  destruct (String.eqb_spec w "constructor") as [ -> | _ ]; [ contradiction | ].
  injection E as <-. reflexivity.
Qed.

Lemma StronglySorted_map_in {A B : Type} (f : A -> B) (R : A -> A -> Prop)
    (R' : B -> B -> Prop) (l : list A) :
  (forall a b, In a l -> In b l -> R a b -> R' (f a) (f b)) ->
  StronglySorted R l -> StronglySorted R' (map f l).
Proof.
  intros H S. induction S as [ | a l Sl IH Ha ]; cbn [map]; constructor.
  - apply IH. intros x y Hx Hy. apply H; right; assumption.
  - rewrite Forall_forall in Ha |- *. intros y Hy.
    apply in_map_iff in Hy. destruct Hy as (b & <- & Hb).
    apply H; [ left; reflexivity | right; exact Hb | apply Ha, Hb ].
Qed.

Lemma count_key_Times (e : string * count) (n : nat) :
  snd e = Times n -> count_key e = Z.of_nat n.
Proof.
  intros H. unfold count_key. rewrite H. cbn [count_number]. apply to_Z_of_Z.
Qed.

(** The whole table in the order of the ranking, before the cut at twelve. *)
Lemma sorted_table (words : list string) :
  ~ In "constructor" words ->
  let sorted := sort by_count (Object_entries (fold_left bump words [])) in
  descending count_key sorted /\
  Permutation sorted (fold_left bump words []).
Proof.
  intros NC sorted.
  assert (P : Permutation (Object_entries (fold_left bump words []))
                          (fold_left bump words []))
    by apply Object_entries_perm.
  split.
  - apply (SortFacts.sort_descending by_count count_key numbered after_by_count).
    apply Forall_forall. intros e He.
    apply (Permutation_in _ P) in He.
    destruct (table_numbered words e NC He) as [ E _ ].
    eexists. exact E.
  - apply perm_trans with (Object_entries (fold_left bump words []));
      [ apply SortFacts.sort_perm | exact P ].
Qed.

(** The pieces of a split have no white space, and their characters are
    characters of the string. *)
Lemma words_from_no_space (s : string) (after_space : bool) :
  every no_space (fst (words_from s after_space)) = true /\
  Forall (fun w => every no_space w = true) (snd (words_from s after_space)).
Proof.
  revert after_space. induction s as [ | c s IH ]; intros b; cbn [words_from].
  - split; [ reflexivity | constructor ].
  - destruct (is_space c) eqn:Sp.
    + destruct b; [ apply IH | ].
      destruct (IH true) as [ H1 H2 ].
      destruct (words_from s true) as [ w ws ]. cbn [fst snd] in *.
      split; [ reflexivity | constructor; assumption ].
    + destruct (IH false) as [ H1 H2 ].
      destruct (words_from s false) as [ w ws ]. cbn [fst snd every] in *.
      unfold no_space at 1. rewrite Sp, H1. split; [ reflexivity | exact H2 ].
Qed.

Lemma words_from_every (p : ascii -> bool) (s : string) (after_space : bool) :
  every p s = true ->
  every p (fst (words_from s after_space)) = true /\
  Forall (fun w => every p w = true) (snd (words_from s after_space)).
Proof.
  revert after_space. induction s as [ | c s IH ]; intros b H; cbn [words_from].
  - split; [ reflexivity | constructor ].
  - cbn [every] in H. apply andb_true_iff in H. destruct H as [ Hc Hs ].
    destruct (is_space c).
    + destruct b; [ apply IH, Hs | ].
      destruct (IH true Hs) as [ H1 H2 ].
      destruct (words_from s true) as [ w ws ]. cbn [fst snd] in *.
      split; [ reflexivity | constructor; assumption ].
    + destruct (IH false Hs) as [ H1 H2 ].
      destruct (words_from s false) as [ w ws ]. cbn [fst snd every] in *.
      rewrite Hc, H1. split; [ reflexivity | exact H2 ].
Qed.

Lemma split_spaces_every (p : ascii -> bool) (s w : string) :
  (every p s = true \/ p = no_space) ->
  In w (split_spaces s) -> every p w = true.
Proof.
  intros Hp. unfold split_spaces.
  assert (H : every p (fst (words_from s false)) = true /\
              Forall (fun w => every p w = true) (snd (words_from s false))).
  { destruct Hp as [ Hp | -> ];
      [ apply words_from_every, Hp | apply words_from_no_space ]. }
  destruct (words_from s false) as [ w0 ws ]. cbn [fst snd] in H.
  destruct H as [ H1 H2 ]. intros [ <- | I ]; [ exact H1 | ].
  rewrite Forall_forall in H2. apply H2, I.
Qed.

Lemma lower_idem (c : ascii) : lower (lower c) = lower c.
Proof.
  destruct c as [ [] [] [] [] [] [] [] [] ]; vm_compute; reflexivity.
Qed.

Lemma toLowerCase_every (s : string) :
  every (fun c => Ascii.eqb (lower c) c) (toLowerCase s) = true.
Proof.
  induction s as [ | c s IH ]; [ reflexivity | ].
  cbn [toLowerCase every]. rewrite lower_idem, Ascii.eqb_refl. exact IH.
Qed.

Lemma every_lower (w : string) :
  every (fun c => Ascii.eqb (lower c) c) w = true -> toLowerCase w = w.
Proof.
  induction w as [ | c w IH ]; [ reflexivity | ].
  cbn [toLowerCase every]. intros H. apply andb_true_iff in H.
  destruct H as [ Hc Hw ]. apply Ascii.eqb_eq in Hc. rewrite Hc, (IH Hw).
  reflexivity.
Qed.

Lemma importance_three (c : count) : In (importance c) ["high"; "medium"; "low"].
Proof.
  unfold importance.
  destruct (ngt (count_number c) (of_Z 5)); [ left; reflexivity | ].
  destruct (ngt (count_number c) (of_Z 2)); cbn [In]; auto.
Qed.

End KeywordFacts.

(** X18. The keyword extraction returns between one and twelve entries and
    no entry twice.  When the titles and descriptions have no word to
    count (no word of more than four characters outside the stop words)
    it returns the single default entry "content" of medium importance. *)
Theorem X18_keywords_one_to_twelve (videoData : list Video.t) :
  1 <= List.length (AIService.extractKeywords videoData) <= 12 /\
  NoDup (AIService.extractKeywords videoData) /\
  (keyword_words videoData = [] ->
   AIService.extractKeywords videoData =
   [AIService.object [("keyword", "content"); ("importance", "medium")]]).
Proof.
  rewrite KeywordFacts.extractKeywords_ranking.
  pose proof (KeywordFacts.ranking_keys_NoDup (keyword_words videoData)) as N.
  assert (L : List.length (ranking (keyword_words videoData)) <= 12)
    by apply firstn_le_length.
  split; [ | split ].
  - destruct (ranking (keyword_words videoData)) as [ | e l ];
      [ cbn; lia | ].
    rewrite length_map. cbn [List.length] in *. lia.
  - destruct (ranking (keyword_words videoData)) as [ | e l ] eqn:R.
    + constructor; [ intros [] | constructor ].
    + apply (KeywordFacts.NoDup_map_key fst); [ | exact N ].
      intros a b E. unfold AIService.keyword_entry, AIService.object in E.
      cbn in E. congruence.
  - intros W. rewrite (proj2 (KeywordFacts.ranking_nil (keyword_words videoData))).
    + reflexivity.
    + rewrite W. intros w [].
Qed.

Lemma X18_keywords_witness :
  1 <= List.length (AIService.extractKeywords [MoreSamples.plain_video "a b" "c"])
    <= 12 /\
  NoDup (AIService.extractKeywords [MoreSamples.plain_video "a b" "c"]) /\
  AIService.extractKeywords [MoreSamples.plain_video "a b" "c"] =
    [AIService.object [("keyword", "content"); ("importance", "medium")]].
Proof.
  destruct (X18_keywords_one_to_twelve [MoreSamples.plain_video "a b" "c"])
    as (H1 & H2 & H3).
  split; [ exact H1 | split; [ exact H2 | apply H3; reflexivity ] ].
Defined.

(** X19. Every entry that the keyword extraction returns, the default one
    apart, is a lower-case word of the titles and descriptions that has
    more than four characters and is no stop word, and its importance
    follows the number of times the word occurs: high above five, medium
    above two, low otherwise.  The word "constructor" is the exception: its
    count is not a number and its importance is low however often it
    occurs. *)
Theorem X19_keyword_importance (videoData : list Video.t) (e : AIService.json) :
  In e (AIService.extractKeywords videoData) ->
  e = AIService.object [("keyword", "content"); ("importance", "medium")] \/
  exists w,
    In w (AIService.split_spaces (toLowerCase (keyword_text videoData))) /\
    4 < String.length w /\
    ~ In w ["video"; "watch"; "subscribe"] /\
    e = AIService.object
          [("keyword", w);
           ("importance",
            if String.eqb w "constructor" then "low"
            else importance_of (occurrences (keyword_words videoData) w))].
Proof.
  rewrite KeywordFacts.extractKeywords_ranking.
  destruct (ranking (keyword_words videoData)) as [ | e0 l ] eqn:R.
  - intros [ <- | [] ]. left. reflexivity.
  - rewrite <- R. intros H. right.
    apply in_map_iff in H. destruct H as ([ w c ] & <- & H).
    apply KeywordFacts.ranking_count in H.
    destruct (KeywordFacts.count_after_Some _ _ _ H) as (_ & I & Imp).
    unfold keyword_words in I. apply filter_In in I. destruct I as [ I C ].
    unfold AIService.counted_word in C. apply andb_true_iff in C.
    destruct C as [ C1 C2 ]. exists w. split; [ exact I | ].
    split; [ apply Nat.ltb_lt, C1 | ]. split.
    + intros S. apply negb_true_iff in C2.
      assert (X : existsb (String.eqb w) AIService.stopwords = true).
      { apply existsb_exists. exists w. split; [ exact S | apply String.eqb_refl ]. }
      rewrite X in C2. discriminate C2.
    + cbn [fst snd]. rewrite Imp. reflexivity.
Qed.

Lemma X19_keyword_importance_witness :
  AIService.object [("keyword", "tricks"); ("importance", "medium")] =
  AIService.object [("keyword", "content"); ("importance", "medium")] \/
  exists w,
    In w (AIService.split_spaces
            (toLowerCase
               (keyword_text
                  [MoreSamples.plain_video "Tricks tricks" "more TRICKS"]))) /\
    4 < String.length w /\
    ~ In w ["video"; "watch"; "subscribe"] /\
    AIService.object [("keyword", "tricks"); ("importance", "medium")] =
    AIService.object
      [("keyword", w);
       ("importance",
        if String.eqb w "constructor" then "low"
        else importance_of
               (occurrences
                  (keyword_words
                     [MoreSamples.plain_video "Tricks tricks" "more TRICKS"]) w))].
Proof.
  apply (X19_keyword_importance
           [MoreSamples.plain_video "Tricks tricks" "more TRICKS"]).
  left. reflexivity.
Defined.

(** X20. When the word "constructor" is not among the counted words, the
    keywords come in descending order of their number of occurrences, and
    they are the most frequent ones: a counted word that is left out (which
    happens only when twelve keywords are returned) occurs no more often
    than any keyword returned. *)
Theorem X20_keywords_are_the_most_frequent (videoData : list Video.t) :
  let words := keyword_words videoData in
  ~ In "constructor" words ->
  exists ws,
    (ws <> [] ->
     AIService.extractKeywords videoData =
     map (fun w => AIService.object
                     [("keyword", w);
                      ("importance", importance_of (occurrences words w))]) ws) /\
    NoDup ws /\
    (forall w, In w ws -> In w words) /\
    StronglySorted (fun a b => occurrences words b <= occurrences words a) ws /\
    (forall w, In w words -> w <> "__proto__" -> ~ In w ws ->
       List.length ws = 12 /\
       forall w', In w' ws -> occurrences words w <= occurrences words w').
Proof.
  intros words NC.
  destruct (KeywordFacts.sorted_table words NC) as [ D P ].
  set (wc := fold_left AIService.bump words []) in *.
  set (sorted := sort by_count (AIService.Object_entries wc)) in *.
  assert (Hnum : forall e, In e sorted ->
            snd e = AIService.Times (occurrences words (fst e)) /\
            In (fst e) words).
  { intros e He. apply (KeywordFacts.table_numbered words e NC).
    apply (Permutation_in _ P), He. }
  assert (Hkey : forall e, In e sorted ->
            count_key e = Z.of_nat (occurrences words (fst e))).
  { intros e He. apply KeywordFacts.count_key_Times, (Hnum e He). }
  assert (Split : sorted = (ranking words ++ skipn 12 sorted)%list).
  { unfold ranking. fold wc. fold sorted. symmetry. apply firstn_skipn. }
  assert (Hin : forall e, In e (ranking words) -> In e sorted).
  { intros e He. rewrite Split. apply in_or_app. left. exact He. }
  unfold descending in D. rewrite Split in D.
  apply KeywordFacts.StronglySorted_app_inv in D. destruct D as [ D1 D2 ].
  exists (map fst (ranking words)). split; [ | split; [ | split; [ | split ] ] ].
  - intros NE. rewrite KeywordFacts.extractKeywords_ranking. fold words.
    destruct (ranking words) as [ | e0 l ] eqn:R; [ contradiction NE; reflexivity | ].
    rewrite <- R in *. rewrite map_map. apply map_ext_in. intros e He.
    destruct (Hnum e (Hin e He)) as [ E _ ].
    rewrite E, KeywordFacts.importance_Times. reflexivity.
  - apply KeywordFacts.ranking_keys_NoDup.
  - intros w Hw. apply in_map_iff in Hw. destruct Hw as (e & <- & He).
    apply (Hnum e (Hin e He)).
  - apply (KeywordFacts.StronglySorted_map_in fst
             (fun x y => (count_key y <= count_key x)%Z)); [ | exact D1 ].
    intros a b Ha Hb Hab. rewrite (Hkey a (Hin a Ha)), (Hkey b (Hin b Hb)) in Hab.
    lia.
  - intros w Hw Pw Nw.
    assert (Hc : In (w, AIService.Times (occurrences words w)) wc).
    { apply KeywordFacts.own_In.
      destruct (KeywordFacts.own_counted words w) as [ E _ ]. fold wc in E.
      rewrite E. unfold count_after. apply String.eqb_neq in Pw. rewrite Pw.
      assert (O : 0 < occurrences words w)
        by (apply (count_occ_In string_dec), Hw).
      destruct (occurrences words w) as [ | n ] eqn:On; [ lia | ].
      destruct (String.eqb_spec w "constructor") as [ -> | _ ];
        [ contradiction | reflexivity ]. }
    apply (Permutation_in _ (Permutation_sym P)) in Hc.
    assert (Hs : In (w, AIService.Times (occurrences words w)) (skipn 12 sorted)).
    { rewrite Split in Hc. apply in_app_or in Hc. destruct Hc as [ Hc | Hc ].
      - exfalso. apply Nw. apply (in_map fst _ _ Hc).
      - exact Hc. }
    split.
    + rewrite length_map. unfold ranking. fold wc. fold sorted.
      rewrite length_firstn. apply Nat.min_l.
      destruct (Nat.le_gt_cases 12 (List.length sorted)) as [ L | L ]; [ exact L | ].
      rewrite skipn_all2 in Hs by lia. destruct Hs.
    + intros w' Hw'. apply in_map_iff in Hw'. destruct Hw' as (e & <- & He).
      specialize (D2 e _ He Hs).
      rewrite (Hkey e (Hin e He)) in D2.
      rewrite (KeywordFacts.count_key_Times
                 (w, AIService.Times (occurrences words w))
                 (occurrences words w) eq_refl) in D2. lia.
Qed.

Lemma X20_keywords_witness :
  let videoData :=
    [MoreSamples.plain_video "Tricks tricks lights" "more TRICKS lights"] in
  let words := keyword_words videoData in
  exists ws,
    (ws <> [] ->
     AIService.extractKeywords videoData =
     map (fun w => AIService.object
                     [("keyword", w);
                      ("importance", importance_of (occurrences words w))]) ws) /\
    NoDup ws /\
    (forall w, In w ws -> In w words) /\
    StronglySorted (fun a b => occurrences words b <= occurrences words a) ws.
Proof.
  intros videoData words.
  destruct (X20_keywords_are_the_most_frequent videoData)
    as (ws & H & N & I & S & _).
  - vm_compute. intros [ E | [ E | [ E | [ E | [ E | [] ] ] ] ] ]; discriminate E.
  - exists ws. repeat split; assumption.
Defined.

(** X21. Every keyword returned is a plain word: more than four characters
    long, without white space and without an upper-case letter; and its
    importance is one of "high", "medium" and "low".  This holds for the
    default entry too. *)
Theorem X21_keywords_are_plain_words (videoData : list Video.t)
    (e : AIService.json) :
  In e (AIService.extractKeywords videoData) ->
  exists w imp,
    e = AIService.object [("keyword", w); ("importance", imp)] /\
    4 < String.length w /\
    every no_space w = true /\
    toLowerCase w = w /\
    In imp ["high"; "medium"; "low"].
Proof.
  rewrite KeywordFacts.extractKeywords_ranking.
  destruct (ranking (keyword_words videoData)) as [ | e0 l ] eqn:R.
  - intros [ <- | [] ]. exists "content", "medium".
    split; [ reflexivity | ]. split; [ cbn; lia | ].
    split; [ reflexivity | ]. split; [ reflexivity | cbn; auto ].
  - rewrite <- R. intros H.
    apply in_map_iff in H. destruct H as ([ w c ] & <- & H).
    apply KeywordFacts.ranking_count in H.
    destruct (KeywordFacts.count_after_Some _ _ _ H) as (_ & I & _).
    unfold keyword_words in I. apply filter_In in I. destruct I as [ I C ].
    unfold AIService.counted_word in C. apply andb_true_iff in C.
    destruct C as [ C1 _ ].
    exists w, (AIService.importance c). cbn [fst snd].
    split; [ reflexivity | ]. split; [ apply Nat.ltb_lt, C1 | ].
    split; [ | split ].
    + apply (KeywordFacts.split_spaces_every no_space _ w (or_intror eq_refl) I).
    + apply KeywordFacts.every_lower.
      apply (KeywordFacts.split_spaces_every _ _ w
               (or_introl (KeywordFacts.toLowerCase_every _)) I).
    + apply KeywordFacts.importance_three.
Qed.

Lemma X21_keywords_witness :
  exists w imp,
    AIService.object [("keyword", "tricks"); ("importance", "medium")] =
    AIService.object [("keyword", w); ("importance", imp)] /\
    4 < String.length w /\
    every no_space w = true /\
    toLowerCase w = w /\
    In imp ["high"; "medium"; "low"].
Proof.
  apply (X21_keywords_are_plain_words
           [MoreSamples.plain_video "Tricks tricks" "more TRICKS"]).
  left. reflexivity.
Defined.

(** ** The report and the request handler *)

(** X22. The analysis of a dataset sends at most three prompts, in the
    order features, sentiment, hooks, each only when its analyzer asks the
    model (a usable transcript; five comments or more; no spectacular
    title), and no prompt is longer than 2200 characters whatever the size
    of the dataset.  The report carries the handle and the two totals of
    the dataset, the time of the call, and the keywords of the videos,
    whatever the model answers. *)
Theorem X22_report_and_prompts (generate : string -> result string)
    (JSON_parse : string -> result AIService.json)
    (ToNumber : AIService.json -> number) (now : string) (ds : Dataset.t)
    (calls : list string) :
  let out :=
    AIService.generateIntelligence generate JSON_parse ToNumber now ds calls in
  snd out = (calls ++ prompts_of ds)%list /\
  List.length (prompts_of ds) <= 3 /\
  Forall (fun prompt => String.length prompt <= 2200) (prompts_of ds) /\
  AIService.Report.channelHandle (fst out) = Dataset.channelHandle ds /\
  AIService.Report.analyzedAt (fst out) = now /\
  AIService.Report.keywords (fst out) =
    AIService.JArr (AIService.extractKeywords (Dataset.videos ds)) /\
  AIService.Report.videosAnalyzed (fst out) = Dataset.totalVideosAnalyzed ds /\
  AIService.Report.commentsAnalyzed (fst out) = Dataset.totalComments ds.
Proof.
  intros out.
  destruct (AnalyzerMore.generateIntelligence_run generate JSON_parse ToNumber
              now ds calls) as (T & R).
  split; [ exact T | ].
  assert (L : forall n s, String.length (substring 0 n s) <= n).
  { intros n s. pose proof (AnalyzerMore.length_substring_0 n s). lia. }
  split; [ | split; [ | exact R ] ].
  - unfold prompts_of, features_prompts, sentiment_prompts, hooks_prompts.
    destruct (existsb usable _), (_ <? 5)%nat, (spectacular _); cbn; lia.
  - unfold prompts_of. repeat (apply Forall_app; split).
    + unfold features_prompts. destruct (existsb usable _); constructor;
        [ | constructor ].
      unfold AIService.features_prompt. rewrite !AnalyzerMore.length_append.
      pose proof (L 2000 (join (AIService.nl ++ AIService.nl)
                            (usable_texts (map Video.transcript (Dataset.videos ds))))).
      cbn in *. lia.
    + unfold sentiment_prompts. destruct (_ <? 5)%nat; constructor;
        [ | constructor ].
      unfold AIService.sentiment_prompt. rewrite !AnalyzerMore.length_append.
      pose proof (L 2000 (join AIService.nl
                            (map Comment.text
                               (flat_map Video.comments (Dataset.videos ds))))).
      cbn in *. lia.
    + unfold hooks_prompts. destruct (spectacular _); constructor;
        [ | constructor ].
      unfold AIService.hooks_prompt. rewrite !AnalyzerMore.length_append.
      pose proof (L 1500 (join AIService.nl
                            (map Video.title (Dataset.videos ds)))).
      cbn in *. lia.
Qed.

Module HandlerFacts.
Import Server.

Section Handler.
Context (youtubeService : YouTubeService.Provider)
        (generate : string -> result string)
        (JSON_parse : string -> result AIService.json)
        (ToNumber : AIService.json -> number)
        (Date_parse : string -> number) (now : string).

(** The handler after a collection that succeeded. *)
Lemma analyze_collected (channelHandle : string) (ds : Dataset.t)
    (calls : list string) :
  channelHandle <> "" ->
  YouTubeService.gatherChannelIntelligence youtubeService channelHandle = Ok ds ->
  let report :=
    AIService.generateIntelligence generate JSON_parse ToNumber now ds calls in
  analyze youtubeService generate JSON_parse ToNumber Date_parse now
    (Some channelHandle) calls =
  (match calculateEnhancedMetrics Date_parse ds with
   | Throw error => {| status := 500; body := Failed (exn_message error) |}
   | Ok metrics =>
       {| status := 200;
          body := Analyzed (fst report) metrics (Dataset.channelStats ds)
                    (getVideoBreakdown (Dataset.videos ds)) |}
   end, snd report).
Proof.
  intros Hne G report. unfold analyze. rewrite G.
  destruct channelHandle as [ | c h ]; [ congruence | ].
  unfold AIService.mbind. fold report. destruct report as [ r calls' ].
  cbn [fst snd]. destruct (calculateEnhancedMetrics Date_parse ds); reflexivity.
Qed.

Lemma analyze_failed (channelHandle : string) (e : exn) (calls : list string) :
  channelHandle <> "" ->
  YouTubeService.gatherChannelIntelligence youtubeService channelHandle = Throw e ->
  analyze youtubeService generate JSON_parse ToNumber Date_parse now
    (Some channelHandle) calls =
  ({| status := 500; body := Failed (exn_message e) |}, calls).
Proof.
  intros Hne G. unfold analyze. rewrite G.
  destruct channelHandle as [ | c h ]; [ congruence | reflexivity ].
Qed.

Lemma analyze_status (channelHandle : string) (calls : list string) :
  channelHandle <> "" ->
  let out :=
    analyze youtubeService generate JSON_parse ToNumber Date_parse now
      (Some channelHandle) calls in
  status (fst out) = 500 \/ status (fst out) = 200.
Proof.
  intros Hne out. subst out.
  destruct (YouTubeService.gatherChannelIntelligence youtubeService channelHandle)
    as [ ds | e ] eqn:G.
  - rewrite (analyze_collected _ _ calls Hne G). cbn [fst].
    destruct (calculateEnhancedMetrics Date_parse ds); cbn [status]; auto.
  - rewrite (analyze_failed _ _ calls Hne G). cbn [fst status]. auto.
Qed.

End Handler.

End HandlerFacts.

Module GuardFacts.
Import Server.

(** A sum of counters that are all zero is zero, and a sum with a counter
    that is not a number is not a number. *)
Lemma sum_of_zero (f : Video.t -> number) (videos : list Video.t) :
  (forall v, In v videos -> f v = zero) -> sum_of f videos = zero.
Proof.
  unfold sum_of. induction videos as [ | v l IH ]; intros H; cbn [fold_left].
  - reflexivity.
  - rewrite (H v (or_introl eq_refl)).
    change (nadd zero zero) with zero.
    apply IH. intros w Hw. apply H. right. exact Hw.
Qed.

Lemma nadd_NaN_r (x : number) : nadd x NaN = NaN.
Proof. destruct x; reflexivity. Qed.

Lemma fold_NaN (f : Video.t -> number) (videos : list Video.t) :
  fold_left (fun sum v => nadd sum (f v)) videos NaN = NaN.
Proof.
  induction videos as [ | v l IH ]; cbn [fold_left]; [ reflexivity | exact IH ].
Qed.

Lemma sum_of_NaN (f : Video.t -> number) (videos : list Video.t) :
  (exists v, In v videos /\ f v = NaN) -> sum_of f videos = NaN.
Proof.
  unfold sum_of. generalize zero.
  induction videos as [ | v l IH ]; intros a (x & Hx & E); [ destruct Hx | ].
  cbn [fold_left]. destruct Hx as [ -> | Hx ].
  - rewrite E, nadd_NaN_r. apply fold_NaN.
  - apply IH. exists x. split; assumption.
Qed.

(** Without a positive total of views the two rates are the guarded zero. *)
Lemma rates_guarded (Date_parse : string -> number) (ds : Dataset.t) :
  Dataset.videos ds <> [] ->
  ngt (sum_of views (Dataset.videos ds)) zero = false ->
  exists m,
    calculateEnhancedMetrics Date_parse ds = Ok m /\
    Metrics.totalViews m = sum_of views (Dataset.videos ds) /\
    Metrics.engagementRate m = zero /\
    Metrics.commentRate m = zero.
Proof.
  intros N G. destruct (MetricsFacts.bestVideo_some _ N) as [ best B ].
  unfold calculateEnhancedMetrics. rewrite B. eexists.
  split; [ reflexivity | ].
  cbn [Metrics.totalViews Metrics.engagementRate Metrics.commentRate].
  fold (sum_of views (Dataset.videos ds)). rewrite G.
  repeat split.
Qed.

(** The guard of a row reads the view counter without the default that the
    [views] field has, and lets through no more. *)
Lemma row_guard (c : field) :
  ngt (parseInt (or_zero c)) zero = false ->
  ngt (parseInt (ToString c)) zero = false.
Proof.
  destruct c as [ [ | a s ] | ]; intros H; [ reflexivity | exact H | reflexivity ].
Qed.

End GuardFacts.

(** X23. The handler answers with status 400 exactly when the request has
    no channel handle or an empty one; the body is then the error "Channel
    handle is required" and no prompt has been sent.  In every other case
    the status is 500 or 200. *)
Theorem X23_handle_is_required (youtubeService : YouTubeService.Provider)
    (generate : string -> result string)
    (JSON_parse : string -> result AIService.json)
    (ToNumber : AIService.json -> number) (Date_parse : string -> number)
    (now : string) (channelHandle : option string) (calls : list string) :
  let out :=
    Server.analyze youtubeService generate JSON_parse ToNumber Date_parse now
      channelHandle calls in
  (Server.status (fst out) = 400 <->
   channelHandle = None \/ channelHandle = Some "") /\
  (Server.status (fst out) = 400 ->
   Server.body (fst out) = Server.Rejected "Channel handle is required" /\
   snd out = calls) /\
  (Server.status (fst out) <> 400 ->
   Server.status (fst out) = 500 \/ Server.status (fst out) = 200).
Proof.
  intros out. subst out.
  destruct channelHandle as [ [ | c h ] | ].
  - cbn. repeat split; auto; congruence.
  - assert (Hne : String c h <> "") by discriminate.
    pose proof (HandlerFacts.analyze_status youtubeService generate JSON_parse
                  ToNumber Date_parse now (String c h) calls Hne) as S.
    cbv zeta in S. split; [ split | split ].
    + intros E. destruct S as [ S | S ]; rewrite S in E; discriminate E.
    + intros [ E | E ]; discriminate E.
    + intros E. destruct S as [ S | S ]; rewrite S in E; discriminate E.
    + intros _. exact S.
  - cbn. repeat split; auto; congruence.
Qed.

(** X24. For a handle that is not empty, a collection that fails is
    answered with status 500 and the message of its error, and no prompt
    is sent.  A collection that succeeds is followed by the prompts of the
    analysis, and the answer is then 500 exactly when the dataset has no
    video: the handler does not check this before the analysis, so one
    prompt for the hooks, with no title in it, is sent first, and the error
    reported is the one of reading the title of an undefined video. *)
Theorem X24_failures_answer_500 (youtubeService : YouTubeService.Provider)
    (generate : string -> result string)
    (JSON_parse : string -> result AIService.json)
    (ToNumber : AIService.json -> number) (Date_parse : string -> number)
    (now : string) (channelHandle : string) (calls : list string) :
  channelHandle <> "" ->
  let out :=
    Server.analyze youtubeService generate JSON_parse ToNumber Date_parse now
      (Some channelHandle) calls in
  match YouTubeService.gatherChannelIntelligence youtubeService channelHandle with
  | Throw e =>
      fst out = {| Server.status := 500;
                   Server.body := Server.Failed (exn_message e) |} /\
      snd out = calls
  | Ok ds =>
      snd out = (calls ++ prompts_of ds)%list /\
      (Server.status (fst out) = 500 <-> Dataset.videos ds = []) /\
      (Dataset.videos ds = [] ->
       fst out =
         {| Server.status := 500;
            Server.body :=
              Server.Failed
                "Cannot read properties of undefined (reading 'title')" |} /\
       prompts_of ds = [AIService.hooks_prompt ""])
  end.
Proof.
  intros Hne out. subst out.
  destruct (YouTubeService.gatherChannelIntelligence youtubeService channelHandle)
    as [ ds | e ] eqn:G.
  - rewrite (HandlerFacts.analyze_collected youtubeService generate JSON_parse
               ToNumber Date_parse now _ _ calls Hne G). cbn [fst snd].
    destruct (AnalyzerMore.generateIntelligence_run generate JSON_parse ToNumber
                now ds calls) as (T & _).
    split; [ exact T | ]. split; [ split | ].
    + destruct (Server.calculateEnhancedMetrics Date_parse ds) as [ m | e ] eqn:C.
      * cbn [Server.status]. discriminate.
      * intros _. destruct (Dataset.videos ds) as [ | v l ] eqn:V;
          [ reflexivity | ].
        assert (N : Dataset.videos ds <> []) by (rewrite V; discriminate).
        destruct (MetricsFacts.bestVideo_some _ N) as [ best B ].
        destruct (MetricsFacts.calculate_fields Date_parse ds best B)
          as (m & Hm & _).
        rewrite Hm in C. discriminate C.
    + intros V. unfold Server.calculateEnhancedMetrics. rewrite V. reflexivity.
    + intros V. split.
      * unfold Server.calculateEnhancedMetrics. rewrite V. reflexivity.
      * unfold prompts_of, features_prompts, sentiment_prompts, hooks_prompts.
        rewrite V. reflexivity.
  - rewrite (HandlerFacts.analyze_failed youtubeService generate JSON_parse
               ToNumber Date_parse now _ _ calls Hne G).
    split; reflexivity.
Qed.

Lemma X24_failures_witness :
  let out :=
    Server.analyze MoreSamples.quiet_provider Samples.no_model Samples.no_parser
      (fun _ => NaN) Samples.sample_dates "2024-02-01T00:00:00.000Z"
      (Some "@channel") [] in
  fst out =
    {| Server.status := 500;
       Server.body :=
         Server.Failed "Cannot read properties of undefined (reading 'title')" |} /\
  snd out = [AIService.hooks_prompt ""].
Proof.
  intros out.
  pose proof (X24_failures_answer_500 MoreSamples.quiet_provider Samples.no_model
                Samples.no_parser (fun _ => NaN) Samples.sample_dates
                "2024-02-01T00:00:00.000Z" "@channel" []) as H.
  cbv zeta in H. specialize (H ltac:(discriminate)).
  change (YouTubeService.gatherChannelIntelligence MoreSamples.quiet_provider
            "@channel")
    with (Ok (A := Dataset.t)
            (Dataset.mk "UC1" "@channel" Samples.channel [] (of_nat 0) (of_nat 0)))
    in H.
  destruct H as (T & _ & E). destruct (E eq_refl) as [ E1 E2 ].
  split; [ exact E1 | ]. fold out in T. rewrite T, E2. reflexivity.
Defined.

(** X25. An answer with status 200 carries the analysis of the collected
    dataset: the handle of the request was collected into a dataset with
    at least one video; the report is the one of the analysis of that
    dataset and names the handle as it was sent; the metrics are those of
    the dataset; the channel information is the channel statistics that
    were collected; and the breakdown has one row per video.  The number of
    videos agrees between the report, the metrics and the breakdown, and
    the number of comments between the report and the metrics. *)
Theorem X25_success_payload (youtubeService : YouTubeService.Provider)
    (generate : string -> result string)
    (JSON_parse : string -> result AIService.json)
    (ToNumber : AIService.json -> number) (Date_parse : string -> number)
    (now : string) (channelHandle : option string) (calls : list string) :
  let out :=
    Server.analyze youtubeService generate JSON_parse ToNumber Date_parse now
      channelHandle calls in
  Server.status (fst out) = 200 ->
  exists handle ds report metrics,
    channelHandle = Some handle /\
    YouTubeService.gatherChannelIntelligence youtubeService handle = Ok ds /\
    Dataset.videos ds <> [] /\
    report =
      fst (AIService.generateIntelligence generate JSON_parse ToNumber now ds
             calls) /\
    Server.calculateEnhancedMetrics Date_parse ds = Ok metrics /\
    Server.body (fst out) =
      Server.Analyzed report metrics (Dataset.channelStats ds)
        (Server.getVideoBreakdown (Dataset.videos ds)) /\
    AIService.Report.channelHandle report = handle /\
    AIService.Report.videosAnalyzed report = Metrics.videosAnalyzed metrics /\
    Metrics.videosAnalyzed metrics =
      of_nat (List.length (Server.getVideoBreakdown (Dataset.videos ds))) /\
    AIService.Report.commentsAnalyzed report = Metrics.commentsProcessed metrics.
Proof.
  intros out H. subst out.
  destruct channelHandle as [ [ | c h ] | ]; [ discriminate H | | discriminate H ].
  assert (Hne : String c h <> "") by discriminate.
  destruct (YouTubeService.gatherChannelIntelligence youtubeService (String c h))
    as [ ds | e ] eqn:G.
  - rewrite (HandlerFacts.analyze_collected youtubeService generate JSON_parse
               ToNumber Date_parse now _ _ calls Hne G) in H |- *.
    cbn [fst] in H |- *.
    destruct (Server.calculateEnhancedMetrics Date_parse ds) as [ m | e ] eqn:C;
      [ | discriminate H ].
    destruct (AnalyzerMore.generateIntelligence_run generate JSON_parse ToNumber
                now ds calls) as (_ & R1 & _ & _ & R2 & R3).
    destruct (MetricsFacts.calculate_Ok_inv _ _ _ C) as (V & P & _).
    destruct (CollectFacts.gather_Ok _ _ _ G)
      as (_ & _ & _ & _ & _ & _ & _ & Hn & _).
    assert (L : Metrics.videosAnalyzed m = of_nat (List.length (Dataset.videos ds))).
    { unfold Server.calculateEnhancedMetrics in C.
      destruct (Server.bestVideo (Dataset.videos ds)); [ | discriminate C ].
      injection C as <-. reflexivity. }
    exists (String c h), ds,
      (fst (AIService.generateIntelligence generate JSON_parse ToNumber now ds
              calls)), m.
    split; [ reflexivity | ]. split; [ exact G | ]. split; [ exact V | ].
    split; [ reflexivity | ]. split; [ exact C | ].
    split; [ reflexivity | ].
    split; [ rewrite R1; apply (CollectMore.gather_handle _ _ _ G) | ].
    split; [ rewrite R2, L; exact Hn | ].
    split.
    + rewrite L. apply f_equal. symmetry. unfold Server.getVideoBreakdown.
      rewrite (Permutation_length (SortFacts.sort_perm _ _)). apply length_map.
    + rewrite R3. symmetry. exact P.
  - rewrite (HandlerFacts.analyze_failed youtubeService generate JSON_parse
               ToNumber Date_parse now _ _ calls Hne G) in H.
    discriminate H.
Qed.

Lemma X25_success_witness :
  let out :=
    Server.analyze Samples.provider MoreSamples.chatty_model
      MoreSamples.small_parser (fun _ => NaN) Samples.sample_dates
      "2024-02-01T00:00:00.000Z" (Some "@channel") [] in
  exists report metrics,
    Server.body (fst out) =
      Server.Analyzed report metrics Samples.channel
        (Server.getVideoBreakdown (Dataset.videos Samples.collected)) /\
    AIService.Report.channelHandle report = "@channel" /\
    Metrics.videosAnalyzed metrics = of_nat 2 /\
    AIService.Report.commentsAnalyzed report = Metrics.commentsProcessed metrics.
Proof.
  intros out.
  destruct (X25_success_payload Samples.provider MoreSamples.chatty_model
              MoreSamples.small_parser (fun _ => NaN) Samples.sample_dates
              "2024-02-01T00:00:00.000Z" (Some "@channel") [])
    as (handle & ds & report & metrics & E & G & _ & _ & _ & B & H1 & _ & H3 & H4).
  - vm_compute. reflexivity.
  - injection E as <-.
    assert (D : ds = Samples.collected).
    { unfold Samples.collected. rewrite G. reflexivity. }
    subst ds. exists report, metrics.
    split; [ exact B | ]. split; [ exact H1 | ]. split; [ | exact H4 ].
    rewrite H3. reflexivity.
Defined.

(** ** The guards of the rates *)

(** X26. When no video of the dataset has a view, or when the view counter
    of some video is not a number, the engagement rate and the comment rate
    of the metrics are 0: the division by the total of the views is
    guarded, and a total that is not a number does not pass the guard. *)
Theorem X26_rates_without_views (Date_parse : string -> number)
    (ds : Dataset.t) :
  Dataset.videos ds <> [] ->
  (forall v, In v (Dataset.videos ds) -> Server.views v = zero) \/
  (exists v, In v (Dataset.videos ds) /\ Server.views v = NaN) ->
  exists m,
    Server.calculateEnhancedMetrics Date_parse ds = Ok m /\
    Metrics.engagementRate m = zero /\
    Metrics.commentRate m = zero.
Proof.
  intros N H.
  destruct (GuardFacts.rates_guarded Date_parse ds N) as (m & E & _ & R).
  - destruct H as [ H | H ].
    + rewrite (GuardFacts.sum_of_zero _ _ H). reflexivity.
    + rewrite (GuardFacts.sum_of_NaN _ _ H). reflexivity.
  - exists m. split; [ exact E | exact R ].
Qed.

Lemma X26_rates_witness :
  exists m,
    Server.calculateEnhancedMetrics Samples.sample_dates
      (Samples.dataset_of [Samples.video_b; MoreSamples.uncounted_video]) = Ok m /\
    Metrics.engagementRate m = zero /\
    Metrics.commentRate m = zero.
Proof.
  apply (X26_rates_without_views Samples.sample_dates
           (Samples.dataset_of [Samples.video_b; MoreSamples.uncounted_video])).
  - discriminate.
  - right. exists MoreSamples.uncounted_video.
    split; [ right; left; reflexivity | reflexivity ].
Defined.

(** X27. A row of the breakdown whose number of views is not positive (a
    view counter that is zero, missing, empty or not a number) has the
    engagement rate "0.00". *)
Theorem X27_rows_without_views (videos : list Video.t) (e : Entry.t) :
  In e (Server.getVideoBreakdown videos) ->
  ngt (Entry.views e) zero = false ->
  Entry.engagementRate e = "0.00".
Proof.
  intros I G.
  apply (Permutation_in _ (SortFacts.sort_perm _ _)) in I.
  apply in_map_iff in I. destruct I as (v & <- & _).
  cbn [Server.breakdownEntry Entry.views Entry.engagementRate] in *.
  rewrite (GuardFacts.row_guard _ G). reflexivity.
Qed.

Lemma X27_rows_witness :
  Entry.engagementRate (Server.breakdownEntry MoreSamples.uncounted_video) =
  "0.00".
Proof.
  apply (X27_rows_without_views [Samples.video_b; MoreSamples.uncounted_video]).
  - right. left. reflexivity.
  - reflexivity.
Defined.
